(** * metronotescli/setup.py: configuration files and database bootstrap

  A shallow embedding of [metronotescli/setup.py].  Python dictionaries are
  stdpp finite maps keyed by strings, the file system is a finite map from
  absolute normalised paths to nodes, and every function that touches the
  outside world is a computation in a small state-and-exception monad over
  a [World].  The [os.path] functions are the ones of [posixpath], and a
  [str] is carried as the bytes of its UTF-8 encoding. *)

From Stdlib Require Import ZArith QArith Ascii String DecimalString.
From stdpp Require Import gmap strings list fin_maps.

Open Scope string_scope.
Open Scope Z_scope.

(** ** Python string primitives *)

Module PyStr.

Definition chr_eqb (a b : ascii) : bool := Ascii.eqb a b.

(** [c in s] for a one-character [c]. *)
Fixpoint contains (c : ascii) (s : string) : bool :=
  match s with
  | EmptyString => false
  | String a s' => chr_eqb a c || contains c s'
  end.

Definition startswith (s p : string) : bool := String.prefix p s.

Fixpoint endswith_chr (s : string) (c : ascii) : bool :=
  match s with
  | EmptyString => false
  | String a EmptyString => chr_eqb a c
  | String _ s' => endswith_chr s' c
  end.

(** [s.split(c)] for a one-character separator: never returns the empty
    list, and keeps empty fields. *)
Fixpoint split (c : ascii) (s : string) : list string :=
  match s with
  | EmptyString => [EmptyString]
  | String a s' =>
      if chr_eqb a c then EmptyString :: split c s'
      else match split c s' with
           | [] => [String a EmptyString]
           | w :: ws => String a w :: ws
           end
  end.

(** [s.split(c, 1)]: at most one cut, at the first [c]. *)
Fixpoint split1 (c : ascii) (s : string) : string * option string :=
  match s with
  | EmptyString => (EmptyString, None)
  | String a s' =>
      if chr_eqb a c then (EmptyString, Some s')
      else let '(h, t) := split1 c s' in (String a h, t)
  end.

(** [sep.join(l)]. *)
Definition join (sep : string) (l : list string) : string :=
  String.concat sep l.

(** A [str] is carried as the bytes of its UTF-8 encoding, so a character
    is one to four bytes.  [isspace] is [str.isspace] on one character,
    given by its bytes: TAB, LF, VT, FF, CR, FS..US and SPACE; U+0085 and
    U+00A0; U+1680, U+2000..U+200A, U+2028, U+2029, U+202F, U+205F and
    U+3000. *)
Definition space1 (a : ascii) : bool :=
  let n := N_of_ascii a in
  ((9 <=? n) && (n <=? 13) || (28 <=? n) && (n <=? 32))%N.

Definition space2 (a b : ascii) : bool :=
  let n := N_of_ascii b in
  ((N_of_ascii a =? 194) && ((n =? 133) || (n =? 160)))%N.

Definition space3 (a b c : ascii) : bool :=
  let l := N_of_ascii a in
  let m := N_of_ascii b in
  let n := N_of_ascii c in
  ((l =? 225) && (m =? 154) && (n =? 128)
   || (l =? 226) && (m =? 128)
      && ((128 <=? n) && (n <=? 138) || (n =? 168) || (n =? 169) || (n =? 175))
   || (l =? 226) && (m =? 129) && (n =? 159)
   || (l =? 227) && (m =? 128) && (n =? 128))%N.

Definition isspace (c : string) : bool :=
  match c with
  | String a EmptyString => space1 a
  | String a (String b EmptyString) => space2 a b
  | String a (String b (String c EmptyString)) => space3 a b c
  | _ => false
  end.

(** [s.lstrip()]: whitespace characters are dropped from the left. *)
Fixpoint lstrip (s : string) : string :=
  match s with
  | EmptyString => EmptyString
  | String a s1 =>
      if space1 a then lstrip s1
      else match s1 with
           | EmptyString => s
           | String b s2 =>
               if space2 a b then lstrip s2
               else match s2 with
                    | EmptyString => s
                    | String c s3 => if space3 a b c then lstrip s3 else s
                    end
           end
  end.

(** [s.rstrip()]: what is left of [s] from a position on is empty when the
    character at that position is whitespace and only whitespace follows. *)
Fixpoint rstrip (s : string) : string :=
  match s with
  | EmptyString => EmptyString
  | String a s' =>
      let r := rstrip s' in
      if isspace (String a r) then EmptyString else String a r
  end.

Definition strip (s : string) : string := rstrip (lstrip s).

(** [bytes.decode('utf-8')] succeeds on the well-formed sequences: no
    stray continuation byte, no overlong form, no surrogate, nothing above
    U+10FFFF. *)
Definition continuation (a : ascii) : bool :=
  let n := N_of_ascii a in ((128 <=? n) && (n <=? 191))%N.

Definition second_of_three (a b : ascii) : bool :=
  let l := N_of_ascii a in
  let m := N_of_ascii b in
  (if l =? 224 then (160 <=? m) && (m <=? 191)
   else if l =? 237 then (128 <=? m) && (m <=? 159)
   else (225 <=? l) && (l <=? 239) && (128 <=? m) && (m <=? 191))%N.

Definition second_of_four (a b : ascii) : bool :=
  let l := N_of_ascii a in
  let m := N_of_ascii b in
  (if l =? 240 then (144 <=? m) && (m <=? 191)
   else if l =? 244 then (128 <=? m) && (m <=? 143)
   else (241 <=? l) && (l <=? 243) && (128 <=? m) && (m <=? 191))%N.

Fixpoint utf8_well_formed (s : string) : bool :=
  match s with
  | EmptyString => true
  | String a s1 =>
      let l := N_of_ascii a in
      if (l <? 128)%N then utf8_well_formed s1
      else match s1 with
           | EmptyString => false
           | String b s2 =>
               if ((194 <=? l) && (l <=? 223))%N
               then continuation b && utf8_well_formed s2
               else match s2 with
                    | EmptyString => false
                    | String c s3 =>
                        if ((224 <=? l) && (l <=? 239))%N
                        then second_of_three a b && continuation c
                             && utf8_well_formed s3
                        else match s3 with
                             | EmptyString => false
                             | String d s4 =>
                                 second_of_four a b && continuation c
                                 && continuation d && utf8_well_formed s4
                             end
                    end
           end
  end.

Definition decode_utf8 (b : string) : option string :=
  if utf8_well_formed b then Some b else None.

(** [s.rstrip(c)] for a one-character set. *)
Fixpoint rstrip_chr (c : ascii) (s : string) : string :=
  match s with
  | EmptyString => EmptyString
  | String a s' =>
      match rstrip_chr c s' with
      | EmptyString => if chr_eqb a c then EmptyString else String a EmptyString
      | r => String a r
      end
  end.

(** [str.lower] as far as the program needs it: the ASCII letters are
    lowered and every other byte is kept.  The program compares the result
    with ['y'] and does nothing else with it; lemma [lower_y] gives the
    strings that pass. *)
Definition lower_chr (a : ascii) : ascii :=
  let n := N_of_ascii a in
  if ((65 <=? n) && (n <=? 90))%N then ascii_of_N (n + 32) else a.

Fixpoint lower (s : string) : string :=
  match s with
  | EmptyString => EmptyString
  | String a s' => String (lower_chr a) (lower s')
  end.

(** [s.replace(old, new)] for a non-empty [old]: occurrences are replaced
    from the left and do not overlap.  [skip] counts the characters of an
    occurrence that was just replaced and are still to be dropped. *)
Fixpoint replace_from (old new : string) (skip : nat) (s : string) : string :=
  match s with
  | EmptyString => EmptyString
  | String a s' =>
      match skip with
      | S k => replace_from old new k s'
      | O =>
          if String.prefix old s
          then new ++ replace_from old new (Nat.pred (String.length old)) s'
          else String a (replace_from old new O s')
      end
  end.

Definition replace (old new s : string) : string := replace_from old new O s.

(** [fd.readlines()]: the lines of a text, each with its terminator. *)
Fixpoint readlines (s : string) : list string :=
  match s with
  | EmptyString => []
  | String a s' =>
      if chr_eqb a "010" then String a EmptyString :: readlines s'
      else match readlines s' with
           | [] => [String a EmptyString]
           | l :: ls => String a l :: ls
           end
  end.

(** What reading in text mode does to line ends: [\r\n] and a lone [\r]
    both arrive as [\n]. *)
Fixpoint universal_newlines (s : string) : string :=
match s with
| EmptyString => EmptyString
| String a s' =>
    if chr_eqb a "013" then
      String "010" match s' with
                   | String b s'' =>
                       if chr_eqb b "010" then universal_newlines s''
                       else universal_newlines s'
                   | EmptyString => EmptyString
                   end
    else String a (universal_newlines s')
end.

(** [str(n)] for an integer. *)
Definition of_int (z : Z) : string := NilZero.string_of_int (Z.to_int z).

(** [s * n]. *)
Fixpoint repeat (s : string) (n : nat) : string :=
  match n with
  | O => EmptyString
  | S k => s ++ repeat s k
  end.

(** [min] and [max] of two strings in code-point order. *)
Definition min2 (a b : string) : string := if String.leb a b then a else b.
Definition max2 (a b : string) : string := if String.leb a b then b else a.

End PyStr.

(** ** [os.path] on a POSIX host ([posixpath]) *)

Module PosixPath.
Import PyStr.

Definition sep : string := "/".

Definition isabs (p : string) : bool := startswith p sep.

(** One step of [join(a, *p)]: an absolute component restarts the path. *)
Definition join (a b : string) : string :=
  if startswith b sep then b
  else if (String.eqb a "") || endswith_chr a "/" then a ++ b
  else a ++ sep ++ b.

(** [(p[:i], p[i:])] with [i = p.rfind('/') + 1]. *)
Fixpoint cut_last_sep (p : string) : string * string :=
  match p with
  | EmptyString => (EmptyString, EmptyString)
  | String a p' =>
      let '(h, t) := cut_last_sep p' in
      match h with
      | EmptyString =>
          if chr_eqb a "/" then (String a EmptyString, p')
          else (EmptyString, String a t)
      | _ => (String a h, t)
      end
  end.

Definition split (p : string) : string * string :=
  let '(head, tail) := cut_last_sep p in
  let head :=
    if negb (String.eqb head "")
       && negb (String.eqb head (repeat sep (String.length head)))
    then rstrip_chr "/" head else head in
  (head, tail).

Definition dirname (p : string) : string := fst (split p).
Definition basename (p : string) : string := snd (cut_last_sep p).

(** The loop body of [normpath]; [new_comps] is kept in reverse. *)
Definition normpath_step (initial_slashes : nat) (new_comps : list string)
    (comp : string) : list string :=
  if String.eqb comp "" || String.eqb comp "." then new_comps
  else if negb (String.eqb comp "..")
          || ((initial_slashes =? 0)%nat && bool_decide (new_comps = []))
          || match new_comps with
             | last :: _ => String.eqb last ".."
             | [] => false
             end
  then comp :: new_comps
  else match new_comps with
       | _ :: rest => rest
       | [] => new_comps
       end.

Definition normpath (path : string) : string :=
  if String.eqb path "" then "."
  else
    let initial_slashes :=
      if startswith path sep then
        if startswith path "//" && negb (startswith path "///")
        then 2%nat else 1%nat
      else 0%nat in
    let comps := PyStr.split "/" path in
    let new_comps := rev (fold_left (normpath_step initial_slashes) comps []) in
    let path := PyStr.join sep new_comps in
    let path := repeat sep initial_slashes ++ path in
    if String.eqb path "" then "." else path.

(** [abspath], with the working directory passed in. *)
Definition abspath (cwd path : string) : string :=
  normpath (if isabs path then path else join cwd path).

Fixpoint common_prefix (s1 s2 : string) : string :=
  match s1, s2 with
  | String a s1', String b s2' =>
      if chr_eqb a b then String a (common_prefix s1' s2') else EmptyString
  | _, _ => EmptyString
  end.

(** [commonprefix([a, b])]: the longest common leading string, character
    by character, of the smaller and the larger of the two.  It is taken
    byte by byte here, so it can end inside a character of several bytes
    where Python's ends before that character; the program only compares
    it with one of the two paths, and that comparison has the same
    answer. *)
Definition commonprefix (a b : string) : string :=
  common_prefix (min2 a b) (max2 a b).

(** What [join(a, b)] puts before a relative [b]. *)
Definition join_base (a : string) : string :=
if String.eqb a "" || endswith_chr a "/" then a else a ++ sep.

(** The components of a path, and a path none of whose components is
    [.] *)
Abbreviation comps := (PyStr.split "/").

Definition no_dot (p : string) : Prop := "." ∉ comps p.

(** What [normpath] keeps: no empty component, no [.], no separator. *)
Definition kept (c : string) : Prop :=
c ≠ "" ∧ c ≠ "." ∧ contains "/" c = false.

End PosixPath.

(** ** Values, the file system and the world *)

(** Permission bits, written as Python writes them: [oct 7 5 5] is the mode 0o755. *)
Definition oct (u g o : Z) : Z := u * 64 + g * 8 + o.

(** A Python value as it occurs in a known-config dictionary or as the
    [default] of an argument specification.  A [float] or [Decimal] is
    carried as the rational it denotes. *)
Inductive value :=
| VNone
| VBool (b : bool)
| VInt (z : Z)
| VFloat (x : Q)
| VDecimal (x : Q)
| VStr (s : string).

(** One entry of [CONFIG_ARGS]: [arg[0]] is the tuple of flag names and
    [arg[1]] the keyword dictionary, of which only ['help'] and ['default']
    are read; [None] stands for an absent key. *)
Record arg_spec := ArgSpec {
  flags : list string;
  help : option string;
  default : option value
}.

(** A regular-file member of a tar archive. *)
Record member := Member {
  name : string;
  mmode : Z;
  data : string
}.

(** What a file holds: the bytes of a text, or a gzip-compressed tar
    archive. *)
Inductive blob :=
| Text (s : string)
| TarGz (members : list member).

Inductive node :=
| File (mode : Z) (content : blob)
| Dir (mode : Z).

Inductive exn :=
| FileNotFoundError (p : string)
| FileExistsError (p : string)
| NotADirectoryError (p : string)
| IsADirectoryError (p : string)
| UnicodeDecodeError
| KeyError (k : string)
| IndexError
| EOFError
| URLError (url : string)
| ReadError
| ShutilError (p : string)
| ConfigParserError
| RecursionError
| Exception (msg : string).

(** The mutable part of the process environment.  [fs] is keyed by absolute
    normalised paths; the root directory is always present (see [node_at]).
    Access permissions are recorded but never checked, and there are no
    symbolic links. *)
Record World := MkWorld {
  cwd : string;
  umask : Z;
  fs : gmap string node;
  stdin : list string;
  stdout : list string;
  urandom_calls : nat
}.

(** The part of the environment the program only reads: the platform, the
    directories chosen by [appdirs], the constants and argument schemas of
    the modules [setup.py] imports, and the library functions it calls.
    [decode] is [bytes.decode] in the encoding [open] uses when it is given
    none, the one of the locale; [None] stands for [UnicodeDecodeError]. *)
Record Host := MkHost {
  platform_system : string;
  userhome : string;
  environ : gmap string string;
  old_appdir : string;
  configdir : string;
  data_dir : string;
  APP_NAME : string;
  SERVER_CONFIG_ARGS : list arg_spec;
  CLIENT_CONFIG_ARGS : list arg_spec;
  format_8f : Q → string;
  decode : string → option string;
  configparser_read : string → exn + list (string * list (string * string));
  urandom : nat → nat → list Byte.byte;
  dhash : list Byte.byte → list Byte.byte;
  hexlify : list Byte.byte → string;
  urlopen : string → option blob
}.

(** ** The monad: state that survives an exception *)

Definition M (A : Type) : Type := World → (exn + A) * World.

Definition ret {A} (a : A) : M A := λ w, (inr a, w).
Definition raise {A} (e : exn) : M A := λ w, (inl e, w).
Definition bind {A B} (m : M A) (k : A → M B) : M B :=
  λ w, match m w with
       | (inr a, w') => k a w'
       | (inl e, w') => (inl e, w')
       end.
Definition lift {A} (r : exn + A) : M A :=
  match r with inl e => raise e | inr a => ret a end.

Declare Scope py_scope.
Delimit Scope py_scope with py.
Notation "'do' x <- m ; k" := (bind m (λ x, k))
  (at level 10, x name, m at level 100, k at level 200) : py_scope.
Notation "'run' m ; k" := (bind m (λ _, k))
  (at level 10, m at level 100, k at level 200) : py_scope.
Open Scope py_scope.

(** [when b m]: the statement [if b: m]. *)
Definition when (b : bool) (m : M unit) : M unit := if b then m else ret tt.

(** ** Operating-system primitives *)

Module OS.
Import PyStr PosixPath.

Definition is_root (q : string) : bool := String.eqb q "/" || String.eqb q "//".

Definition node_at (w : World) (q : string) : option node :=
if is_root q then Some (Dir (oct 7 5 5)) else fs w !! q.

(** The key of a path in [fs]; the empty path names nothing.  A name is
    resolved by normalising it as [os.path.abspath] does, which is what the
    system does with a name whose directories exist and that does not end
    in a separator; there are no symbolic links. *)
Definition resolve (w : World) (p : string) : option string :=
if String.eqb p "" then None else Some (abspath (cwd w) p).

Definition lookup_path (w : World) (p : string) : option node :=
q ← resolve w p; node_at w q.

Definition set_fs (f : gmap string node → gmap string node) (w : World) : World :=
MkWorld (cwd w) (umask w) (f (fs w)) (stdin w) (stdout w) (urandom_calls w).

(** Two worlds that differ in the file system at most. *)
Definition same_process (w w' : World) : Prop :=
  cwd w' = cwd w ∧ umask w' = umask w ∧ stdin w' = stdin w
  ∧ stdout w' = stdout w ∧ urandom_calls w' = urandom_calls w.

(** The file system of [w'] is the one of [w] but for directories that were
    not there before: no node is changed or removed, no file is added. *)
Definition grows_by_dirs (w w' : World) : Prop :=
  ∀ q, fs w' !! q = fs w !! q
       ∨ (fs w !! q = None ∧ ∃ mode, fs w' !! q = Some (Dir mode)).

(** Nothing but the file system differs, and no node of it has gone. *)
Definition keeps_nodes (w w' : World) : Prop :=
  same_process w w' ∧ ∀ q, is_Some (fs w !! q) → is_Some (fs w' !! q).

(** The file system of [w'] is the one of [w] but at keys that are the
    absolute path of a non-empty leading string of [name]. *)
Definition changes_under (name : string) (w w' : World) : Prop :=
  cwd w' = cwd w
  ∧ ∀ q, fs w' !! q = fs w !! q
         ∨ ∃ h t, h ≠ "" ∧ name = h ++ t ∧ q = abspath (cwd w) h.

(** Permission bits granted to a newly created node. *)
Definition masked (w : World) (mode : Z) : Z := Z.land mode (Z.lnot (umask w)).


(** [os.path.abspath] *)
Definition abspath_m (p : string) : M string := λ w, (inr (abspath (cwd w) p), w).

(** [os.path.exists] *)
Definition path_exists (p : string) : M bool :=
λ w, (inr (bool_decide (is_Some (lookup_path w p))), w).

(** [os.path.isdir] *)
Definition path_isdir (p : string) : M bool :=
λ w, (inr match lookup_path w p with Some (Dir _) => true | _ => false end, w).

(** The directory that has to hold a new entry [q]. *)
Definition parent_ready (w : World) (q : string) : exn + unit :=
match node_at w (dirname q) with
| Some (Dir _) => inr tt
| Some (File _ _) => inl (NotADirectoryError q)
| None => inl (FileNotFoundError q)
end.

(** [os.mkdir(p, mode)] *)
Definition mkdir (p : string) (mode : Z) : M unit :=
λ w, match resolve w p with
     | None => (inl (FileNotFoundError p), w)
     | Some q =>
         match node_at w q with
         | Some _ => (inl (FileExistsError p), w)
         | None =>
             match parent_ready w q with
             | inl e => (inl e, w)
             | inr _ => (inr tt, set_fs <[q := Dir (masked w mode)]> w)
             end
         end
     end.

(** [os.makedirs(name, mode)] with [exist_ok=False]: the missing ancestors
    are made first, with the default mode, then the leaf with [mode].  The
    recursion is on the head of the name; it is given fuel, and
    [RecursionError] stands for running out of it, which does not happen
    from [makedirs] (lemma [makedirs_terminates]). *)
Fixpoint makedirs_fuel (fuel : nat) (name : string) (mode : Z) : M unit :=
match fuel with
| O => raise RecursionError
| S fuel' =>
    let '(head, tail) := split name in
    let '(head, tail) := if String.eqb tail "" then split head else (head, tail) in
    do stop <-
      (if negb (String.eqb head "") && negb (String.eqb tail "") then
         do e <- path_exists head;
         if e then ret false
         else
           run (λ w, match makedirs_fuel fuel' head (oct 7 7 7) w with
                     | (inl (FileExistsError _), w') => (inr tt, w')
                     | r => r
                     end);
           ret (String.eqb tail ".")
       else ret false);
    if stop : bool then ret tt else mkdir name mode
end.

Definition makedirs (name : string) (mode : Z) : M unit :=
makedirs_fuel (S (String.length name)) name mode.

(** The [(head, tail)] pair [makedirs] works with: [split(name)], split
    once more when the tail is empty. *)
Definition makedirs_split (name : string) : string * string :=
let '(head, tail) := split name in
if String.eqb tail "" then split head else (head, tail).

(** [open(p, 'w')], writing [c] and closing: an existing file keeps its
    mode and loses its content. *)
Definition write_file (p : string) (c : blob) : M unit :=
λ w, match resolve w p with
     | None => (inl (FileNotFoundError p), w)
     | Some q =>
         match node_at w q with
         | Some (Dir _) => (inl (IsADirectoryError p), w)
         | Some (File mode _) => (inr tt, set_fs <[q := File mode c]> w)
         | None =>
             match parent_ready w q with
             | inl e => (inl e, w)
             | inr _ => (inr tt, set_fs <[q := File (masked w (oct 6 6 6)) c]> w)
             end
         end
     end.

(** [open(p, 'rb').read()] *)
Definition read_file (p : string) : M blob :=
λ w, match lookup_path w p with
     | Some (File _ c) => (inr c, w)
     | Some (Dir _) => (inl (IsADirectoryError p), w)
     | None => (inl (FileNotFoundError p), w)
     end.

(** [open(p, 'r').read()]: the bytes are decoded, which can fail, and line
    ends are translated.  An archive is taken not to decode: the second
    byte of a gzip file, 0x8b, is not text in UTF-8 or in ASCII. *)
Definition read_text (decode : string → option string) (p : string) : M string :=
do c <- read_file p;
match c with
| Text b =>
    match decode b with
    | Some s => ret (universal_newlines s)
    | None => raise UnicodeDecodeError
    end
| TarGz _ => raise UnicodeDecodeError
end.

(** [os.chmod(p, mode)] *)
Definition chmod (p : string) (mode : Z) : M unit :=
λ w, match resolve w p with
     | None => (inl (FileNotFoundError p), w)
     | Some q =>
         match fs w !! q with
         | Some (File _ c) => (inr tt, set_fs <[q := File mode c]> w)
         | Some (Dir _) => (inr tt, set_fs <[q := Dir mode]> w)
         | None => if is_root q then (inr tt, w) else (inl (FileNotFoundError p), w)
         end
     end.

(** [os.remove(p)] *)
Definition remove (p : string) : M unit :=
λ w, match resolve w p with
     | None => (inl (FileNotFoundError p), w)
     | Some q =>
         match node_at w q with
         | Some (File _ _) => (inr tt, set_fs (delete q) w)
         | Some (Dir _) => (inl (IsADirectoryError p), w)
         | None => (inl (FileNotFoundError p), w)
         end
     end.

(** [os.rename(src, dst)] for a regular file [src]; an existing regular
    file at [dst] is replaced. *)
Definition rename (src dst : string) : M unit :=
λ w, match resolve w src, resolve w dst with
     | Some qs, Some qd =>
         match node_at w qs with
         | Some (File mode c) =>
             match node_at w qd with
             | Some (Dir _) => (inl (IsADirectoryError dst), w)
             | _ =>
                 match parent_ready w qd with
                 | inl e => (inl e, w)
                 | inr _ => (inr tt, set_fs (λ f, <[qd := File mode c]> (delete qs f)) w)
                 end
             end
         | Some (Dir _) => (inl (IsADirectoryError src), w)
         | None => (inl (FileNotFoundError src), w)
         end
     | _, _ => (inl (FileNotFoundError src), w)
     end.

(** [print(line)] *)
Definition print (line : string) : M unit :=
λ w, (inr tt, MkWorld (cwd w) (umask w) (fs w) (stdin w) (stdout w ++ [line])%list
                      (urandom_calls w)).

(** [input(prompt)]: the prompt goes to standard output and one line is
    taken from standard input. *)
Definition input (prompt : string) : M string :=
λ w, let out := (stdout w ++ [prompt])%list in
     match stdin w with
     | [] => (inl EOFError,
              MkWorld (cwd w) (umask w) (fs w) [] out (urandom_calls w))
     | l :: ls => (inr l, MkWorld (cwd w) (umask w) (fs w) ls out (urandom_calls w))
     end.

End OS.

(** ** The program *)

Module Setup.
Import PyStr OS.

(** [dict.update]: the entries of [other] replace those of [d]. *)
Definition dict_update {V} (d other : gmap string V) : gmap string V := other ∪ d.

(** The loop shared by the two key translations:
    [for k in config_keys: if k in src: dst[config_keys[k]] = src[k]]. *)
Definition translate_keys {V} (config_keys : list (string * string))
    (src : gmap string V) : gmap string V :=
fold_left (λ dst '(k, k'), match src !! k with
                           | Some v => <[k' := v]> dst
                           | None => dst
                           end) config_keys ∅.

Section WithHost.
Variable host : Host.

(** *** generate_config_file *)

(** [arg[0][-1].replace('--', '')] *)
Definition arg_key (arg : arg_spec) : exn + string :=
match last (flags arg) with
| None => inl IndexError
| Some flag => inr (replace "--" "" flag)
end.

(** The value looked up for a key, before it is rendered. *)
Definition arg_value (known_config : gmap string value) (key : string)
    (arg : arg_spec) : value :=
match known_config !! key with
| Some v => v
| None => match default arg with
          | Some v => v
          | None => VNone
          end
end.

(** The [(key, value)] pair as it is printed. *)
Definition render_pair (key : string) (v : value) : string * string :=
match v with
| VNone => ("# " ++ key, "")
| VBool b => (key, if b then "1" else "0")
| VFloat x | VDecimal x => (key, format_8f host x)
| VInt z => (key, of_int z)
| VStr s => (key, s)
end.

(** The three lines one schema entry contributes. *)
Definition render_arg (known_config : gmap string value) (arg : arg_spec)
    : exn + list string :=
match arg_key arg with
| inl e => inl e
| inr key =>
    let '(key, value) := render_pair key (arg_value known_config key arg) in
    match help arg with
    | None => inl (KeyError "help")
    | Some h => inr ["# " ++ h; key ++ " = " ++ value; ""]
    end
end.

Fixpoint render_args (known_config : gmap string value)
    (config_args : list arg_spec) (config_lines : list string)
    : exn + list string :=
match config_args with
| [] => inr config_lines
| arg :: rest =>
    match render_arg known_config arg with
    | inl e => inl e
    | inr ls => render_args known_config rest (config_lines ++ ls)
    end
end.

Definition config_lines (config_args : list arg_spec)
    (known_config : gmap string value) : exn + list string :=
render_args known_config config_args ["[Default]"; ""].

Definition newline : string := String "010" EmptyString.

Definition generate_config_file (filename : string)
    (config_args : list arg_spec) (known_config : gmap string value)
    (overwrite : bool) : M unit :=
do skip <- (if negb overwrite then path_exists filename else ret false);
if skip : bool then ret tt
else
  do abs_filename <- abspath_m filename;
  let config_dir := PosixPath.dirname abs_filename in
  do have_dir <- path_exists config_dir;
  run when (negb have_dir) (makedirs config_dir (oct 7 5 5));
  do lines <- lift (config_lines config_args known_config);
  run write_file filename (Text (join newline lines));
  chmod filename (oct 6 6 0).

(** The directory [generate_config_file] makes sure of:
    [os.path.dirname(os.path.abspath(filename))]. *)
Definition config_dir_of (w : World) (filename : string) : string :=
PosixPath.dirname (PosixPath.abspath (cwd w) filename).

(** *** extract_old_config *)

Definition rename_old_key (key : string) : string :=
replace "blockchain-service-name" "backend-name"
  (replace "backend-rpc-" "backend-" key).

Definition rename_old_value (v : string) : string :=
replace "jmcorgan" "addrindex" v.

(** [ConfigParser.read] skips a file it cannot open and raises on one it
    cannot decode or parse; the result is the list of sections, each with
    its options as the mapping interface enumerates them. *)
Definition configparser_read_file (p : string)
    : M (list (string * list (string * string))) :=
λ w, match lookup_path w p with
     | Some (File _ (Text s)) => (configparser_read host s, w)
     | Some (File _ (TarGz _)) => (inl UnicodeDecodeError, w)
     | _ => (inr [], w)
     end.

Fixpoint section_of (sections : list (string * list (string * string)))
    (sec : string) : option (list (string * string)) :=
match sections with
| [] => None
| (n, items) :: rest => if String.eqb n sec then Some items else section_of rest sec
end.

Definition extract_old_config : M (gmap string value) :=
let old_configfile := PosixPath.join (old_appdir host) "metronotesd.conf" in
do e <- path_exists old_configfile;
if e : bool then
  do configfile <- configparser_read_file old_configfile;
  match section_of configfile "Default" with
  | Some items =>
      ret (fold_left (λ old_config '(key, v),
                      <[rename_old_key key := VStr (rename_old_value v)]> old_config)
                     items ∅)
  | None => ret ∅
  end
else ret ∅.

(** *** extract_bitcoincore_config *)

(** [os.path.expanduser] on a path that starts with ["~/"]. *)
Definition expanduser_home (rest : string) : string :=
let p := rstrip_chr "/" (userhome host) ++ rest in
if String.eqb p "" then "/" else p.

(** Lines 71-77.  [os.path] is [posixpath] here as everywhere in this
    model, as it is on a host that is not Windows; the branch for Windows is
    kept for the [KeyError] it raises when [APPDATA] is not set. *)
Definition btc_conf_file : exn + string :=
match
  (if String.eqb (platform_system host) "Darwin" then
     inr (expanduser_home "/Library/Application Support/Bitcoin/")
   else if String.eqb (platform_system host) "Windows" then
     match environ host !! "APPDATA" with
     | Some appdata => inr (PosixPath.join appdata "Bitcoin")
     | None => inl (KeyError "APPDATA")
     end
   else inr (expanduser_home "/.bitcoin"))
with
| inl e => inl e
| inr d => inr (PosixPath.join d "bitcoin.conf")
end.

(** One turn of the loop over [fd.readlines()]. *)
Definition conf_line (conf : gmap string string) (line : string)
    : gmap string string :=
if contains "#" line || negb (contains "=" line) then conf
else match split1 "=" line with
     | (k, Some v) => <[strip k := strip v]> conf
     | (_, None) => conf
     end.

Definition parse_conf (text : string) : gmap string string :=
fold_left conf_line (readlines text) ∅.

(** What one line adds to [conf], if it is not skipped. *)
Definition line_entry (line : string) : option (string * string) :=
if contains "#" line || negb (contains "=" line) then None
else match split1 "=" line with
     | (k, Some v) => Some (strip k, strip v)
     | (_, None) => None
     end.

Definition bitcoin_config_keys : list (string * string) :=
[ ("rpcport", "backend-port");
  ("rpcuser", "backend-user");
  ("rpcpassword", "backend-password");
  ("rpcssl", "backend-ssl") ].

Definition extract_bitcoincore_config : M (gmap string value) :=
do btc_conf_file <- lift btc_conf_file;
do e <- path_exists btc_conf_file;
if e : bool then
  do text <- read_text (decode host) btc_conf_file;
  let conf := parse_conf text in
  ret (translate_keys bitcoin_config_keys (VStr <$> conf))
else ret ∅.

(** *** get_server_known_config *)

Definition get_server_known_config : M (gmap string value) :=
let server_known_config := ∅ in
do bitcoincore_config <- extract_bitcoincore_config;
let server_known_config := dict_update server_known_config bitcoincore_config in
do old_config <- extract_old_config;
let server_known_config := dict_update server_known_config old_config in
ret server_known_config.

(** *** server_to_client_config *)

Definition client_config_keys : list (string * string) :=
[ ("backend-connect", "wallet-connect");
  ("backend-port", "wallet-port");
  ("backend-user", "wallet-user");
  ("backend-password", "wallet-password");
  ("backend-ssl", "wallet-ssl");
  ("backend-ssl-verify", "wallet-ssl-verify");
  ("rpc-host", "metronotes-rpc-connect");
  ("rpc-port", "metronotes-rpc-port");
  ("rpc-user", "metronotes-rpc-user");
  ("rpc-password", "metronotes-rpc-password") ].

Definition server_to_client_config {V} (server_config : gmap string V)
    : gmap string V :=
translate_keys client_config_keys server_config.

(** *** generate_config_files *)

(** [os.urandom(n)] *)
Definition os_urandom (n : nat) : M (list Byte.byte) :=
λ w, (inr (urandom host (urandom_calls w) n),
      MkWorld (cwd w) (umask w) (fs w) (stdin w) (stdout w) (S (urandom_calls w))).

(** Lines 151-152: the random password, made when the known config has
    none. *)
Definition ensure_rpc_password (server_known_config : gmap string value)
    : M (gmap string value) :=
match server_known_config !! "rpc-password" with
| None =>
    do r <- os_urandom 16;
    ret (<["rpc-password" := VStr (hexlify host (dhash host r))]> server_known_config)
| Some _ => ret server_known_config
end.

(** Lines 153-158: the two files, written from the server config. *)
Definition write_config_files (server_configfile : string)
    (server_known_config : gmap string value) : M unit :=
run generate_config_file server_configfile (SERVER_CONFIG_ARGS host)
      server_known_config false;
let client_configfile := PosixPath.join (configdir host) "client.conf" in
do have_client <- path_exists client_configfile;
if have_client : bool then ret tt
else
  let client_known_config := server_to_client_config server_known_config in
  generate_config_file client_configfile (CLIENT_CONFIG_ARGS host)
    client_known_config false.

Definition generate_config_files : M unit :=
let server_configfile := PosixPath.join (configdir host) "server.conf" in
do have_server <- path_exists server_configfile;
if have_server : bool then ret tt
else
  do server_known_config <- get_server_known_config;
  do server_known_config <- ensure_rpc_password server_known_config;
  write_config_files server_configfile server_known_config.

(** *** bootstrap *)

(** [urllib.request.urlretrieve(url, filename, reporthook)].  The progress
    lines [reporthook] writes go to standard error, which the world does
    not record. *)
Definition urlretrieve (url filename : string) : M unit :=
match urlopen host url with
| None => raise (URLError url)
| Some c => write_file filename c
end.

(** [tarfile.open(p, 'r:gz')] followed by [getmembers()]. *)
Definition tarfile_open (p : string) : M (list member) :=
do c <- read_file p;
match c with
| TarGz members => ret members
| Text _ => raise ReadError
end.

(** [TarFile.extractall(path, None)] for regular-file members and no
    extraction filter: each member is written at the join of [path] and its
    stored name, after the missing directories above it are made. *)
Definition extract_member (path : string) (m : member) : M unit :=
let targetpath := rstrip_chr "/" (PosixPath.join path (name m)) in
let upperdirs := PosixPath.dirname targetpath in
do have <- path_exists upperdirs;
run when (negb (String.eqb upperdirs "") && negb have) (makedirs upperdirs (oct 7 7 7));
run write_file targetpath (Text (data m));
chmod targetpath (mmode m).

Fixpoint extractall (path : string) (members : list member) : M unit :=
match members with
| [] => ret tt
| m :: rest => run extract_member path m; extractall path rest
end.

Definition is_within_directory (directory target : string) : M bool :=
do abs_directory <- abspath_m directory;
do abs_target <- abspath_m target;
let prefix := PosixPath.commonprefix abs_directory abs_target in
ret (String.eqb prefix abs_directory).

(** The loop of [safe_extract] over [tar.getmembers()]. *)
Fixpoint check_members (path : string) (members : list member) : M unit :=
match members with
| [] => ret tt
| m :: rest =>
    let member_path := PosixPath.join path (name m) in
    do ok <- is_within_directory path member_path;
    if ok : bool then check_members path rest
    else raise (Exception "Attempted Path Traversal in Tar File")
end.

(** [safe_extract(tar, path)]: [members] is left at [None], so all members
    are extracted, and [numeric_owner] plays no part in the model. *)
Definition safe_extract (tar : list member) (path : string) : M unit :=
run check_members path tar;
extractall path tar.

(** [shutil.move(src, dst)] for a regular file. *)
Definition shutil_move (src dst : string) : M unit :=
do into <- path_isdir dst;
if into : bool then
  let real_dst := PosixPath.join dst (PosixPath.basename (rstrip_chr "/" src)) in
  do taken <- path_exists real_dst;
  if taken : bool then raise (ShutilError real_dst) else rename src real_dst
else rename src dst.

Definition bootstrap_url : string :=
"https://s3.amazonaws.com/metronotes-bootstrap/metronotesd-db.latest.tar.gz".
Definition bootstrap_url_testnet : string :=
"https://s3.amazonaws.com/metronotes-bootstrap/metronotesd-testnet-db.latest.tar.gz".
Definition question : string :=
"Would you like to bootstrap your local Metronotes database from `https://s3.amazonaws.com/metronotes-bootstrap/`? (y/N): ".

(** Everything [bootstrap] does once it has decided to go ahead. *)
Definition download_and_install (database database_testnet : string) : M unit :=
run print ("Downloading mainnet database from " ++ bootstrap_url ++ "…");
run urlretrieve bootstrap_url "metronotesd-db.latest.tar.gz";
run print "Extracting…";
do tar_file <- tarfile_open "metronotesd-db.latest.tar.gz";
run safe_extract tar_file ".";
run print ("Copying metronotesd.9.db to " ++ database ++ "…");
run shutil_move "metronotesd.9.db" database;
run chmod database (oct 6 6 0);
run print ("Downloading testnet database from " ++ bootstrap_url_testnet ++ "…");
run urlretrieve bootstrap_url_testnet "metronotesd-testnet-db.latest.tar.gz";
run print "Extracting…";
do tar_file <- tarfile_open "metronotesd-testnet-db.latest.tar.gz";
run safe_extract tar_file ".";
run print ("Copying metronotesd.9.testnet.db to " ++ database_testnet ++ "…");
run shutil_move "metronotesd.9.testnet.db" database_testnet;
run chmod database_testnet (oct 6 6 0);
run remove "metronotesd-db.latest.tar.gz";
run remove "metronotesd-testnet-db.latest.tar.gz";
remove "checksums.txt".

(** Lines 232-233: the data directory is made if it is missing. *)
Definition ensure_data_dir : M unit :=
do have_dir <- path_exists (data_dir host);
when (negb have_dir) (makedirs (data_dir host) (oct 7 5 5)).

Definition bootstrap (overwrite ask_confirmation : bool) : M unit :=
let database := PosixPath.join (data_dir host) (APP_NAME host ++ ".db") in
let database_testnet :=
  PosixPath.join (data_dir host) (APP_NAME host ++ ".testnet.db") in
run ensure_data_dir;
do skip <- (if negb overwrite then path_exists database else ret false);
if skip : bool then ret tt
else
  do declined <-
    (if ask_confirmation : bool then
       do answer <- input question;
       ret (negb (String.eqb (lower answer) "y"))
     else ret false);
  if declined : bool then ret tt
  else download_and_install database database_testnet.

End WithHost.
End Setup.

(** ** Notions the specification uses *)

Module Spec.
Import PyStr.

(** [target] is [root] itself or lies below it, component by component;
    both are absolute normalised paths. *)
Definition inside_root (root target : string) : bool :=
String.eqb target root
|| startswith target (if endswith_chr root "/" then root else root ++ "/").

(** A blank line or a comment line. *)
Definition blank_or_comment (line : string) : bool :=
let l := strip line in String.eqb l "" || startswith l "#".

(** The line-oriented reading the specification describes for the foreign
    daemon file: blank lines, comment lines and lines without [=] are
    skipped, every other line is a [key=value] pair. *)
Definition probe_line (conf : gmap string string) (line : string)
    : gmap string string :=
if blank_or_comment line || negb (contains "=" line) then conf
else match split1 "=" line with
     | (k, Some v) => <[strip k := strip v]> conf
     | (_, None) => conf
     end.

Definition probe_foreign_daemon_config (text : string) : gmap string value :=
Setup.translate_keys Setup.bitcoin_config_keys
  (VStr <$> fold_left probe_line (readlines text) ∅).

(** No permission bit for others. *)
Definition no_world_access (mode : Z) : Prop := Z.land mode (oct 0 0 7) = 0.

(** No execute bit for anyone. *)
Definition no_execute (mode : Z) : Prop := Z.land mode (oct 1 1 1) = 0.

End Spec.

(** ** A concrete host and concrete worlds *)

Module Demo.

Definition server_args : list arg_spec :=
[ ArgSpec ["-v"; "--verbose"] (Some "sets log level to DEBUG") (Some (VBool false));
  ArgSpec ["--backend-connect"] (Some "the hostname of the backend") (Some (VStr "localhost"));
  ArgSpec ["--backend-port"] (Some "the backend port to connect to") None;
  ArgSpec ["--rpc-port"] (Some "port on which to provide the API") (Some (VInt 4000));
  ArgSpec ["--rpc-password"] (Some "required password for the API") None ].

Definition client_args : list arg_spec :=
[ ArgSpec ["--wallet-connect"] (Some "the hostname of the wallet") (Some (VStr "localhost"));
  ArgSpec ["--wallet-port"] (Some "the wallet port to connect to") None;
  ArgSpec ["--metronotes-rpc-password"] (Some "password of the API") None ].

Definition legacy_sections : list (string * list (string * string)) :=
[ ("Default", [ ("backend-rpc-port", "8333") ]) ].

Definition host : Host := {|
  platform_system := "Linux";
  userhome := "/home/u";
  environ := ∅;
  old_appdir := "/home/u/.config/metronotesd";
  configdir := "/home/u/.config/metronotes";
  data_dir := "/home/u/.local/share/metronotes";
  APP_NAME := "metronotes";
  SERVER_CONFIG_ARGS := server_args;
  CLIENT_CONFIG_ARGS := client_args;
  format_8f := λ _, "0.00000000";
  decode := PyStr.decode_utf8;
  configparser_read := λ _, inr legacy_sections;
  urandom := λ _ n, replicate n Byte.x2a;
  dhash := λ b, b;
  hexlify := λ _, "2a2a2a2a2a2a2a2a2a2a2a2a2a2a2a2a";
  urlopen := λ url,
    if String.eqb url Setup.bootstrap_url then
      Some (TarGz [ Member "metronotesd.9.db" (oct 6 4 4) "mainnet ledger";
                    Member "checksums.txt" (oct 6 4 4) "sums" ])
    else if String.eqb url Setup.bootstrap_url_testnet then
      Some (TarGz [ Member "metronotesd.9.testnet.db" (oct 6 4 4) "testnet ledger";
                    Member "checksums.txt" (oct 6 4 4) "sums" ])
    else None
|}.

Definition world (files : gmap string node) (answers : list string) : World :=
MkWorld "/tmp/x" (oct 0 2 2) files answers [] 0.

Definition home_dirs : gmap string node :=
<["/home" := Dir (oct 7 5 5)]> (<["/home/u" := Dir (oct 7 5 5)]>
(<["/tmp" := Dir (oct 7 7 7)]> (<["/tmp/x" := Dir (oct 7 5 5)]> ∅))).

Definition bitcoin_conf : string :=
"rpcport=8332" ++ Setup.newline ++ "rpcuser=alice" ++ Setup.newline.

Definition legacy_conf : string :=
"[Default]" ++ Setup.newline ++ "backend-rpc-port = 8333" ++ Setup.newline.

(** A first run on a machine that has a [bitcoin.conf] and a legacy
    [metronotesd.conf]. *)
Definition first_run : World :=
world (<["/home/u/.bitcoin" := Dir (oct 7 5 5)]>
       (<["/home/u/.bitcoin/bitcoin.conf" := File (oct 6 0 0) (Text bitcoin_conf)]>
       (<["/home/u/.config" := Dir (oct 7 5 5)]>
       (<["/home/u/.config/metronotesd" := Dir (oct 7 5 5)]>
       (<["/home/u/.config/metronotesd/metronotesd.conf" :=
            File (oct 6 0 0) (Text legacy_conf)]> home_dirs))))) [].

(** A [bitcoin.conf] whose port line carries a remark. *)
Definition remark_conf : string :=
"rpcport=8332 # mainnet" ++ Setup.newline ++ "rpcuser=alice" ++ Setup.newline.

Definition remark_run : World :=
world (<["/home/u/.bitcoin" := Dir (oct 7 5 5)]>
       (<["/home/u/.bitcoin/bitcoin.conf" := File (oct 6 0 0) (Text remark_conf)]>
          home_dirs)) [].

(** A [bitcoin.conf] whose user line ends in a no-break space, U+00A0. *)
Definition nbsp_conf : string :=
"rpcuser=alice" ++ String "194" (String "160" EmptyString) ++ Setup.newline.

Definition nbsp_run : World :=
world (<["/home/u/.bitcoin" := Dir (oct 7 5 5)]>
       (<["/home/u/.bitcoin/bitcoin.conf" := File (oct 6 0 0) (Text nbsp_conf)]>
          home_dirs)) [].

(** A [bitcoin.conf] with a byte that is not UTF-8. *)
Definition latin1_conf : string :=
"rpcuser=" ++ String "233" EmptyString ++ Setup.newline.

Definition latin1_run : World :=
world (<["/home/u/.bitcoin" := Dir (oct 7 5 5)]>
       (<["/home/u/.bitcoin/bitcoin.conf" := File (oct 6 0 0) (Text latin1_conf)]>
          home_dirs)) [].

(** What the two probes find on the first run. *)
Definition first_foreign : gmap string value :=
<["backend-port" := VStr "8332"]> (<["backend-user" := VStr "alice"]> ∅).

Definition first_legacy : gmap string value :=
<["backend-port" := VStr "8333"]> ∅.

Definition first_known : gmap string value :=
<["backend-port" := VStr "8333"]> (<["backend-user" := VStr "alice"]> ∅).

(** A later run: [server.conf] is there, [client.conf] is not. *)
Definition later_run : World :=
world (<["/home/u/.config" := Dir (oct 7 5 5)]>
       (<["/home/u/.config/metronotes" := Dir (oct 7 5 5)]>
       (<["/home/u/.config/metronotes/server.conf" :=
            File (oct 6 6 0) (Text "[Default]")]> home_dirs))) [].

(** A bare machine on which the user is asked and answers. *)
Definition asked (answer : string) : World := world home_dirs [answer].

(** Rendering the server schema, with nothing known, into a directory that
    is not there yet. *)
Definition rendered : (exn + unit) * World :=
Setup.generate_config_file host "conf/server.conf" server_args ∅ false (asked "n").

(** A machine on which [bitcoin.conf] is a directory. *)
Definition conf_is_directory : World :=
world (<["/home/u/.bitcoin" := Dir (oct 7 5 5)]>
       (<["/home/u/.bitcoin/bitcoin.conf" := Dir (oct 7 5 5)]> home_dirs)) [].

(** A machine on which the main database is installed. *)
Definition installed : World :=
world (<["/home/u/.local" := Dir (oct 7 5 5)]>
       (<["/home/u/.local/share" := Dir (oct 7 5 5)]>
       (<["/home/u/.local/share/metronotes" := Dir (oct 7 5 5)]>
       (<["/home/u/.local/share/metronotes/metronotes.db" :=
            File (oct 6 6 0) (Text "mainnet ledger")]> home_dirs)))) ["n"].

(** A host whose main archive has, after a harmless member, one that
    leaves the working directory. *)
Definition hostile_archive : list member :=
[ Member "metronotesd.9.db" (oct 6 4 4) "mainnet ledger";
  Member "../../etc/passwd" (oct 6 4 4) "root::0:0::/:/bin/sh" ].

Definition hostile_host : Host := {|
  platform_system := platform_system host;
  userhome := userhome host;
  environ := environ host;
  old_appdir := old_appdir host;
  configdir := configdir host;
  data_dir := data_dir host;
  APP_NAME := APP_NAME host;
  SERVER_CONFIG_ARGS := SERVER_CONFIG_ARGS host;
  CLIENT_CONFIG_ARGS := CLIENT_CONFIG_ARGS host;
  format_8f := format_8f host;
  decode := decode host;
  configparser_read := configparser_read host;
  urandom := urandom host;
  dhash := dhash host;
  hexlify := hexlify host;
  urlopen := λ _, Some (TarGz hostile_archive)
|}.

(** A host that reports Windows and has no [APPDATA]. *)
Definition windows_host : Host := {|
  platform_system := "Windows";
  userhome := userhome host;
  environ := ∅;
  old_appdir := old_appdir host;
  configdir := configdir host;
  data_dir := data_dir host;
  APP_NAME := APP_NAME host;
  SERVER_CONFIG_ARGS := SERVER_CONFIG_ARGS host;
  CLIENT_CONFIG_ARGS := CLIENT_CONFIG_ARGS host;
  format_8f := format_8f host;
  decode := decode host;
  configparser_read := configparser_read host;
  urandom := urandom host;
  dhash := dhash host;
  hexlify := hexlify host;
  urlopen := urlopen host
|}.

(** A schema whose second entry has no help text. *)
Definition schema_without_help : list arg_spec :=
[ ArgSpec ["--backend-port"] (Some "the backend port to connect to") None;
  ArgSpec ["--rpc-port"] None (Some (VInt 4000)) ].

(** An archive with one member whose name leaves the working directory
    for a sibling whose name extends it. *)
Definition sibling_archive : list member :=
[ Member "../xy/payload" (oct 6 4 4) "evil" ].

(** The machine of [first_run] after the configuration files are made. *)
Definition configured : World :=
snd (Setup.generate_config_files host first_run).

(** A bare machine after an unattended bootstrap. *)
Definition bootstrapped : World :=
snd (Setup.bootstrap host true false (asked "n")).

End Demo.

(** ** The library functions on known inputs *)

Section KnownValues.
Import PyStr PosixPath.

Example join_relative : PosixPath.join "." "../xy/payload" = "./../xy/payload".
Proof. reflexivity. Qed.

Example join_absolute : PosixPath.join "/tmp/x" "/etc/passwd" = "/etc/passwd".
Proof. reflexivity. Qed.

Example split_trailing_sep : PosixPath.split "/a/b/" = ("/a/b", "").
Proof. reflexivity. Qed.

Example split_root : PosixPath.split "/a" = ("/", "a").
Proof. reflexivity. Qed.

Example normpath_dotdot : normpath "/tmp/x/./../xy" = "/tmp/xy".
Proof. reflexivity. Qed.

Example normpath_two_slashes : normpath "//a/../.." = "//".
Proof. reflexivity. Qed.

Example normpath_relative : normpath "a/../.." = "..".
Proof. reflexivity. Qed.

Example abspath_traversal : abspath "/tmp/x" "./../../etc/passwd" = "/etc/passwd".
Proof. reflexivity. Qed.

Example commonprefix_is_by_character :
  commonprefix "/tmp/x" "/tmp/xy/payload" = "/tmp/x".
Proof. reflexivity. Qed.

Example replace_every_occurrence : replace "--" "" "--a--b" = "ab".
Proof. reflexivity. Qed.

Example replace_does_not_overlap : replace "aa" "b" "aaaaa" = "bba".
Proof. reflexivity. Qed.

Example readlines_keeps_ends :
  readlines ("a=1" ++ Setup.newline ++ Setup.newline ++ "b")
  = ["a=1" ++ Setup.newline; Setup.newline; "b"].
Proof. reflexivity. Qed.

Example of_int_negative : of_int (-8332) = "-8332".
Proof. reflexivity. Qed.

(** U+00A0, then U+2028, are whitespace; U+200B is not. *)
Example strip_no_break_space :
  strip (" alice" ++ String "194" (String "160" EmptyString)) = "alice".
Proof. reflexivity. Qed.

Example strip_line_separator :
  strip (String "226" (String "128" (String "168" EmptyString)) ++ "alice ")
  = "alice".
Proof. reflexivity. Qed.

Example strip_keeps_zero_width_space :
  strip ("alice" ++ String "226" (String "128" (String "139" EmptyString)))
  = "alice" ++ String "226" (String "128" (String "139" EmptyString)).
Proof. reflexivity. Qed.

Example lower_is_on_ascii_letters : lower "Yes" = "yes".
Proof. reflexivity. Qed.

End KnownValues.

(** ** Dictionaries *)

Section Dictionaries.
Import Setup.
Context {V : Type}.
Implicit Types (d src dst : gmap string V) (table : list (string * string)).

Lemma dict_update_lookup d other k :
  dict_update d other !! k =
  match other !! k with Some v => Some v | None => d !! k end.
Proof.
  unfold dict_update. rewrite lookup_union.
  destruct (other !! k), (d !! k); reflexivity.
Qed.

(** The translation loop started from any [dst]: a target key holds the
    value of a source key that translates to it, or what [dst] held when no
    such source key is set. *)
Lemma translate_from_lookup table src dst k' v :
  NoDup table.*2 →
  fold_left (λ dst '(k, k'), match src !! k with
                             | Some v => <[k' := v]> dst
                             | None => dst
                             end) table dst !! k' = Some v
  ↔ (∃ k, (k, k') ∈ table ∧ src !! k = Some v)
    ∨ ((∀ k, (k, k') ∈ table → src !! k = None) ∧ dst !! k' = Some v).
Proof.
  revert dst. induction table as [|[a a'] t IH]; intros dst Hnd; cbn [fold_left].
  - split.
    + intros H. right. split; [intros k Hk; inversion Hk | exact H].
    + intros [(k & Hk & _) | [_ H]]; [inversion Hk | exact H].
  - rewrite fmap_cons in Hnd.
    apply NoDup_cons in Hnd as [Hfresh Hnd]. rewrite IH by exact Hnd.
    assert (Hnot : ∀ k, (k, a') ∉ t).
    { intros k Hk. apply Hfresh. apply list_elem_of_fmap. exists (k, a'). auto. }
    split.
    + intros [(k & Hk & Hv) | [Hnone Hdst]].
      * left. exists k. split; [right; exact Hk | exact Hv].
      * destruct (src !! a) as [x|] eqn:Ha.
        -- destruct (decide (a' = k')) as [->|Hne].
           ++ rewrite lookup_insert_eq in Hdst. injection Hdst as ->.
              left. exists a. split; [left | exact Ha].
           ++ rewrite lookup_insert_ne in Hdst by exact Hne.
              right. split; [|exact Hdst].
              intros k Hk. apply elem_of_cons in Hk as [Heq | Hk].
              ** congruence.
              ** apply Hnone, Hk.
        -- right. split; [|exact Hdst].
           intros k Hk. apply elem_of_cons in Hk as [Heq | Hk].
           ** congruence.
           ** apply Hnone, Hk.
    + intros [(k & Hk & Hv) | [Hnone Hdst]].
      * apply elem_of_cons in Hk as [Heq | Hk].
        -- injection Heq as -> ->. right. split.
           ++ intros k0 Hk0. exfalso. exact (Hnot _ Hk0).
           ++ rewrite Hv. apply lookup_insert_eq.
        -- left. exists k. auto.
      * right. split.
        -- intros k Hk. apply Hnone. right. exact Hk.
        -- destruct (decide (a' = k')) as [->|Hne].
           ++ rewrite (Hnone a) by left. exact Hdst.
           ++ destruct (src !! a); [rewrite lookup_insert_ne by exact Hne|]; exact Hdst.
Qed.

Lemma translate_keys_lookup table src k' v :
  NoDup table.*2 →
  translate_keys table src !! k' = Some v
  ↔ ∃ k, (k, k') ∈ table ∧ src !! k = Some v.
Proof.
  intros Hnd. unfold translate_keys. rewrite translate_from_lookup by exact Hnd.
  rewrite lookup_empty. split.
  - intros [H | [_ H]]; [exact H | discriminate].
  - intros H. left. exact H.
Qed.

End Dictionaries.

(** ** The monad and the primitives *)

Section Primitives.
Import PyStr OS.

Lemma bind_ok {A B} (m : M A) (k : A → M B) w b w2 :
  bind m k w = (inr b, w2) →
  ∃ a w1, m w = (inr a, w1) ∧ k a w1 = (inr b, w2).
Proof.
  unfold bind. destruct (m w) as [[e|a] w1]; intros H; [discriminate|].
  exists a, w1. split; [reflexivity | exact H].
Qed.

Lemma bind_eq {A B} (m : M A) (k : A → M B) w a w1 :
  m w = (inr a, w1) → bind m k w = k a w1.
Proof. unfold bind. intros ->. reflexivity. Qed.

Lemma bind_raise {A B} (m : M A) (k : A → M B) w e w1 :
  m w = (inl e, w1) → bind m k w = (inl e, w1).
Proof. unfold bind. intros ->. reflexivity. Qed.

Lemma same_process_refl w : same_process w w.
Proof. repeat split. Qed.

Lemma same_process_trans w1 w2 w3 :
  same_process w1 w2 → same_process w2 w3 → same_process w1 w3.
Proof.
  intros (?&?&?&?&?) (?&?&?&?&?). repeat split; congruence.
Qed.

Lemma same_process_set_fs f w : same_process w (set_fs f w).
Proof. repeat split. Qed.

Lemma same_process_resolve w w' p :
  same_process w w' → resolve w' p = resolve w p.
Proof. intros (Hc&_). unfold resolve. rewrite Hc. reflexivity. Qed.

Lemma same_process_masked w w' mode :
  same_process w w' → masked w' mode = masked w mode.
Proof. intros (_&Hu&_). unfold masked. rewrite Hu. reflexivity. Qed.

Lemma path_exists_eq p w :
  path_exists p w = (inr (bool_decide (is_Some (lookup_path w p))), w).
Proof. reflexivity. Qed.

Lemma mkdir_frame p mode w : same_process w (snd (mkdir p mode w)).
Proof.
  unfold mkdir. destruct (resolve w p) as [q|]; [|apply same_process_refl].
  destruct (node_at w q); [apply same_process_refl|].
  destruct (parent_ready w q); [apply same_process_refl|].
  apply same_process_set_fs.
Qed.

Lemma write_file_frame p c w : same_process w (snd (write_file p c w)).
Proof.
  unfold write_file. destruct (resolve w p) as [q|]; [|apply same_process_refl].
  destruct (node_at w q) as [[m b|m]|]; simpl;
    [apply same_process_set_fs | apply same_process_refl |].
  destruct (parent_ready w q); [apply same_process_refl|].
  apply same_process_set_fs.
Qed.

Lemma chmod_frame p mode w : same_process w (snd (chmod p mode w)).
Proof.
  unfold chmod. destruct (resolve w p) as [q|]; [|apply same_process_refl].
  destruct (fs w !! q) as [[m b|m]|]; simpl;
    [apply same_process_set_fs | apply same_process_set_fs |].
  destruct (is_root q); apply same_process_refl.
Qed.

Lemma makedirs_fuel_frame fuel name mode w :
  same_process w (snd (makedirs_fuel fuel name mode w)).
Proof.
  revert name mode w. induction fuel as [|fuel IH]; intros name mode w.
  - apply same_process_refl.
  - cbn [makedirs_fuel]. destruct (PosixPath.split name) as [head tail].
    destruct (if String.eqb tail "" then PosixPath.split head else (head, tail))
      as [head' tail'].
    unfold bind at 1.
    destruct (negb (String.eqb head' "") && negb (String.eqb tail' "")).
    + unfold bind at 1. rewrite path_exists_eq.
      destruct (bool_decide (is_Some (lookup_path w head'))).
      * unfold ret. apply mkdir_frame.
      * unfold bind at 1. specialize (IH head' (oct 7 7 7) w).
        destruct (makedirs_fuel fuel head' (oct 7 7 7) w) as [[e|[]] w1];
          simpl in IH.
        -- destruct e; try exact IH.
           unfold ret. destruct (String.eqb tail' ".").
           ++ exact IH.
           ++ eapply same_process_trans; [exact IH | apply mkdir_frame].
        -- unfold ret. destruct (String.eqb tail' ".").
           ++ exact IH.
           ++ eapply same_process_trans; [exact IH | apply mkdir_frame].
    + unfold ret. apply mkdir_frame.
Qed.

Lemma makedirs_frame name mode w : same_process w (snd (makedirs name mode w)).
Proof. apply makedirs_fuel_frame. Qed.

Lemma mkdir_ok p mode w w1 :
  mkdir p mode w = (inr tt, w1) →
  ∃ q, resolve w p = Some q ∧ is_root q = false
       ∧ w1 = set_fs <[q := Dir (masked w mode)]> w.
Proof.
  unfold mkdir. destruct (resolve w p) as [q|]; [|discriminate].
  unfold node_at. destruct (is_root q) eqn:Hroot; [discriminate|].
  destruct (fs w !! q); [discriminate|].
  destruct (parent_ready w q); [discriminate|].
  intros H. injection H as <-. exists q.
  split; [reflexivity|]. split; [exact Hroot | reflexivity].
Qed.

(** A successful [makedirs] ends with the [mkdir] of the leaf, unless the
    last component of the name is [.] *)
Lemma makedirs_fuel_leaf fuel name mode w wd :
  makedirs_fuel fuel name mode w = (inr tt, wd) →
  snd (makedirs_split name) ≠ "." →
  ∃ q, resolve w name = Some q ∧ is_root q = false
       ∧ fs wd !! q = Some (Dir (masked w mode)).
Proof.
  destruct fuel as [|fuel]; [discriminate|].
  cbn [makedirs_fuel]. unfold makedirs_split.
  destruct (PosixPath.split name) as [head tail].
  destruct (if String.eqb tail "" then PosixPath.split head else (head, tail))
    as [head' tail'].
  cbn [snd]. intros Hrun Htail.
  apply bind_ok in Hrun as (stop & w' & Hpre & Hrun).
  assert (Hframe : same_process w w' ∧ stop = false).
  { destruct (negb (String.eqb head' "") && negb (String.eqb tail' "")).
    - apply bind_ok in Hpre as (e & w0 & He & Hpre).
      rewrite path_exists_eq in He. injection He as <- <-.
      destruct (bool_decide _).
      + injection Hpre as <- <-. split; [apply same_process_refl | reflexivity].
      + apply bind_ok in Hpre as ([] & w2 & Hrec & Hpre).
        injection Hpre as <- <-. split.
        * pose proof (makedirs_fuel_frame fuel head' (oct 7 7 7) w) as Hf.
          destruct (makedirs_fuel fuel head' (oct 7 7 7) w) as [[e|[]] w3];
            cbn [snd] in Hf.
          -- destruct e; try discriminate. injection Hrec as <-. exact Hf.
          -- injection Hrec as <-. exact Hf.
        * apply String.eqb_neq. exact Htail.
    - injection Hpre as <- <-. split; [apply same_process_refl | reflexivity]. }
  destruct Hframe as [Hframe ->].
  destruct (mkdir_ok _ _ _ _ Hrun) as (q & Hq & Hroot & ->).
  exists q. rewrite <- (same_process_resolve w w') by exact Hframe.
  split; [exact Hq|]. split; [exact Hroot|].
  cbn [set_fs fs]. rewrite lookup_insert_eq.
  rewrite (same_process_masked w w') by exact Hframe. reflexivity.
Qed.

Lemma mkdir_no_recursion_error p mode w :
  fst (mkdir p mode w) ≠ inl RecursionError.
Proof.
  unfold mkdir. destruct (resolve w p) as [q|]; [|discriminate].
  destruct (node_at w q); [discriminate|].
  unfold parent_ready. destruct (node_at w (PosixPath.dirname q)) as [[m c|m]|];
    discriminate.
Qed.

Lemma cut_last_sep_length p :
  (String.length (fst (PosixPath.cut_last_sep p))
   + String.length (snd (PosixPath.cut_last_sep p)) = String.length p)%nat.
Proof.
  induction p as [|a p IH]; [reflexivity|]. cbn [PosixPath.cut_last_sep].
  destruct (PosixPath.cut_last_sep p) as [h t]. cbn [fst snd] in IH.
  destruct h as [|b h].
  - destruct (chr_eqb a "/"); cbn in IH |- *; lia.
  - cbn in IH |- *. lia.
Qed.

Lemma rstrip_chr_length c s :
  (String.length (rstrip_chr c s) ≤ String.length s)%nat.
Proof.
  induction s as [|a s IH]; [reflexivity|]. cbn [rstrip_chr].
  destruct (rstrip_chr c s) as [|b r].
  - destruct (chr_eqb a c); cbn; lia.
  - cbn in IH |- *. lia.
Qed.

Lemma split_length p :
  (String.length (fst (PosixPath.split p))
   + String.length (snd (PosixPath.split p)) ≤ String.length p)%nat.
Proof.
  unfold PosixPath.split. pose proof (cut_last_sep_length p) as Hcut.
  destruct (PosixPath.cut_last_sep p) as [h t]. cbn [fst snd] in *.
  pose proof (rstrip_chr_length "/" h).
  destruct (_ && _); lia.
Qed.

Lemma makedirs_split_length name :
  snd (makedirs_split name) ≠ "" →
  (String.length (fst (makedirs_split name)) < String.length name)%nat.
Proof.
  unfold makedirs_split. pose proof (split_length name) as H1.
  destruct (PosixPath.split name) as [head tail]. cbn [fst snd] in H1.
  destruct (String.eqb tail "") eqn:Ht.
  - pose proof (split_length head) as H2.
    destruct (PosixPath.split head) as [h2 t2]. cbn [fst snd] in *.
    intros Hne. destruct t2; [contradiction|]. cbn in H2. lia.
  - cbn [fst snd]. intros _. apply String.eqb_neq in Ht.
    destruct tail; [contradiction|]. cbn in H1. lia.
Qed.

(** The fuel [makedirs] starts with is enough: the recursion follows the
    heads of the name, each shorter than the one before. *)
Lemma makedirs_fuel_enough fuel name mode w :
  (String.length name < fuel)%nat →
  fst (makedirs_fuel fuel name mode w) ≠ inl RecursionError.
Proof.
  revert name mode w. induction fuel as [|fuel IH]; intros name mode w Hlen; [lia|].
  cbn [makedirs_fuel]. pose proof (makedirs_split_length name) as Hshort.
  unfold makedirs_split in Hshort.
  destruct (PosixPath.split name) as [head tail].
  destruct (if String.eqb tail "" then PosixPath.split head else (head, tail))
    as [head' tail'].
  cbn [fst snd] in Hshort. unfold bind at 1.
  destruct (negb (String.eqb head' "") && negb (String.eqb tail' "")) eqn:Hgo.
  - unfold bind at 1. rewrite path_exists_eq.
    destruct (bool_decide _); [apply mkdir_no_recursion_error|].
    unfold bind at 1.
    assert (Hrec : (String.length head' < fuel)%nat).
    { apply andb_true_iff in Hgo as [_ Ht]. apply negb_true_iff in Ht.
      apply String.eqb_neq in Ht. specialize (Hshort Ht). lia. }
    specialize (IH head' (oct 7 7 7) w Hrec).
    destruct (makedirs_fuel fuel head' (oct 7 7 7) w) as [[e|[]] w1]; cbn [fst] in IH.
    + destruct e; try discriminate; try contradiction.
      cbn [ret]. destruct (String.eqb tail' "."); [discriminate|].
      apply mkdir_no_recursion_error.
    + cbn [ret]. destruct (String.eqb tail' "."); [discriminate|].
      apply mkdir_no_recursion_error.
  - apply mkdir_no_recursion_error.
Qed.

Lemma makedirs_terminates name mode w :
  fst (makedirs name mode w) ≠ inl RecursionError.
Proof. apply makedirs_fuel_enough. lia. Qed.

(** A successful [chmod] leaves a node at the path. *)
Lemma chmod_ok_exists p mode w w1 :
  chmod p mode w = (inr tt, w1) → is_Some (lookup_path w1 p).
Proof.
  unfold chmod, lookup_path. destruct (resolve w p) as [q|] eqn:Hq; [|discriminate].
  assert (Hres : ∀ f, resolve (set_fs f w) p = Some q).
  { intros f. rewrite (same_process_resolve w) by apply same_process_set_fs. exact Hq. }
  unfold node_at.
  destruct (fs w !! q) as [[m b|m]|] eqn:Hn; intros H.
  - injection H as <-. rewrite Hres. simpl.
    destruct (is_root q); [eauto|]. rewrite lookup_insert_eq. eauto.
  - injection H as <-. rewrite Hres. simpl.
    destruct (is_root q); [eauto|]. rewrite lookup_insert_eq. eauto.
  - destruct (is_root q) eqn:Hr; [|discriminate]. injection H as <-.
    rewrite Hq. simpl. rewrite Hr. eauto.
Qed.

(** Writing a file and then setting its mode: one entry of the file system
    changes, and it holds the new content under the new mode. *)
Lemma write_then_chmod p c mode wd ww w1 :
  write_file p c wd = (inr tt, ww) →
  chmod p mode ww = (inr tt, w1) →
  ∃ q, resolve wd p = Some q ∧ is_root q = false
       ∧ fs w1 = <[q := File mode c]> (fs wd) ∧ same_process wd w1.
Proof.
  unfold write_file. destruct (resolve wd p) as [q|] eqn:Hq; [|discriminate].
  intros Hwr Hch. exists q.
  assert (Hroot : is_root q = false).
  { unfold node_at in Hwr. destruct (is_root q); [discriminate | reflexivity]. }
  assert (∃ m, ww = set_fs <[q := File m c]> wd) as [m ->].
  { destruct (node_at wd q) as [[m b|m]|].
    - injection Hwr as <-. eauto.
    - discriminate.
    - destruct (parent_ready wd q); [discriminate|]. injection Hwr as <-. eauto. }
  unfold chmod in Hch.
  rewrite (same_process_resolve wd) in Hch by apply same_process_set_fs.
  rewrite Hq in Hch. cbn [set_fs fs] in Hch. rewrite lookup_insert_eq in Hch.
  injection Hch as <-. cbn [set_fs fs]. rewrite insert_insert_eq.
  split; [reflexivity|]. split; [exact Hroot|]. split; [reflexivity|].
  repeat split.
Qed.

Lemma lookup_path_at w p q :
  resolve w p = Some q → is_root q = false → lookup_path w p = fs w !! q.
Proof.
  intros Hq Hr. unfold lookup_path. rewrite Hq. cbn. unfold node_at.
  rewrite Hr. reflexivity.
Qed.

End Primitives.

(** ** Facts about paths *)

Section PathFacts.
Import PyStr PosixPath.

Lemma comps_cons_sep s : comps (String "/" s) = "" :: comps s.
Proof. reflexivity. Qed.

Lemma comps_cons_other a s w ws :
  chr_eqb a "/" = false → comps s = w :: ws →
  comps (String a s) = String a w :: ws.
Proof. intros Ha Hs. cbn [PyStr.split]. rewrite Ha, Hs. reflexivity. Qed.

Lemma comps_nonempty s : comps s ≠ [].
Proof.
  destruct s as [|a s]; cbn [PyStr.split]; [discriminate|].
  destruct (chr_eqb a "/"); [discriminate|].
  destruct (comps s); discriminate.
Qed.

Lemma chr_eqb_sep a : chr_eqb a "/" = true → a = "/"%char.
Proof. apply Ascii.eqb_eq. Qed.

(** [cut_last_sep] in terms of the components: the tail is the last
    component and the head keeps the others, with a separator after them. *)
Lemma cut_last_sep_comps p :
  match fst (cut_last_sep p) with
  | EmptyString => comps p = [p] ∧ snd (cut_last_sep p) = p
  | h => ∃ init, comps p = (init ++ [snd (cut_last_sep p)])%list
                 ∧ init ≠ [] ∧ comps h = (init ++ [""])%list
  end.
Proof.
  induction p as [|a p IH]; [split; reflexivity|].
  cbn [cut_last_sep]. destruct (cut_last_sep p) as [h t]. cbn [fst snd] in IH.
  destruct h as [|b h].
  - destruct IH as [Hc ->]. destruct (chr_eqb a "/") eqn:Ha; cbn [fst snd].
    + apply chr_eqb_sep in Ha as ->. exists [""]. rewrite comps_cons_sep, Hc.
      split; [reflexivity|]. split; [discriminate | reflexivity].
    + split; [|reflexivity]. apply comps_cons_other; assumption.
  - destruct IH as (init & Hc & Hne & Hh). cbn [fst snd].
    destruct (chr_eqb a "/") eqn:Ha.
    + apply chr_eqb_sep in Ha as ->. exists ("" :: init).
      rewrite !comps_cons_sep, Hc, Hh. split; [reflexivity|].
      split; [discriminate | reflexivity].
    + destruct init as [|w ws]; [contradiction|].
      exists (String a w :: ws).
      rewrite (comps_cons_other a p w (ws ++ [t]) Ha Hc).
      rewrite (comps_cons_other a (String b h) w (ws ++ [""]) Ha Hh).
      split; [reflexivity|]. split; [discriminate | reflexivity].
Qed.

Lemma cut_last_sep_tail_in p : snd (cut_last_sep p) ∈ comps p.
Proof.
  pose proof (cut_last_sep_comps p) as H.
  destruct (fst (cut_last_sep p)).
  - destruct H as [-> ->]. left.
  - destruct H as (init & -> & _). apply elem_of_app. right. left.
Qed.

Lemma cut_last_sep_head_sub p x :
  x ∈ comps (fst (cut_last_sep p)) → x ∈ comps p ∨ x = "".
Proof.
  pose proof (cut_last_sep_comps p) as H.
  destruct (fst (cut_last_sep p)) as [|b h].
  - intros Hx. apply list_elem_of_singleton in Hx. right. exact Hx.
  - destruct H as (init & -> & _ & ->). intros Hx.
    apply elem_of_app in Hx as [Hx | Hx].
    + left. apply elem_of_app. left. exact Hx.
    + apply list_elem_of_singleton in Hx. right. exact Hx.
Qed.

(** Stripping trailing separators drops empty components at the end. *)
Lemma rstrip_sep_comps s :
  ∃ k, comps s = (comps (rstrip_chr "/" s) ++ replicate k "")%list.
Proof.
  induction s as [|a s [k IH]]; [exists 0%nat; reflexivity|].
  cbn [rstrip_chr]. destruct (rstrip_chr "/" s) as [|b r] eqn:Hr.
  - cbn in IH. destruct (chr_eqb a "/") eqn:Ha.
    + apply chr_eqb_sep in Ha as ->. exists (S k).
      rewrite comps_cons_sep, IH. reflexivity.
    + exists k. rewrite (comps_cons_other a s "" (replicate k "") Ha IH).
      cbn. rewrite Ha. reflexivity.
  - destruct (chr_eqb a "/") eqn:Ha.
    + apply chr_eqb_sep in Ha as ->. exists k.
      rewrite !comps_cons_sep, IH. reflexivity.
    + exists k. destruct (comps (String b r)) as [|w ws] eqn:Hc.
      { exfalso. exact (comps_nonempty _ Hc). }
      rewrite (comps_cons_other a s w (ws ++ replicate k "") Ha IH).
      rewrite (comps_cons_other a (String b r) w ws Ha Hc). reflexivity.
Qed.

Lemma rstrip_sep_sub s x :
  x ∈ comps (rstrip_chr "/" s) → x ∈ comps s.
Proof.
  destruct (rstrip_sep_comps s) as [k ->]. intros Hx.
  apply elem_of_app. left. exact Hx.
Qed.

Lemma split_head_no_dot p : no_dot p → no_dot (fst (PosixPath.split p)).
Proof.
  unfold no_dot, PosixPath.split. intros Hp.
  pose proof (cut_last_sep_head_sub p ".") as Hsub.
  destruct (cut_last_sep p) as [h t]. cbn [fst] in *.
  assert (Hh : "." ∉ comps h).
  { intros Hx. destruct (Hsub Hx) as [?|?]; [contradiction | discriminate]. }
  destruct (negb (String.eqb h "") && negb (String.eqb h (repeat sep (String.length h))));
    [|exact Hh].
  intros Hx. apply Hh. apply rstrip_sep_sub. exact Hx.
Qed.

Lemma split_tail_no_dot p : no_dot p → snd (PosixPath.split p) ≠ ".".
Proof.
  unfold no_dot, PosixPath.split. intros Hp Ht.
  pose proof (cut_last_sep_tail_in p) as Hin.
  destruct (cut_last_sep p) as [h t]. cbn [snd] in *. subst t. contradiction.
Qed.

Lemma comps_no_sep s c : c ∈ comps s → contains "/" c = false.
Proof.
  revert c. induction s as [|a s IH]; intros c Hc.
  - apply list_elem_of_singleton in Hc as ->. reflexivity.
  - cbn [PyStr.split] in Hc. destruct (chr_eqb a "/") eqn:Ha.
    + apply elem_of_cons in Hc as [-> | Hc]; [reflexivity | exact (IH _ Hc)].
    + destruct (comps s) as [|w ws] eqn:Hs.
      { exfalso. exact (comps_nonempty _ Hs). }
      apply elem_of_cons in Hc as [-> | Hc].
      * cbn [contains]. rewrite Ha. apply IH. left.
      * apply IH. right. exact Hc.
Qed.

Lemma comps_single c : contains "/" c = false → comps c = [c].
Proof.
  induction c as [|a c IH]; [reflexivity|].
  cbn [contains]. intros H. apply orb_false_iff in H as [Ha Hc].
  exact (comps_cons_other a c c [] Ha (IH Hc)).
Qed.

Lemma comps_app_sep c s :
  contains "/" c = false → comps (c ++ String "/" s) = c :: comps s.
Proof.
  induction c as [|a c IH]; [reflexivity|].
  cbn [contains]. intros H. apply orb_false_iff in H as [Ha Hc].
  exact (comps_cons_other a _ c (comps s) Ha (IH Hc)).
Qed.

Lemma comps_join l :
  l ≠ [] → Forall (λ c, contains "/" c = false) l → comps (PyStr.join "/" l) = l.
Proof.
  induction l as [|c l IH]; [contradiction|]. intros _ Hl.
  apply Forall_cons in Hl as [Hc Hl]. destruct l as [|d l].
  - apply comps_single. exact Hc.
  - change (PyStr.join "/" (c :: d :: l))
      with (c ++ String "/" (PyStr.join "/" (d :: l))).
    rewrite comps_app_sep by exact Hc. rewrite IH by (discriminate || exact Hl).
    reflexivity.
Qed.

Lemma normpath_step_kept k acc comp :
  Forall kept acc → contains "/" comp = false →
  Forall kept (normpath_step k acc comp).
Proof.
  intros Hacc Hc. unfold normpath_step.
  destruct (String.eqb comp "") eqn:He; [exact Hacc|].
  destruct (String.eqb comp ".") eqn:Hd; [exact Hacc|]. cbn [orb].
  apply String.eqb_neq in He, Hd.
  match goal with |- Forall _ (if ?b then _ else _) => destruct b end.
  - apply Forall_cons. split; [|exact Hacc]. repeat split; assumption.
  - destruct acc as [|x acc]; [exact Hacc|].
    apply Forall_cons in Hacc as [_ Hacc]. exact Hacc.
Qed.

Lemma normpath_fold_kept k l acc :
  Forall kept acc → Forall (λ c, contains "/" c = false) l →
  Forall kept (fold_left (normpath_step k) l acc).
Proof.
  revert acc. induction l as [|c l IH]; intros acc Hacc Hl; [exact Hacc|].
  apply Forall_cons in Hl as [Hc Hl]. cbn [fold_left].
  apply IH; [apply normpath_step_kept; assumption | exact Hl].
Qed.

Lemma repeat_sep_no_dot k s : no_dot s → no_dot (repeat sep k ++ s).
Proof.
  unfold no_dot. intros Hs. induction k as [|k IH]; [exact Hs|].
  change ("." ∉ comps (String "/" (repeat sep k ++ s))).
  rewrite comps_cons_sep. intros Hx.
  apply elem_of_cons in Hx as [? | Hx]; [discriminate | contradiction].
Qed.

(** The normal form of an absolute path has no component [.] *)
Lemma normpath_no_dot path : isabs path = true → no_dot (normpath path).
Proof.
  intros Habs. unfold normpath.
  destruct (String.eqb path "") eqn:He.
  { apply String.eqb_eq in He as ->. discriminate. }
  unfold isabs in Habs. rewrite Habs.
  set (k := if startswith path "//" && negb (startswith path "///")
            then 2%nat else 1%nat).
  set (new_comps := rev (fold_left (normpath_step k) (comps path) [])).
  assert (Hkept : Forall kept new_comps).
  { apply Forall_rev, normpath_fold_kept; [constructor|].
    apply Forall_forall. intros c Hc. exact (comps_no_sep _ _ Hc). }
  assert (Hnd : no_dot (repeat sep k ++ PyStr.join sep new_comps)).
  { apply repeat_sep_no_dot. unfold no_dot.
    destruct new_comps as [|c l] eqn:Hn.
    - cbn. intros Hx. apply list_elem_of_singleton in Hx. discriminate.
    - rewrite comps_join.
      + intros Hx. rewrite Forall_forall in Hkept.
        destruct (Hkept _ Hx) as (_ & Hdot & _). contradiction.
      + discriminate.
      + eapply Forall_impl; [exact Hkept|]. intros x (_ & _ & Hx). exact Hx. }
  destruct (String.eqb (repeat sep k ++ PyStr.join sep new_comps) "") eqn:Hz;
    [|exact Hnd].
  apply String.eqb_eq in Hz. unfold k in Hz.
  destruct (startswith path "//" && negb (startswith path "///")); discriminate.
Qed.

Lemma join_isabs a b : isabs a = true → isabs (PosixPath.join a b) = true.
Proof.
  intros Ha. unfold PosixPath.join. destruct (startswith b sep) eqn:Hb; [exact Hb|].
  destruct a as [|x a]; [discriminate|].
  assert (Hpre : ∀ t, isabs (String x t) = true).
  { intros t. revert Ha. unfold isabs, startswith, sep. cbn [String.prefix].
    destruct (ascii_dec "/" x); [|discriminate].
    intros _. destruct t; reflexivity. }
  destruct (_ || _); apply (Hpre (_ ++ _)).
Qed.

Lemma abspath_no_dot cwd path : isabs cwd = true → no_dot (abspath cwd path).
Proof.
  intros Hcwd. unfold abspath. apply normpath_no_dot.
  destruct (isabs path) eqn:Hp; [exact Hp | exact (join_isabs _ _ Hcwd)].
Qed.

End PathFacts.

(** ** generate_config_file *)

Section Rendering.
Import PyStr OS Setup.
Variable host : Host.

(** The call does nothing at all when the file is there and must not be
    overwritten. *)
Lemma generate_config_file_skip filename config_args known_config w :
  is_Some (lookup_path w filename) →
  generate_config_file host filename config_args known_config false w = (inr tt, w).
Proof.
  intros Hex. unfold generate_config_file. cbn [negb].
  rewrite (bind_eq _ _ _ _ _ (path_exists_eq filename w)).
  rewrite bool_decide_true by exact Hex. reflexivity.
Qed.

(** The steps of a call that does write, in order. *)
Lemma generate_config_file_steps filename config_args known_config overwrite w w1 :
  generate_config_file host filename config_args known_config overwrite w = (inr tt, w1) →
  overwrite = true ∨ lookup_path w filename = None →
  ∃ lines wd ww,
    config_lines host config_args known_config = inr lines
    ∧ when (negb (bool_decide (is_Some (lookup_path w (config_dir_of w filename)))))
           (makedirs (config_dir_of w filename) (oct 7 5 5)) w = (inr tt, wd)
    ∧ write_file filename (Text (join newline lines)) wd = (inr tt, ww)
    ∧ chmod filename (oct 6 6 0) ww = (inr tt, w1).
Proof.
  intros Hrun Hwrite. unfold generate_config_file in Hrun.
  assert (Hskip : (if negb overwrite then path_exists filename else ret false) w
                  = (inr false, w)).
  { destruct Hwrite as [-> | Hnone]; [reflexivity|].
    destruct overwrite; [reflexivity|]. cbn [negb]. rewrite path_exists_eq.
    rewrite bool_decide_false; [reflexivity|].
    rewrite Hnone. intros [? ?]. discriminate. }
  rewrite (bind_eq _ _ _ _ _ Hskip) in Hrun.
  unfold abspath_m in Hrun. unfold bind at 1 in Hrun.
  rewrite (bind_eq _ _ _ _ _ (path_exists_eq _ w)) in Hrun.
  apply bind_ok in Hrun as ([] & wd & Hmk & Hrun).
  apply bind_ok in Hrun as (lines & wl & Hlines & Hrun).
  apply bind_ok in Hrun as ([] & ww & Hwr & Hch).
  unfold lift in Hlines.
  destruct (config_lines host config_args known_config) as [e|ls] eqn:Hcl;
    [discriminate|].
  injection Hlines as -> <-.
  exists lines, wd, ww. repeat split; assumption.
Qed.

(** Either the call was skipped or it went through all its steps. *)
Lemma generate_config_file_cases filename config_args known_config overwrite w w1 :
  generate_config_file host filename config_args known_config overwrite w = (inr tt, w1) →
  (overwrite = false ∧ is_Some (lookup_path w filename) ∧ w1 = w)
  ∨ (overwrite = true ∨ lookup_path w filename = None).
Proof.
  intros Hrun. destruct overwrite; [right; left; reflexivity|].
  destruct (lookup_path w filename) as [n|] eqn:Hn; [left | right; right; reflexivity].
  rewrite generate_config_file_skip in Hrun by (rewrite Hn; eauto).
  injection Hrun as <-. eauto.
Qed.

(** After a successful call there is something at the path. *)
Lemma generate_config_file_exists filename config_args known_config overwrite w w1 :
  generate_config_file host filename config_args known_config overwrite w = (inr tt, w1) →
  is_Some (lookup_path w1 filename).
Proof.
  intros Hrun.
  destruct (generate_config_file_cases _ _ _ _ _ _ Hrun) as [(_ & Hex & ->) | Hwrite].
  - exact Hex.
  - destruct (generate_config_file_steps _ _ _ _ _ _ Hrun Hwrite)
      as (lines & wd & ww & _ & _ & _ & Hch).
    exact (chmod_ok_exists _ _ _ _ Hch).
Qed.

(** What a writing call leaves at the path: a regular file with mode
    [0o660] holding the rendered lines joined by newlines. *)
Lemma generate_config_file_result filename config_args known_config overwrite w w1 :
  generate_config_file host filename config_args known_config overwrite w = (inr tt, w1) →
  overwrite = true ∨ lookup_path w filename = None →
  ∃ lines,
    config_lines host config_args known_config = inr lines
    ∧ lookup_path w1 filename = Some (File (oct 6 6 0) (Text (join newline lines))).
Proof.
  intros Hrun Hwrite.
  destruct (generate_config_file_steps _ _ _ _ _ _ Hrun Hwrite)
    as (lines & wd & ww & Hlines & Hmk & Hwr & Hch).
  exists lines. split; [exact Hlines|].
  destruct (write_then_chmod _ _ _ _ _ _ Hwr Hch) as (q & Hq & Hroot & Hfs & Hsame).
  rewrite (lookup_path_at w1 filename q).
  - rewrite Hfs. apply lookup_insert_eq.
  - rewrite (same_process_resolve wd) by exact Hsame. exact Hq.
  - exact Hroot.
Qed.

(** C4. Where a file already exists, [generate_config_file] with
    [overwrite=False] returns normally and leaves the whole world, file
    included, as it was, whatever schema and known values it is given; and
    a call with [overwrite=False] that follows a successful one on the same
    path, with any schema and values, changes nothing of what the first
    left behind. *)
Theorem generate_config_file_keeps_existing :
  (∀ filename config_args known_config w,
     is_Some (lookup_path w filename) →
     generate_config_file host filename config_args known_config false w = (inr tt, w))
  ∧ (∀ filename args1 known1 args2 known2 w w1,
       generate_config_file host filename args1 known1 false w = (inr tt, w1) →
       generate_config_file host filename args2 known2 false w1 = (inr tt, w1)).
Proof.
  split.
  - apply generate_config_file_skip.
  - intros filename args1 known1 args2 known2 w w1 Hrun.
    apply generate_config_file_skip.
    exact (generate_config_file_exists _ _ _ _ _ _ Hrun).
Qed.

(** *** Modes *)

(** The directory of an absolute normalised file name has a proper last
    component, so [makedirs] on it ends with the [mkdir] of the leaf. *)
Lemma config_dir_has_leaf w filename :
  PosixPath.isabs (cwd w) = true →
  snd (makedirs_split (config_dir_of w filename)) ≠ ".".
Proof.
  intros Habs. unfold config_dir_of, PosixPath.dirname.
  pose proof (split_head_no_dot _ (abspath_no_dot (cwd w) filename Habs)) as Hd.
  set (d := fst (PosixPath.split (PosixPath.abspath (cwd w) filename))) in *.
  unfold makedirs_split.
  pose proof (split_tail_no_dot d Hd) as Ht.
  pose proof (split_head_no_dot d Hd) as Hh.
  destruct (PosixPath.split d) as [head tail]. cbn [fst snd] in *.
  destruct (String.eqb tail ""); [|exact Ht].
  exact (split_tail_no_dot head Hh).
Qed.

Lemma write_file_ok_not_dir p c w ww q m :
  write_file p c w = (inr tt, ww) → resolve w p = Some q →
  node_at w q ≠ Some (Dir m).
Proof.
  unfold write_file. intros Hwr Hq. rewrite Hq in Hwr.
  intros Hdir. rewrite Hdir in Hwr. discriminate.
Qed.

(** C7, as the code has it.  A writing call of [generate_config_file]
    leaves the file with mode [0o660], which has no bit for others and no
    execute bit; and when the directory of the file was missing, it leaves
    that directory with mode [0o755] less the umask, a mode that gives
    others read and search access. *)
Theorem config_file_and_directory_modes
    filename config_args known_config overwrite w w1 :
  generate_config_file host filename config_args known_config overwrite w = (inr tt, w1) →
  overwrite = true ∨ lookup_path w filename = None →
  (∃ c, lookup_path w1 filename = Some (File (oct 6 6 0) c))
  ∧ Spec.no_world_access (oct 6 6 0)
  ∧ Spec.no_execute (oct 6 6 0)
  ∧ (PosixPath.isabs (cwd w) = true →
     lookup_path w (config_dir_of w filename) = None →
     lookup_path w1 (config_dir_of w filename) = Some (Dir (masked w (oct 7 5 5))))
  ∧ Z.land (oct 7 5 5) (oct 0 0 7) = oct 0 0 5.
Proof.
  intros Hrun Hwrite.
  split.
  { destruct (generate_config_file_result _ _ _ _ _ _ Hrun Hwrite) as (lines & _ & Hf).
    eauto. }
  split; [reflexivity|]. split; [reflexivity|]. split; [|reflexivity].
  intros Habs Hnone.
  destruct (generate_config_file_steps _ _ _ _ _ _ Hrun Hwrite)
    as (lines & wd & ww & _ & Hmk & Hwr & Hch).
  rewrite bool_decide_false in Hmk by (rewrite Hnone; intros [? ?]; discriminate).
  cbn [negb when] in Hmk.
  pose proof (makedirs_frame (config_dir_of w filename) (oct 7 5 5) w) as Hframe.
  rewrite Hmk in Hframe. cbn [snd] in Hframe.
  destruct (makedirs_fuel_leaf _ _ _ _ _ Hmk (config_dir_has_leaf w filename Habs))
    as (qd & Hqd & Hrootd & Hdir).
  destruct (write_then_chmod _ _ _ _ _ _ Hwr Hch) as (q & Hq & Hroot & Hfs & Hsame).
  assert (Hne : q ≠ qd).
  { intros ->. apply (write_file_ok_not_dir _ _ _ _ _ (masked w (oct 7 5 5)) Hwr Hq).
    unfold node_at. rewrite Hrootd. exact Hdir. }
  rewrite (lookup_path_at w1 (config_dir_of w filename) qd).
  - rewrite Hfs, lookup_insert_ne by exact Hne. exact Hdir.
  - rewrite (same_process_resolve w) by (eapply same_process_trans; eassumption).
    exact Hqd.
  - exact Hrootd.
Qed.

(** *** The rendered lines *)

Lemma render_arg_inv known_config arg ls :
  render_arg host known_config arg = inr ls →
  ∃ key h, arg_key arg = inr key ∧ help arg = Some h
    ∧ ls = [ "# " ++ h;
             fst (render_pair host key (arg_value known_config key arg))
               ++ " = " ++ snd (render_pair host key (arg_value known_config key arg));
             "" ].
Proof.
  unfold render_arg. destruct (arg_key arg) as [e|key]; [discriminate|].
  destruct (render_pair host key (arg_value known_config key arg)) as [k v] eqn:Hp.
  destruct (help arg) as [h|]; [|discriminate].
  intros H. injection H as <-. exists key, h.
  split; [reflexivity|]. split; [reflexivity|]. rewrite Hp. reflexivity.
Qed.

Lemma render_args_prefix known_config config_args acc lines :
  render_args host known_config config_args acc = inr lines →
  ∃ more, lines = (acc ++ more)%list.
Proof.
  revert acc. induction config_args as [|arg rest IH]; intros acc; cbn [render_args].
  - intros H. injection H as <-. exists []. symmetry. apply app_nil_r.
  - destruct (render_arg host known_config arg) as [e|ls]; [discriminate|].
    intros H. destruct (IH _ H) as [more ->].
    exists (ls ++ more)%list. symmetry. apply app_assoc.
Qed.

(** The block of the [i]-th schema entry sits at lines [3 i .. 3 i + 2]
    after the lines that were there before the loop. *)
Lemma render_args_lookup known_config config_args acc lines i arg :
  render_args host known_config config_args acc = inr lines →
  config_args !! i = Some arg →
  ∃ ls, render_arg host known_config arg = inr ls
        ∧ ∀ j, (j < 3)%nat → lines !! (length acc + 3 * i + j)%nat = ls !! j.
Proof.
  revert acc i. induction config_args as [|arg0 rest IH]; intros acc i;
    cbn [render_args]; [intros _ H; inversion H|].
  destruct (render_arg host known_config arg0) as [e|l0] eqn:H0; [discriminate|].
  intros Hrun Hi.
  destruct (render_arg_inv _ _ _ H0) as (key & h & _ & _ & Hl0).
  destruct i as [|i]; cbn in Hi.
  - injection Hi as <-. exists l0. split; [exact H0|].
    intros j Hj. destruct (render_args_prefix _ _ _ _ Hrun) as [more ->].
    rewrite <- app_assoc, lookup_app_r by lia.
    replace (length acc + 3 * 0 + j - length acc)%nat with j by lia.
    apply lookup_app_l. rewrite Hl0. cbn. exact Hj.
  - destruct (IH _ _ Hrun Hi) as (ls & Hls & Hlook).
    exists ls. split; [exact Hls|].
    intros j Hj. rewrite <- (Hlook j Hj). f_equal.
    rewrite length_app, Hl0. cbn. lia.
Qed.

(** C8. In the file a writing call of [generate_config_file] leaves, the
    entry of every schema argument starts with its help line; when the
    canonical key has neither a value in the known config nor a declared
    default, the line of the key is commented out, [# key = ], with
    nothing after the equals sign; and when the known config, or failing
    that the declared default, gives a value other than [None], the line is
    the active [key = value]. *)
Theorem unresolved_keys_are_commented_out
    filename config_args known_config overwrite w w1 i arg :
  generate_config_file host filename config_args known_config overwrite w = (inr tt, w1) →
  overwrite = true ∨ lookup_path w filename = None →
  config_args !! i = Some arg →
  ∃ lines key h,
    lookup_path w1 filename = Some (File (oct 6 6 0) (Text (join newline lines)))
    ∧ arg_key arg = inr key ∧ help arg = Some h
    ∧ lines !! (2 + 3 * i)%nat = Some ("# " ++ h)
    ∧ lines !! (2 + 3 * i + 2)%nat = Some ""
    ∧ (known_config !! key = None → default arg = None →
       lines !! (2 + 3 * i + 1)%nat = Some ("# " ++ key ++ " = "))
    ∧ (∀ v, v ≠ VNone →
         known_config !! key = Some v
         ∨ (known_config !! key = None ∧ default arg = Some v) →
         lines !! (2 + 3 * i + 1)%nat
         = Some (key ++ " = " ++ snd (render_pair host key v))).
Proof.
  intros Hrun Hwrite Hi.
  destruct (generate_config_file_result _ _ _ _ _ _ Hrun Hwrite)
    as (lines & Hlines & Hfile).
  destruct (render_args_lookup _ _ _ _ _ _ Hlines Hi) as (ls & Hls & Hlook).
  destruct (render_arg_inv _ _ _ Hls) as (key & h & Hkey & Hhelp & ->).
  exists lines, key, h. split; [exact Hfile|].
  split; [exact Hkey|]. split; [exact Hhelp|].
  pose proof (Hlook 0%nat ltac:(lia)) as L0.
  pose proof (Hlook 1%nat ltac:(lia)) as L1.
  pose proof (Hlook 2%nat ltac:(lia)) as L2.
  cbn [length] in L0, L1, L2. rewrite Nat.add_0_r in L0.
  split; [exact L0|]. split; [exact L2|]. split.
  - intros Hk Hd. rewrite L1. unfold arg_value. rewrite Hk, Hd. reflexivity.
  - intros v Hv Hsrc. rewrite L1.
    assert (arg_value known_config key arg = v) as ->.
    { unfold arg_value. destruct Hsrc as [-> | [-> ->]]; reflexivity. }
    destruct v; try reflexivity. contradiction.
Qed.

End Rendering.

(** ** Resolving the server configuration *)

Section Resolution.
Import PyStr OS Setup.
Variable host : Host.

(** C2. Whatever the two probes return, the resolved server config maps a
    key of the foreign daemon config that the legacy config lacks to the
    foreign value, and a key that both have to the legacy value. *)
Theorem legacy_overrides_foreign w w1 w2 bitcoincore_config old_config :
  extract_bitcoincore_config host w = (inr bitcoincore_config, w1) →
  extract_old_config host w1 = (inr old_config, w2) →
  ∃ resolved,
    get_server_known_config host w = (inr resolved, w2)
    ∧ (∀ k v, bitcoincore_config !! k = Some v → old_config !! k = None →
              resolved !! k = Some v)
    ∧ (∀ k v v', bitcoincore_config !! k = Some v → old_config !! k = Some v' →
                 resolved !! k = Some v').
Proof.
  intros Hb Ho. unfold get_server_known_config.
  rewrite (bind_eq _ _ _ _ _ Hb), (bind_eq _ _ _ _ _ Ho).
  eexists. split; [reflexivity|]. split.
  - intros k v Hk Hn. rewrite !dict_update_lookup, Hn, Hk. reflexivity.
  - intros k v v' Hk Hl. rewrite dict_update_lookup, Hl. reflexivity.
Qed.

Lemma client_config_keys_nodup : NoDup client_config_keys.*2.
Proof. apply NoDup_ListNoDup. vm_compute. repeat constructor; simpl; intuition discriminate. Qed.

(** C9. The client config holds, for every server key that has an entry in
    the translation table and is set, the translated key with the same
    value, and nothing else; the example of the specification gives the two
    entries it names. *)
Theorem server_to_client_config_translates :
  (∀ {V} (server_config : gmap string V) client_key v,
     server_to_client_config server_config !! client_key = Some v
     ↔ ∃ server_key, (server_key, client_key) ∈ client_config_keys
                     ∧ server_config !! server_key = Some v)
  ∧ server_to_client_config
      (<["backend-connect" := "10.0.0.5"]> (<["rpc-password" := "secret"]> ∅))
    = <["wallet-connect" := "10.0.0.5"]>
        (<["metronotes-rpc-password" := "secret"]> (∅ : gmap string string)).
Proof.
  split.
  - intros V server_config client_key v. unfold server_to_client_config.
    apply translate_keys_lookup, client_config_keys_nodup.
  - vm_compute. reflexivity.
Qed.

(** The state after one call of [os.urandom]. *)
Lemma os_urandom_eq n w :
  os_urandom host n w
  = (inr (urandom host (urandom_calls w) n),
     MkWorld (cwd w) (umask w) (fs w) (stdin w) (stdout w) (S (urandom_calls w))).
Proof. reflexivity. Qed.

Lemma generate_config_files_skip w :
  is_Some (lookup_path w (PosixPath.join (configdir host) "server.conf")) →
  generate_config_files host w = (inr tt, w).
Proof.
  intros Hex. unfold generate_config_files.
  rewrite (bind_eq _ _ _ _ _ (path_exists_eq _ w)).
  rewrite bool_decide_true by exact Hex. reflexivity.
Qed.

(** C10. When [server.conf] is there, [generate_config_files] returns
    without touching anything; a [client.conf] that is missing before the
    call is still missing after it. *)
Theorem client_conf_written_only_with_server_conf w :
  is_Some (lookup_path w (PosixPath.join (configdir host) "server.conf")) →
  generate_config_files host w = (inr tt, w)
  ∧ (lookup_path w (PosixPath.join (configdir host) "client.conf") = None →
     lookup_path (snd (generate_config_files host w))
       (PosixPath.join (configdir host) "client.conf") = None).
Proof.
  intros Hex. rewrite generate_config_files_skip by exact Hex.
  split; [reflexivity | intros H; exact H].
Qed.

End Resolution.

(** ** Probing the foreign daemon file *)

Section Probe.
Import PyStr OS Setup.
Variable host : Host.

Lemma conf_line_entry conf line :
  conf_line conf line =
  match line_entry line with
  | Some (k, v) => <[k := v]> conf
  | None => conf
  end.
Proof.
  unfold conf_line, line_entry.
  destruct (contains "#" line || negb (contains "=" line)); [reflexivity|].
  destruct (split1 "=" line) as [k [v|]]; reflexivity.
Qed.

Lemma contains_split1 c line :
  contains c line = true → ∃ a b, split1 c line = (a, Some b).
Proof.
  induction line as [|x line IH]; cbn [contains split1]; [discriminate|].
  destruct (chr_eqb x c); [eauto|]. cbn. intros H.
  destruct (IH H) as (a & b & ->). eauto.
Qed.

(** The loop over the lines, from any [conf]: a key holds the entry of the
    last line that sets it, or what [conf] held when no line sets it. *)
Lemma fold_conf_line_lookup lines conf k s :
  fold_left conf_line lines conf !! k = Some s
  ↔ (∃ before line after,
       lines = (before ++ line :: after)%list
       ∧ line_entry line = Some (k, s)
       ∧ ∀ l s', l ∈ after → line_entry l ≠ Some (k, s'))
    ∨ ((∀ l s', l ∈ lines → line_entry l ≠ Some (k, s')) ∧ conf !! k = Some s).
Proof.
  revert conf. induction lines as [|l t IH]; intros conf; cbn [fold_left].
  - split.
    + intros H. right. split; [intros l s' Hl; inversion Hl | exact H].
    + intros [(before & line & after & Heq & _) | [_ H]]; [|exact H].
      destruct before; discriminate.
  - rewrite IH, conf_line_entry. split.
    + intros [(before & line & after & -> & He & Hlast) | [Hnone Hacc]].
      * left. exists (l :: before), line, after. auto.
      * destruct (line_entry l) as [[k0 v0]|] eqn:Hl.
        -- destruct (decide (k0 = k)) as [->|Hne].
           ++ rewrite lookup_insert_eq in Hacc. injection Hacc as ->.
              left. exists [], l, t. auto.
           ++ rewrite lookup_insert_ne in Hacc by exact Hne.
              right. split; [|exact Hacc].
              intros l' s' Hl'. apply elem_of_cons in Hl' as [-> | Hl'].
              ** rewrite Hl. congruence.
              ** apply Hnone, Hl'.
        -- right. split; [|exact Hacc].
           intros l' s' Hl'. apply elem_of_cons in Hl' as [-> | Hl'].
           ** rewrite Hl. discriminate.
           ** apply Hnone, Hl'.
    + intros [(before & line & after & Heq & He & Hlast) | [Hnone Hacc]].
      * destruct before as [|b before]; cbn in Heq; injection Heq as -> ->.
        -- right. split; [exact Hlast|]. rewrite He. apply lookup_insert_eq.
        -- left. exists before, line, after. auto.
      * right. split.
        -- intros l' s' Hl'. apply Hnone. right. exact Hl'.
        -- destruct (line_entry l) as [[k0 v0]|] eqn:Hl; [|exact Hacc].
           rewrite lookup_insert_ne; [exact Hacc|].
           intros ->. apply (Hnone l v0); [left | exact Hl].
Qed.

Lemma parse_conf_lookup text k s :
  parse_conf text !! k = Some s
  ↔ ∃ before line after,
      readlines text = (before ++ line :: after)%list
      ∧ line_entry line = Some (k, s)
      ∧ ∀ l s', l ∈ after → line_entry l ≠ Some (k, s').
Proof.
  unfold parse_conf. rewrite fold_conf_line_lookup, lookup_empty. split.
  - intros [H | [_ H]]; [exact H | discriminate].
  - intros H. left. exact H.
Qed.

Lemma bitcoin_config_keys_nodup : NoDup bitcoin_config_keys.*2.
Proof. apply NoDup_ListNoDup. vm_compute. repeat constructor; simpl; intuition discriminate. Qed.

(** C6, as the code has it.  On a Windows host without [APPDATA] the
    path of [bitcoin.conf] cannot be made up and the [KeyError] is raised.
    On another host, a missing file gives the empty mapping, while a
    directory at the path or bytes that do not decode make the call raise.  A file that decodes gives exactly the four connectivity
    keys that were parsed, under their local names and with the parsed
    values; a key is parsed from the last line that sets it; a line sets a
    key only if it contains no [#] at all and contains an [=], and then the
    key and the value are the text before and after the first [=], with the
    whitespace at both ends removed.  The world is never changed. *)
Theorem extract_bitcoincore_config_parses w :
  (platform_system host = "Windows" → environ host !! "APPDATA" = None →
   extract_bitcoincore_config host w = (inl (KeyError "APPDATA"), w))
  ∧ (∀ p, platform_system host ≠ "Windows" → btc_conf_file host = inr p →
       (lookup_path w p = None → extract_bitcoincore_config host w = (inr ∅, w))
       ∧ (∀ mode, lookup_path w p = Some (Dir mode) →
            extract_bitcoincore_config host w = (inl (IsADirectoryError p), w))
       ∧ (∀ mode content,
            lookup_path w p = Some (File mode (Text content)) →
            decode host content = None →
            extract_bitcoincore_config host w = (inl UnicodeDecodeError, w))
       ∧ (∀ mode content decoded,
            lookup_path w p = Some (File mode (Text content)) →
            decode host content = Some decoded →
            let text := universal_newlines decoded in
            ∃ r, extract_bitcoincore_config host w = (inr r, w)
                 ∧ (∀ k' v, r !! k' = Some v
                      ↔ ∃ k s, (k, k') ∈ bitcoin_config_keys
                               ∧ parse_conf text !! k = Some s ∧ v = VStr s)
                 ∧ (∀ k s, parse_conf text !! k = Some s
                      ↔ ∃ before line after,
                          readlines text = (before ++ line :: after)%list
                          ∧ line_entry line = Some (k, s)
                          ∧ ∀ l s', l ∈ after → line_entry l ≠ Some (k, s'))))
  ∧ (∀ line, contains "#" line = true ∨ contains "=" line = false →
             line_entry line = None)
  ∧ (∀ line, contains "#" line = false → contains "=" line = true →
             ∃ a b, split1 "=" line = (a, Some b)
                    ∧ line_entry line = Some (strip a, strip b)).
Proof.
  split; [|split; [|split]].
  - intros Hwin Hnone. unfold extract_bitcoincore_config, btc_conf_file.
    rewrite Hwin, Hnone. reflexivity.
  - intros p _ Hp.
    assert (Hstep : extract_bitcoincore_config host w
                    = (if bool_decide (is_Some (lookup_path w p))
                       then do text <- read_text (decode host) p;
                            ret (translate_keys bitcoin_config_keys
                                   (VStr <$> parse_conf text))
                       else ret ∅) w).
    { unfold extract_bitcoincore_config. rewrite Hp. cbn [lift].
      unfold bind at 1. cbn [ret].
      rewrite (bind_eq _ _ _ _ _ (path_exists_eq p w)). reflexivity. }
    rewrite Hstep. clear Hstep.
    split; [|split; [|split]].
    + intros Hnone.
      rewrite bool_decide_false by (rewrite Hnone; intros [? ?]; discriminate).
      reflexivity.
    + intros mode Hdir. rewrite bool_decide_true by (rewrite Hdir; eauto).
      unfold read_text, read_file, bind. rewrite Hdir. reflexivity.
    + intros mode content Hfile Hbad.
      rewrite bool_decide_true by (rewrite Hfile; eauto).
      unfold read_text, read_file, bind. rewrite Hfile, Hbad. reflexivity.
    + intros mode content decoded Hfile Hdec. cbv zeta.
      rewrite bool_decide_true by (rewrite Hfile; eauto).
      eexists. split.
      * unfold read_text, read_file, bind. rewrite Hfile, Hdec. reflexivity.
      * split; [|apply parse_conf_lookup].
        intros k' v. rewrite translate_keys_lookup by apply bitcoin_config_keys_nodup.
        split.
        -- intros (k & Hk & Hv). rewrite lookup_fmap in Hv.
           destruct (parse_conf (universal_newlines decoded) !! k) as [s|] eqn:Hs;
             [|discriminate].
           injection Hv as <-. exists k, s. auto.
        -- intros (k & s & Hk & Hs & ->). exists k. split; [exact Hk|].
           rewrite lookup_fmap, Hs. reflexivity.
  - intros line Hskip. unfold line_entry.
    destruct Hskip as [-> | ->]; [reflexivity|]. rewrite orb_true_r. reflexivity.
  - intros line Hh He. unfold line_entry. rewrite Hh, He. cbn.
    destruct (contains_split1 _ _ He) as (a & b & ->). eauto.
Qed.

End Probe.

(** ** bootstrap *)

Section Bootstrap.
Import PyStr OS Setup.
Variable host : Host.

Lemma is_within_directory_eq directory target w :
  is_within_directory directory target w
  = (inr (String.eqb
            (PosixPath.commonprefix (PosixPath.abspath (cwd w) directory)
                                    (PosixPath.abspath (cwd w) target))
            (PosixPath.abspath (cwd w) directory)), w).
Proof. reflexivity. Qed.

(** The loop over the members only looks. *)
Lemma check_members_pure path members w :
  snd (check_members path members w) = w.
Proof.
  induction members as [|m rest IH]; cbn [check_members]; [reflexivity|].
  rewrite (bind_eq _ _ _ _ _ (is_within_directory_eq _ _ w)).
  destruct (String.eqb _ _); [exact IH | reflexivity].
Qed.

(** A member that fails the test makes the loop raise. *)
Lemma check_members_rejects path members m w :
  m ∈ members →
  is_within_directory path (PosixPath.join path (name m)) w = (inr false, w) →
  check_members path members w
  = (inl (Exception "Attempted Path Traversal in Tar File"), w).
Proof.
  intros Hin Hbad. induction members as [|m0 rest IH]; [inversion Hin|].
  cbn [check_members].
  rewrite (bind_eq _ _ _ _ _ (is_within_directory_eq _ _ w)).
  destruct (String.eqb _ _) eqn:Hok.
  - apply elem_of_cons in Hin as [-> | Hin]; [|exact (IH Hin)].
    rewrite is_within_directory_eq, Hok in Hbad. discriminate.
  - reflexivity.
Qed.

(** When one member fails the test of [is_within_directory], whichever it
    is, [safe_extract] raises and the world is as before: no member is
    written. *)
Lemma safe_extract_rejects_whole_archive tar path m w :
  m ∈ tar →
  is_within_directory path (PosixPath.join path (name m)) w = (inr false, w) →
  safe_extract tar path w
  = (inl (Exception "Attempted Path Traversal in Tar File"), w).
Proof.
  intros Hin Hbad. unfold safe_extract.
  apply bind_raise. exact (check_members_rejects _ _ _ _ Hin Hbad).
Qed.

(** C1, where the code departs from it.  In the working directory
    [/tmp/x], the member [../xy/payload] resolves to [/tmp/xy/payload],
    outside the destination root; [/tmp/x] is still a leading string of that
    path, the test of [is_within_directory] passes, nothing is raised and
    the member is written outside the root. *)
Theorem safe_extract_accepts_sibling_with_same_prefix :
  let w := Demo.world Demo.home_dirs [] in
  let root := PosixPath.abspath (cwd w) "." in
  let target := PosixPath.abspath (cwd w) (PosixPath.join "." "../xy/payload") in
  root = "/tmp/x"
  ∧ target = "/tmp/xy/payload"
  ∧ Spec.inside_root root target = false
  ∧ is_within_directory "." (PosixPath.join "." "../xy/payload") w = (inr true, w)
  ∧ fst (safe_extract Demo.sibling_archive "." w) = inr tt
  ∧ lookup_path w "/tmp/xy/payload" = None
  ∧ lookup_path (snd (safe_extract Demo.sibling_archive "." w)) "/tmp/xy/payload"
    = Some (File (oct 6 4 4) (Text "evil")).
Proof. vm_compute. repeat split. Qed.

Lemma ensure_data_dir_frame w : same_process w (snd (ensure_data_dir host w)).
Proof.
  unfold ensure_data_dir. rewrite (bind_eq _ _ _ _ _ (path_exists_eq _ w)).
  destruct (bool_decide _); cbn [negb when].
  - apply same_process_refl.
  - apply makedirs_frame.
Qed.

End Bootstrap.

(** ** The theorems at work on the concrete worlds *)

Section Instances.
Import PyStr OS Setup.

(** The specification's own example of the merge: the legacy port wins,
    the foreign user stays. *)
Lemma legacy_overrides_foreign_witness :
  ∃ resolved,
    get_server_known_config Demo.host Demo.first_run = (inr resolved, Demo.first_run)
    ∧ resolved !! "backend-user" = Some (VStr "alice")
    ∧ resolved !! "backend-port" = Some (VStr "8333").
Proof.
  destruct (legacy_overrides_foreign Demo.host Demo.first_run Demo.first_run
              Demo.first_run Demo.first_foreign Demo.first_legacy)
    as (r & Hr & Hforeign & Hlegacy).
  - vm_compute. reflexivity.
  - vm_compute. reflexivity.
  - exists r. split; [exact Hr|]. split.
    + apply (Hforeign "backend-user" (VStr "alice")); vm_compute; reflexivity.
    + apply (Hlegacy "backend-port" (VStr "8332") (VStr "8333")); vm_compute; reflexivity.
Defined.

Lemma generate_config_file_keeps_existing_witness :
  generate_config_file Demo.host "/home/u/.config/metronotes/server.conf"
    Demo.client_args ∅ false Demo.later_run = (inr tt, Demo.later_run)
  ∧ generate_config_file Demo.host "conf/server.conf" Demo.client_args
      Demo.first_known false (snd Demo.rendered) = (inr tt, snd Demo.rendered).
Proof.
  split.
  - apply (proj1 (generate_config_file_keeps_existing Demo.host)).
    vm_compute. eauto.
  - apply (proj2 (generate_config_file_keeps_existing Demo.host) "conf/server.conf"
             Demo.server_args ∅ Demo.client_args Demo.first_known (Demo.asked "n")).
    vm_compute. reflexivity.
Defined.


Lemma extract_bitcoincore_config_parses_witness :
  extract_bitcoincore_config Demo.host Demo.later_run = (inr ∅, Demo.later_run)
  ∧ (∃ r, extract_bitcoincore_config Demo.host Demo.first_run = (inr r, Demo.first_run)
          ∧ r !! "backend-port" = Some (VStr "8332"))
  ∧ (∃ r, extract_bitcoincore_config Demo.host Demo.nbsp_run = (inr r, Demo.nbsp_run)
          ∧ r !! "backend-user" = Some (VStr "alice"))
  ∧ extract_bitcoincore_config Demo.host Demo.latin1_run
    = (inl UnicodeDecodeError, Demo.latin1_run)
  ∧ extract_bitcoincore_config Demo.windows_host Demo.first_run
    = (inl (KeyError "APPDATA"), Demo.first_run)
  ∧ line_entry "rpcport=8332 # mainnet" = None.
Proof.
  assert (Hposix : platform_system Demo.host ≠ "Windows") by discriminate.
  assert (Hp : btc_conf_file Demo.host = inr "/home/u/.bitcoin/bitcoin.conf")
    by (vm_compute; reflexivity).
  destruct (extract_bitcoincore_config_parses Demo.host Demo.later_run)
    as (_ & Hlater & Hskip & _).
  destruct (Hlater _ Hposix Hp) as (Hmissing & _).
  destruct (extract_bitcoincore_config_parses Demo.host Demo.first_run)
    as (_ & Hfirst & _).
  destruct (Hfirst _ Hposix Hp) as (_ & _ & _ & Hfile).
  destruct (extract_bitcoincore_config_parses Demo.host Demo.nbsp_run)
    as (_ & Hnbsp & _).
  destruct (Hnbsp _ Hposix Hp) as (_ & _ & _ & Hblank).
  destruct (extract_bitcoincore_config_parses Demo.host Demo.latin1_run)
    as (_ & Hlatin & _).
  destruct (Hlatin _ Hposix Hp) as (_ & _ & Hbytes & _).
  destruct (extract_bitcoincore_config_parses Demo.windows_host Demo.first_run)
    as (Hwindows & _).
  split; [apply Hmissing; vm_compute; reflexivity|]. split; [|split; [|split; [|split]]].
  - destruct (Hfile (oct 6 0 0) Demo.bitcoin_conf Demo.bitcoin_conf)
      as (r & Hr & Hkeys & _); [vm_compute; reflexivity | vm_compute; reflexivity |].
    exists r. split; [exact Hr|]. apply Hkeys.
    exists "rpcport", "8332". split; [|split; [vm_compute; reflexivity | reflexivity]].
    left.
  - destruct (Hblank (oct 6 0 0) Demo.nbsp_conf Demo.nbsp_conf)
      as (r & Hr & Hkeys & _); [vm_compute; reflexivity | vm_compute; reflexivity |].
    exists r. split; [exact Hr|]. apply Hkeys.
    exists "rpcuser", "alice". split; [|split; [vm_compute; reflexivity | reflexivity]].
    right. left.
  - apply (Hbytes (oct 6 0 0) Demo.latin1_conf); vm_compute; reflexivity.
  - apply Hwindows; reflexivity.
  - apply Hskip. left. vm_compute. reflexivity.
Defined.

(** C6 as stated fails on a line that holds a pair and a remark: it is
    not blank, not a comment line and has an [=], the reading of the
    specification takes the pair, the code drops the line. *)
Lemma extract_bitcoincore_config_counterexample :
  Spec.blank_or_comment "rpcport=8332 # mainnet" = false
  ∧ contains "=" "rpcport=8332 # mainnet" = true
  ∧ is_Some (Spec.probe_foreign_daemon_config Demo.remark_conf !! "backend-port")
  ∧ ∃ r, extract_bitcoincore_config Demo.host Demo.remark_run = (inr r, Demo.remark_run)
         ∧ r !! "backend-port" = None
         ∧ r ≠ Spec.probe_foreign_daemon_config Demo.remark_conf.
Proof.
  split; [vm_compute; reflexivity|]. split; [vm_compute; reflexivity|].
  split; [vm_compute; eauto|].
  eexists. split; [vm_compute; reflexivity|]. split; [vm_compute; reflexivity|].
  intros Heq. apply (f_equal (λ m : gmap string value, m !! "backend-port")) in Heq.
  vm_compute in Heq. discriminate.
Qed.

Lemma config_file_and_directory_modes_witness :
  (∃ c, lookup_path (snd Demo.rendered) "conf/server.conf" = Some (File (oct 6 6 0) c))
  ∧ lookup_path (snd Demo.rendered) "/tmp/x/conf" = Some (Dir (oct 7 5 5)).
Proof.
  assert (Hrun : generate_config_file Demo.host "conf/server.conf" Demo.server_args
                   ∅ false (Demo.asked "n") = (inr tt, snd Demo.rendered))
    by (vm_compute; reflexivity).
  assert (Hnew : lookup_path (Demo.asked "n") "conf/server.conf" = None)
    by (vm_compute; reflexivity).
  destruct (config_file_and_directory_modes Demo.host _ _ _ _ _ _ Hrun (or_intror Hnew))
    as (Hfile & _ & _ & Hdir & _).
  split; [exact Hfile|].
  apply Hdir; vm_compute; reflexivity.
Defined.

(** C7 as stated fails on the directory: under the usual umask the
    directory made for the file can be read and searched by anyone. *)
Lemma config_directory_mode_counterexample :
  lookup_path (Demo.asked "n") "conf" = None
  ∧ fst Demo.rendered = inr tt
  ∧ ∃ mode, lookup_path (snd Demo.rendered) "conf" = Some (Dir mode)
            ∧ ¬ Spec.no_world_access mode.
Proof.
  split; [vm_compute; reflexivity|]. split; [vm_compute; reflexivity|].
  exists (oct 7 5 5). split; [vm_compute; reflexivity|].
  unfold Spec.no_world_access. vm_compute. discriminate.
Qed.

Lemma unresolved_keys_are_commented_out_witness :
  ∃ lines,
    lookup_path (snd Demo.rendered) "conf/server.conf"
    = Some (File (oct 6 6 0) (Text (join newline lines)))
    ∧ lines !! 8%nat = Some "# the backend port to connect to"
    ∧ lines !! 9%nat = Some "# backend-port = ".
Proof.
  assert (Hrun : generate_config_file Demo.host "conf/server.conf" Demo.server_args
                   ∅ false (Demo.asked "n") = (inr tt, snd Demo.rendered))
    by (vm_compute; reflexivity).
  assert (Hnew : lookup_path (Demo.asked "n") "conf/server.conf" = None)
    by (vm_compute; reflexivity).
  assert (Harg : Demo.server_args !! 2%nat
                 = Some (ArgSpec ["--backend-port"]
                           (Some "the backend port to connect to") None))
    by reflexivity.
  destruct (unresolved_keys_are_commented_out Demo.host _ _ _ _ _ _ _ _
              Hrun (or_intror Hnew) Harg)
    as (lines & key & h & Hfile & Hkey & Hhelp & Hline & _ & Hcommented & _).
  vm_compute in Hkey. injection Hkey as <-.
  cbn in Hhelp. injection Hhelp as <-.
  exists lines. split; [exact Hfile|]. split; [exact Hline|].
  apply Hcommented; reflexivity.
Defined.

Lemma client_conf_written_only_with_server_conf_witness :
  generate_config_files Demo.host Demo.later_run = (inr tt, Demo.later_run)
  ∧ lookup_path (snd (generate_config_files Demo.host Demo.later_run))
      "/home/u/.config/metronotes/client.conf" = None.
Proof.
  destruct (client_conf_written_only_with_server_conf Demo.host Demo.later_run
              ltac:(vm_compute; eauto)) as [Hrun Hclient].
  split; [exact Hrun|]. apply Hclient. vm_compute. reflexivity.
Defined.

End Instances.

(** ** The containment test of safe_extract *)

Section Containment.
Import PyStr OS Setup.

Lemma common_prefix_comm a b :
  PosixPath.common_prefix a b = PosixPath.common_prefix b a.
Proof.
  revert b. induction a as [|x a IH]; intros [|y b]; cbn [PosixPath.common_prefix];
    try reflexivity.
  unfold chr_eqb. rewrite (Ascii.eqb_sym y x).
  destruct (Ascii.eqb x y) eqn:Hxy; [|reflexivity].
  apply Ascii.eqb_eq in Hxy as ->. rewrite IH. reflexivity.
Qed.

(** [min] and [max] do not matter for two strings. *)
Lemma commonprefix_common_prefix a b :
  PosixPath.commonprefix a b = PosixPath.common_prefix a b.
Proof.
  unfold PosixPath.commonprefix, min2, max2.
  destruct (String.leb a b); [reflexivity | apply common_prefix_comm].
Qed.

Lemma common_prefix_whole a b :
  String.eqb (PosixPath.common_prefix a b) a = String.prefix a b.
Proof.
  revert b. induction a as [|x a IH]; intros b.
  - destruct b; reflexivity.
  - destruct b as [|y b]; [reflexivity|].
    cbn [PosixPath.common_prefix String.prefix]. unfold chr_eqb.
    destruct (ascii_dec x y) as [->|Hne].
    + rewrite Ascii.eqb_refl. cbn [String.eqb]. rewrite Ascii.eqb_refl. apply IH.
    + apply Ascii.eqb_neq in Hne. rewrite Hne. reflexivity.
Qed.

Lemma prefix_append a b :
  String.prefix a b = true ↔ ∃ rest, b = a ++ rest.
Proof.
  revert b. induction a as [|x a IH]; intros b.
  - split; [intros _; exists b; reflexivity | intros _; destruct b; reflexivity].
  - destruct b as [|y b].
    + split; [discriminate | intros [rest H]; discriminate].
    + cbn [String.prefix]. destruct (ascii_dec x y) as [->|Hne].
      * rewrite IH. split; intros [rest H]; exists rest.
        -- rewrite H. reflexivity.
        -- injection H as ->. reflexivity.
      * split; [discriminate|]. intros [rest H]. injection H as -> _. contradiction.
Qed.

Lemma is_within_directory_prefix directory target w :
  is_within_directory directory target w
  = (inr (String.prefix (PosixPath.abspath (cwd w) directory)
                        (PosixPath.abspath (cwd w) target)), w).
Proof.
  rewrite is_within_directory_eq, commonprefix_common_prefix, common_prefix_whole.
  reflexivity.
Qed.

(** X1. [is_within_directory] never raises and never changes anything, and
    it answers [True] exactly when the absolute target is the absolute
    directory followed by some string: a test on the characters of the two
    paths, not on their components. *)
Theorem is_within_directory_is_leading_string directory target w :
  (∃ answer, is_within_directory directory target w = (inr answer, w))
  ∧ (is_within_directory directory target w = (inr true, w)
     ↔ ∃ rest, PosixPath.abspath (cwd w) target
               = PosixPath.abspath (cwd w) directory ++ rest).
Proof.
  rewrite is_within_directory_prefix. split; [eauto|].
  rewrite <- prefix_append. split.
  - intros H. injection H as ->. reflexivity.
  - intros ->. reflexivity.
Qed.

Lemma check_members_result path members w :
  check_members path members w
  = if forallb (λ m, String.prefix (PosixPath.abspath (cwd w) path)
                       (PosixPath.abspath (cwd w) (PosixPath.join path (name m))))
         members
    then (inr tt, w)
    else (inl (Exception "Attempted Path Traversal in Tar File"), w).
Proof.
  induction members as [|m rest IH]; [reflexivity|].
  cbn [check_members forallb].
  rewrite (bind_eq _ _ _ _ _ (is_within_directory_prefix _ _ w)).
  destruct (String.prefix _ _); [exact IH | reflexivity].
Qed.

(** X2. [safe_extract] is all or nothing.  When the target of every member
    has the absolute destination as a leading string, it does exactly what
    [extractall] does; otherwise, wherever the offending member stands in
    the archive, it raises and the world is the one before the call. *)
Theorem safe_extract_all_or_nothing tar path w :
  safe_extract tar path w
  = if forallb (λ m, String.prefix (PosixPath.abspath (cwd w) path)
                       (PosixPath.abspath (cwd w) (PosixPath.join path (name m))))
         tar
    then extractall path tar w
    else (inl (Exception "Attempted Path Traversal in Tar File"), w).
Proof.
  unfold safe_extract, bind. rewrite check_members_result.
  destruct (forallb _ tar); reflexivity.
Qed.

End Containment.

(** ** What generate_config_file leaves alone *)

Section Frames.
Import PyStr OS Setup.
Variable host : Host.

Lemma grows_by_dirs_refl w : grows_by_dirs w w.
Proof. intros q. left. reflexivity. Qed.

Lemma grows_by_dirs_trans w1 w2 w3 :
  grows_by_dirs w1 w2 → grows_by_dirs w2 w3 → grows_by_dirs w1 w3.
Proof.
  intros H12 H23 q. destruct (H12 q) as [E12 | [N1 [m2 D2]]], (H23 q) as [E23 | [N2 [m3 D3]]].
  - left. congruence.
  - right. split; [congruence | eauto].
  - right. split; [exact N1|]. exists m2. congruence.
  - congruence.
Qed.

(** A computation that keeps a preorder on worlds at each of its two steps
    keeps it as a whole, whether it returns or raises. *)
Lemma bind_keeps (R : World → World → Prop) {A B} (m : M A) (k : A → M B) w :
  (∀ w1 w2 w3, R w1 w2 → R w2 w3 → R w1 w3) →
  R w (snd (m w)) → (∀ a w', R w' (snd (k a w'))) → R w (snd (bind m k w)).
Proof.
  intros Htrans Hm Hk. unfold bind. specialize (Hk).
  destruct (m w) as [[e|a] w']; cbn [snd] in *; [exact Hm|].
  exact (Htrans _ _ _ Hm (Hk a w')).
Qed.

Lemma mkdir_grows p mode w : grows_by_dirs w (snd (mkdir p mode w)).
Proof.
  unfold mkdir. destruct (resolve w p) as [q|]; [|apply grows_by_dirs_refl].
  unfold node_at. destruct (is_root q); [apply grows_by_dirs_refl|].
  destruct (fs w !! q) eqn:Hq; [apply grows_by_dirs_refl|].
  destruct (parent_ready w q); [apply grows_by_dirs_refl|].
  intros q'. cbn [snd set_fs fs]. destruct (decide (q = q')) as [<-|Hne].
  - right. split; [exact Hq|]. rewrite lookup_insert_eq. eauto.
  - left. apply lookup_insert_ne. exact Hne.
Qed.

Lemma makedirs_fuel_grows fuel name mode w :
  grows_by_dirs w (snd (makedirs_fuel fuel name mode w)).
Proof.
  revert name mode w. induction fuel as [|fuel IH]; intros name mode w.
  - apply grows_by_dirs_refl.
  - cbn [makedirs_fuel]. destruct (PosixPath.split name) as [head tail].
    destruct (if String.eqb tail "" then PosixPath.split head else (head, tail))
      as [head' tail'].
    apply (bind_keeps grows_by_dirs); [apply grows_by_dirs_trans | |].
    + destruct (negb (String.eqb head' "") && negb (String.eqb tail' ""));
        [|apply grows_by_dirs_refl].
      apply (bind_keeps grows_by_dirs); [apply grows_by_dirs_trans | |].
      * apply grows_by_dirs_refl.
      * intros e w'. destruct e; [apply grows_by_dirs_refl|].
        apply (bind_keeps grows_by_dirs); [apply grows_by_dirs_trans | |].
        -- specialize (IH head' (oct 7 7 7) w').
           destruct (makedirs_fuel fuel head' (oct 7 7 7) w') as [[e|[]] w1];
             [destruct e|]; exact IH.
        -- intros _ w1. apply grows_by_dirs_refl.
    + intros stop w'. destruct stop; [apply grows_by_dirs_refl | apply mkdir_grows].
Qed.

Lemma ensure_dir_effect dir mode w :
  let w' := snd (when (negb (bool_decide (is_Some (lookup_path w dir))))
                      (makedirs dir mode) w) in
  grows_by_dirs w w' ∧ same_process w w'
  ∧ (is_Some (lookup_path w dir) → w' = w).
Proof.
  destruct (bool_decide (is_Some (lookup_path w dir))) eqn:Hd; cbn [negb when].
  - split; [apply grows_by_dirs_refl|]. split; [apply same_process_refl | reflexivity].
  - split; [apply makedirs_fuel_grows|]. split; [apply makedirs_frame|].
    intros Hex. apply bool_decide_eq_false in Hd. contradiction.
Qed.

(** X3. A call of [generate_config_file] that writes changes one entry of
    the file system, the file itself, which ends up holding the rendered
    lines under mode [0o660]; every other path is as before, or is a
    directory that was missing and has been made; when the directory of the
    file was there, nothing else changes at all.  The call prints nothing,
    reads no input and draws no random bytes. *)
Theorem generate_config_file_touches_only_the_file
    filename config_args known_config overwrite w w1 :
  generate_config_file host filename config_args known_config overwrite w = (inr tt, w1) →
  overwrite = true ∨ lookup_path w filename = None →
  ∃ q lines,
    resolve w filename = Some q
    ∧ config_lines host config_args known_config = inr lines
    ∧ fs w1 !! q = Some (File (oct 6 6 0) (Text (join newline lines)))
    ∧ (∀ q', q' ≠ q →
         fs w1 !! q' = fs w !! q'
         ∨ (fs w !! q' = None ∧ ∃ mode, fs w1 !! q' = Some (Dir mode)))
    ∧ (is_Some (lookup_path w (config_dir_of w filename)) →
       fs w1 = <[q := File (oct 6 6 0) (Text (join newline lines))]> (fs w))
    ∧ same_process w w1.
Proof.
  intros Hrun Hwrite.
  destruct (generate_config_file_steps _ _ _ _ _ _ _ Hrun Hwrite)
    as (lines & wd & ww & Hlines & Hmk & Hwr & Hch).
  destruct (ensure_dir_effect (config_dir_of w filename) (oct 7 5 5) w)
    as (Hgrow & Hsame & Hthere).
  rewrite Hmk in Hgrow, Hsame, Hthere. cbn [snd] in Hgrow, Hsame, Hthere.
  destruct (write_then_chmod _ _ _ _ _ _ Hwr Hch) as (q & Hq & _ & Hfs & Hsame').
  exists q, lines.
  split; [rewrite <- (same_process_resolve w wd) by exact Hsame; exact Hq|].
  split; [exact Hlines|].
  split; [rewrite Hfs; apply lookup_insert_eq|].
  split; [|split].
  - intros q' Hne. rewrite Hfs, lookup_insert_ne by (intros ->; contradiction).
    apply Hgrow.
  - intros Hex. rewrite Hfs, (Hthere Hex). reflexivity.
  - eapply same_process_trans; eassumption.
Qed.

(** X4. When the schema cannot be rendered, a call of
    [generate_config_file] that would write raises instead, and it does so
    before the file is opened: no file has been created, changed or removed;
    at most the missing directories have been made.  When the directory was
    there, the exception is the one of the schema and the world is the one
    before the call. *)
Theorem generate_config_file_bad_schema_writes_no_file
    filename config_args known_config overwrite w e :
  config_lines host config_args known_config = inl e →
  overwrite = true ∨ lookup_path w filename = None →
  ∃ e' w',
    generate_config_file host filename config_args known_config overwrite w
    = (inl e', w')
    ∧ grows_by_dirs w w' ∧ same_process w w'
    ∧ (is_Some (lookup_path w (config_dir_of w filename)) → e' = e ∧ w' = w).
Proof.
  intros Hbad Hwrite. unfold generate_config_file.
  assert (Hskip : (if negb overwrite then path_exists filename else ret false) w
                  = (inr false, w)).
  { destruct Hwrite as [-> | Hnone]; [reflexivity|].
    destruct overwrite; [reflexivity|]. cbn [negb]. rewrite path_exists_eq.
    rewrite bool_decide_false; [reflexivity|].
    rewrite Hnone. intros [? ?]. discriminate. }
  rewrite (bind_eq _ _ _ _ _ Hskip).
  unfold abspath_m. unfold bind at 1.
  rewrite (bind_eq _ _ _ _ _ (path_exists_eq _ w)).
  fold (config_dir_of w filename).
  destruct (ensure_dir_effect (config_dir_of w filename) (oct 7 5 5) w)
    as (Hgrow & Hsame & Hthere).
  unfold bind at 1.
  destruct (when _ _ w) as [[e0|[]] wd] eqn:Hwhen; cbn [snd] in Hgrow, Hsame, Hthere.
  - exists e0, wd. split; [reflexivity|]. split; [exact Hgrow|]. split; [exact Hsame|].
    intros Hex. exfalso.
    rewrite bool_decide_true in Hwhen by exact Hex. discriminate.
  - rewrite Hbad. cbn [lift]. unfold bind, raise.
    exists e, wd. split; [reflexivity|]. split; [exact Hgrow|]. split; [exact Hsame|].
    intros Hex. split; [reflexivity | exact (Hthere Hex)].
Qed.

End Frames.

(** ** The schema and the rendered lines *)

Section Schema.
Import PyStr OS Setup.
Variable host : Host.

Lemma render_arg_cases known_config arg :
  match render_arg host known_config arg with
  | inr ls => flags arg ≠ [] ∧ is_Some (help arg) ∧ length ls = 3%nat
  | inl e => (flags arg = [] ∧ e = IndexError)
             ∨ (flags arg ≠ [] ∧ help arg = None ∧ e = KeyError "help")
  end.
Proof.
  unfold render_arg, arg_key. destruct (last (flags arg)) as [flag|] eqn:Hlast.
  - assert (Hne : flags arg ≠ []) by (intros H; rewrite H in Hlast; discriminate).
    destruct (render_pair _ _ _) as [k v]. destruct (help arg) as [h|].
    + split; [exact Hne|]. split; [eauto | reflexivity].
    + right. auto.
  - left. split; [apply last_None; exact Hlast | reflexivity].
Qed.

Lemma render_args_shape known_config config_args acc :
  match render_args host known_config config_args acc with
  | inr lines =>
      Forall (λ arg, flags arg ≠ [] ∧ is_Some (help arg)) config_args
      ∧ length lines = (length acc + 3 * length config_args)%nat
      ∧ ∃ more, lines = (acc ++ more)%list
  | inl e =>
      ∃ before arg after,
        config_args = (before ++ arg :: after)%list
        ∧ Forall (λ arg, flags arg ≠ [] ∧ is_Some (help arg)) before
        ∧ ((flags arg = [] ∧ e = IndexError)
           ∨ (flags arg ≠ [] ∧ help arg = None ∧ e = KeyError "help"))
  end.
Proof.
  revert acc. induction config_args as [|arg rest IH]; intros acc; cbn [render_args].
  - split; [constructor|]. split; [cbn; lia|]. exists []. symmetry. apply app_nil_r.
  - pose proof (render_arg_cases known_config arg) as Harg.
    destruct (render_arg host known_config arg) as [e|ls].
    + exists [], arg, rest. split; [reflexivity|]. split; [constructor | exact Harg].
    + destruct Harg as (Hf & Hh & Hlen). specialize (IH (acc ++ ls)%list).
      destruct (render_args host known_config rest (acc ++ ls)) as [e|lines].
      * destruct IH as (before & a & after & -> & Hwf & He).
        exists (arg :: before), a, after. split; [reflexivity|].
        split; [constructor; auto | exact He].
      * destruct IH as (Hwf & Hl & more & ->). split; [constructor; auto|]. split.
        -- rewrite Hl, length_app, Hlen. cbn [length]. lia.
        -- exists (ls ++ more)%list. symmetry. apply app_assoc.
Qed.

(** X5. The lines of a file are rendered exactly when every entry of the
    schema has at least one flag and a help text.  Then there are two
    header lines, [[Default]] and an empty one, and three lines for each
    entry.  Otherwise the first entry that lacks one of the two decides the
    exception: [IndexError] when it has no flag, [KeyError('help')] when it
    has a flag and no help text. *)
Theorem config_lines_shape config_args known_config :
  (∀ lines, config_lines host config_args known_config = inr lines →
     Forall (λ arg, flags arg ≠ [] ∧ is_Some (help arg)) config_args
     ∧ length lines = (2 + 3 * length config_args)%nat
     ∧ lines !! 0%nat = Some "[Default]" ∧ lines !! 1%nat = Some "")
  ∧ (∀ e, config_lines host config_args known_config = inl e →
       ∃ before arg after,
         config_args = (before ++ arg :: after)%list
         ∧ Forall (λ arg, flags arg ≠ [] ∧ is_Some (help arg)) before
         ∧ ((flags arg = [] ∧ e = IndexError)
            ∨ (flags arg ≠ [] ∧ help arg = None ∧ e = KeyError "help")))
  ∧ (Forall (λ arg, flags arg ≠ [] ∧ is_Some (help arg)) config_args →
     ∃ lines, config_lines host config_args known_config = inr lines).
Proof.
  unfold config_lines.
  pose proof (render_args_shape known_config config_args ["[Default]"; ""]) as H.
  destruct (render_args host known_config config_args ["[Default]"; ""]) as [e|lines].
  - split; [intros ? ?; discriminate|]. split.
    + intros e' He. injection He as <-. exact H.
    + intros Hwf. exfalso. destruct H as (before & arg & after & -> & _ & Hbad).
      apply Forall_app in Hwf as [_ Hwf]. apply Forall_cons in Hwf as [[Hf [h Hh]] _].
      destruct Hbad as [[Hnil _] | (_ & Hnone & _)]; [contradiction | congruence].
  - split; [|split; [intros ? ?; discriminate | eauto]].
    intros lines' Hl. injection Hl as <-. destruct H as (Hwf & Hlen & more & ->).
    split; [exact Hwf|]. split; [exact Hlen|]. split; reflexivity.
Qed.

(** X6. The rendered lines depend on the known config only through the
    keys of the schema: two known configs that agree on those keys give the
    same lines, or the same exception; what else a known config holds never
    reaches the file. *)
Theorem config_lines_ignores_unknown_keys config_args known1 known2 :
  (∀ arg key, arg ∈ config_args → arg_key arg = inr key →
              known1 !! key = known2 !! key) →
  config_lines host config_args known1 = config_lines host config_args known2.
Proof.
  unfold config_lines. generalize ["[Default]"; ""].
  induction config_args as [|arg rest IH]; intros acc Hagree; [reflexivity|].
  cbn [render_args].
  assert (Harg : render_arg host known1 arg = render_arg host known2 arg).
  { unfold render_arg. destruct (arg_key arg) as [e|key] eqn:Hkey; [reflexivity|].
    unfold arg_value. rewrite (Hagree arg key) by (left || exact Hkey). reflexivity. }
  rewrite Harg. destruct (render_arg host known2 arg) as [e|ls]; [reflexivity|].
  apply IH. intros a k Ha Hk. apply (Hagree a k); [right; exact Ha | exact Hk].
Qed.

End Schema.

(** ** The two probes and their merge *)

Section Probes.
Import PyStr OS Setup.
Variable host : Host.

(** The loop over the options of the legacy section, from any [old_config]:
    a key holds the renamed value of the last option renamed to it. *)
Lemma fold_old_items_lookup items (acc : gmap string value) k' v' :
  fold_left (λ old_config '(key, v),
             <[rename_old_key key := VStr (rename_old_value v)]> old_config)
            items acc !! k' = Some v'
  ↔ (∃ before key v after,
       items = (before ++ (key, v) :: after)%list
       ∧ rename_old_key key = k' ∧ v' = VStr (rename_old_value v)
       ∧ ∀ key2 v2, (key2, v2) ∈ after → rename_old_key key2 ≠ k')
    ∨ ((∀ key2 v2, (key2, v2) ∈ items → rename_old_key key2 ≠ k')
       ∧ acc !! k' = Some v').
Proof.
  revert acc. induction items as [|[key0 v0] t IH]; intros acc; cbn [fold_left].
  - split.
    + intros H. right. split; [intros ? ? Hin; inversion Hin | exact H].
    + intros [(before & key & v & after & Heq & _) | [_ H]]; [|exact H].
      destruct before; discriminate.
  - rewrite IH. split.
    + intros [(before & key & v & after & -> & Hk & Hv & Hlast) | [Hnone Hacc]].
      * left. exists ((key0, v0) :: before), key, v, after. auto.
      * destruct (decide (rename_old_key key0 = k')) as [Heq|Hne].
        -- rewrite Heq, lookup_insert_eq in Hacc. injection Hacc as <-.
           left. exists [], key0, v0, t. auto.
        -- rewrite lookup_insert_ne in Hacc by exact Hne.
           right. split; [|exact Hacc].
           intros key2 v2 Hin. apply elem_of_cons in Hin as [Heq | Hin].
           ++ injection Heq as -> ->. exact Hne.
           ++ exact (Hnone _ _ Hin).
    + intros [(before & key & v & after & Heq & Hk & Hv & Hlast) | [Hnone Hacc]].
      * destruct before as [|b before]; cbn in Heq; injection Heq as ? ?; subst.
        -- right. split; [exact Hlast | apply lookup_insert_eq].
        -- left. exists before, key, v, after. auto.
      * right. split.
        -- intros key2 v2 Hin. apply (Hnone key2 v2). right. exact Hin.
        -- rewrite lookup_insert_ne; [exact Hacc|]. apply (Hnone key0 v0). left.
Qed.

(** X7. The legacy probe.  Where there is no [metronotesd.conf], or a
    directory in its place, or a file without a [Default] section, the
    result is the empty mapping.  Where the section is there, every option
    appears under its renamed key with its renamed value, as a string, the
    last option winning when two are renamed to the same key, and nothing
    else appears.  A file that [configparser] rejects makes the probe raise
    what the parser raised.  The world is never changed. *)
Theorem extract_old_config_renames w :
  let old_configfile := PosixPath.join (old_appdir host) "metronotesd.conf" in
  (lookup_path w old_configfile = None → extract_old_config host w = (inr ∅, w))
  ∧ (∀ mode, lookup_path w old_configfile = Some (Dir mode) →
             extract_old_config host w = (inr ∅, w))
  ∧ (∀ mode text e,
       lookup_path w old_configfile = Some (File mode (Text text)) →
       configparser_read host text = inl e →
       extract_old_config host w = (inl e, w))
  ∧ (∀ mode text sections,
       lookup_path w old_configfile = Some (File mode (Text text)) →
       configparser_read host text = inr sections →
       ∃ old_config,
         extract_old_config host w = (inr old_config, w)
         ∧ (section_of sections "Default" = None → old_config = ∅)
         ∧ (∀ items, section_of sections "Default" = Some items →
              ∀ k' v',
                old_config !! k' = Some v'
                ↔ ∃ before key v after,
                    items = (before ++ (key, v) :: after)%list
                    ∧ rename_old_key key = k'
                    ∧ v' = VStr (rename_old_value v)
                    ∧ ∀ key2 v2, (key2, v2) ∈ after → rename_old_key key2 ≠ k')).
Proof.
  intros old_configfile. unfold extract_old_config. fold old_configfile.
  rewrite (bind_eq _ _ _ _ _ (path_exists_eq old_configfile w)).
  split; [|split; [|split]].
  - intros Hnone. rewrite bool_decide_false; [reflexivity|].
    rewrite Hnone. intros [? ?]. discriminate.
  - intros mode Hdir. rewrite bool_decide_true by (rewrite Hdir; eauto).
    unfold bind, configparser_read_file. rewrite Hdir. reflexivity.
  - intros mode text e Hfile Hparse. rewrite bool_decide_true by (rewrite Hfile; eauto).
    unfold bind, configparser_read_file. rewrite Hfile, Hparse. reflexivity.
  - intros mode text sections Hfile Hparse.
    rewrite bool_decide_true by (rewrite Hfile; eauto).
    unfold bind, configparser_read_file. rewrite Hfile, Hparse.
    destruct (section_of sections "Default") as [items|].
    + eexists. split; [reflexivity|]. split; [discriminate|].
      intros items' Hi k' v'. injection Hi as <-.
      rewrite fold_old_items_lookup, lookup_empty. split.
      * intros [H | [_ H]]; [exact H | discriminate].
      * intros H. left. exact H.
    + exists ∅. split; [reflexivity|]. split; [reflexivity | discriminate].
Qed.

Lemma extract_old_config_pure w : snd (extract_old_config host w) = w.
Proof.
  unfold extract_old_config.
  rewrite (bind_eq _ _ _ _ _ (path_exists_eq _ w)).
  destruct (bool_decide _); [|reflexivity].
  unfold bind, configparser_read_file.
  destruct (lookup_path w _) as [[m [text|ms]|m]|]; try reflexivity.
  destruct (configparser_read host text) as [e|sections]; [reflexivity|].
  destruct (section_of sections "Default"); reflexivity.
Qed.

Lemma extract_bitcoincore_config_pure w :
  snd (extract_bitcoincore_config host w) = w.
Proof.
  unfold extract_bitcoincore_config. destruct (btc_conf_file host) as [e|p];
    [reflexivity|]. cbn [lift]. unfold bind at 1. cbn [ret].
  rewrite (bind_eq _ _ _ _ _ (path_exists_eq p w)).
  destruct (bool_decide _); [|reflexivity].
  unfold bind, read_text, read_file, bind.
  destruct (lookup_path w p) as [[m [text|ms]|m]|]; try reflexivity.
  destruct (decode host text); reflexivity.
Qed.

Lemma get_server_known_config_pure w :
  snd (get_server_known_config host w) = w.
Proof.
  unfold get_server_known_config, bind.
  pose proof (extract_bitcoincore_config_pure w) as Hb.
  destruct (extract_bitcoincore_config host w) as [[e|b] w1]; cbn [snd] in Hb; subst w1;
    [reflexivity|].
  pose proof (extract_old_config_pure w) as Ho.
  destruct (extract_old_config host w) as [[e|o] w2]; cbn [snd] in Ho; subst w2;
    reflexivity.
Qed.

Lemma translate_from_strings table (conf : gmap string string)
    (acc : gmap string value) :
  (∀ k v, acc !! k = Some v → ∃ s, v = VStr s) →
  ∀ k v,
    fold_left (λ dst '(k, k'), match (VStr <$> conf) !! k with
                               | Some v => <[k' := v]> dst
                               | None => dst
                               end) table acc !! k = Some v →
    ∃ s, v = VStr s.
Proof.
  revert acc. induction table as [|[a a'] t IH]; intros acc Hacc; cbn [fold_left].
  - exact Hacc.
  - apply IH. intros k0 v0. rewrite lookup_fmap.
    destruct (conf !! a) as [s|]; cbn; [|apply Hacc].
    destruct (decide (a' = k0)) as [->|Hne].
    + rewrite lookup_insert_eq. intros H. injection H as <-. eauto.
    + rewrite lookup_insert_ne by exact Hne. apply Hacc.
Qed.

Lemma translate_keys_strings table (conf : gmap string string) k v :
  translate_keys table (VStr <$> conf) !! k = Some v → ∃ s, v = VStr s.
Proof.
  apply translate_from_strings. intros k0 v0. rewrite lookup_empty. discriminate.
Qed.

(** X8. Resolving the server config only reads: whatever the files hold,
    and whether it returns or raises, the world after
    [get_server_known_config] is the world before.  And every value it
    returns is a string: the probes never produce a boolean, a number or
    [None]. *)
Theorem get_server_known_config_reads_only w :
  snd (get_server_known_config host w) = w
  ∧ ∀ resolved k v,
      fst (get_server_known_config host w) = inr resolved →
      resolved !! k = Some v → ∃ s, v = VStr s.
Proof.
  split; [apply get_server_known_config_pure|].
  intros resolved k v. unfold get_server_known_config, bind.
  destruct (extract_bitcoincore_config host w) as [[e|b] w1] eqn:Hb; [discriminate|].
  destruct (extract_old_config host w1) as [[e|o] w2] eqn:Ho; [discriminate|].
  cbn [fst ret]. intros H. injection H as <-.
  rewrite !dict_update_lookup, lookup_empty.
  assert (Hbs : ∀ v, b !! k = Some v → ∃ s, v = VStr s).
  { intros v0. revert Hb. unfold extract_bitcoincore_config.
    destruct (btc_conf_file host) as [e|p]; [discriminate|]. cbn [lift].
    unfold bind at 1. cbn [ret]. rewrite (bind_eq _ _ _ _ _ (path_exists_eq p w)).
    destruct (bool_decide _).
    - unfold bind, read_text, read_file, bind.
      destruct (lookup_path w p) as [[m [text|ms]|m]|]; try discriminate.
      destruct (decode host text); [|discriminate].
      cbn [ret]. intros H. injection H as <- _. apply translate_keys_strings.
    - intros H. injection H as <- _. rewrite lookup_empty. discriminate. }
  assert (Hos : ∀ v, o !! k = Some v → ∃ s, v = VStr s).
  { intros v0. revert Ho. unfold extract_old_config.
    rewrite (bind_eq _ _ _ _ _ (path_exists_eq _ w1)).
    destruct (bool_decide _).
    - unfold bind, configparser_read_file.
      destruct (lookup_path w1 _) as [[m [text|ms]|m]|]; try discriminate.
      + destruct (configparser_read host text) as [e|sections]; [discriminate|].
        destruct (section_of sections "Default") as [items|].
        * intros H. injection H as <- _. rewrite fold_old_items_lookup, lookup_empty.
          intros [(_ & _ & v1 & _ & _ & _ & -> & _) | [_ H]]; [eauto | discriminate].
        * intros H. injection H as <- _. rewrite lookup_empty. discriminate.
      + cbn [section_of]. intros H. injection H as <- _. rewrite lookup_empty. discriminate.
      + cbn [section_of]. intros H. injection H as <- _. rewrite lookup_empty. discriminate.
    - intros H. injection H as <- _. rewrite lookup_empty. discriminate. }
  destruct (o !! k) as [vo|]; [exact (Hos v)|].
  destruct (b !! k) as [vb|]; [exact (Hbs v) | discriminate].
Qed.

(** X9. The resolved server config has the keys of the two sources and no
    other: a key is missing from it exactly when both sources lack it, and
    whatever the legacy config holds for a key is the resolved value,
    whether the foreign config has the key or not. *)
Theorem resolved_config_keys w w1 w2 bitcoincore_config old_config :
  extract_bitcoincore_config host w = (inr bitcoincore_config, w1) →
  extract_old_config host w1 = (inr old_config, w2) →
  ∃ resolved,
    get_server_known_config host w = (inr resolved, w2)
    ∧ (∀ k, resolved !! k = None
            ↔ bitcoincore_config !! k = None ∧ old_config !! k = None)
    ∧ (∀ k v, old_config !! k = Some v → resolved !! k = Some v).
Proof.
  intros Hb Ho. unfold get_server_known_config.
  rewrite (bind_eq _ _ _ _ _ Hb), (bind_eq _ _ _ _ _ Ho).
  eexists. split; [reflexivity|]. split.
  - intros k. rewrite !dict_update_lookup, lookup_empty.
    destruct (old_config !! k), (bitcoincore_config !! k); split;
      try discriminate; try (intros [? ?]; discriminate); auto.
  - intros k v Hk. rewrite dict_update_lookup, Hk. reflexivity.
Qed.

(** X10. A source that cannot be read is fatal on a first run: when
    resolving the server config raises and there is no [server.conf],
    [generate_config_files] raises the same exception and the world is the
    one before the call; nothing is drawn and nothing is written. *)
Theorem generate_config_files_probe_error w e :
  lookup_path w (PosixPath.join (configdir host) "server.conf") = None →
  fst (get_server_known_config host w) = inl e →
  generate_config_files host w = (inl e, w).
Proof.
  intros Hnone Herr. unfold generate_config_files.
  rewrite (bind_eq _ _ _ _ _ (path_exists_eq _ w)).
  rewrite bool_decide_false by (rewrite Hnone; intros [? ?]; discriminate).
  pose proof (get_server_known_config_pure w) as Hpure.
  destruct (get_server_known_config host w) as [r w1] eqn:Hget.
  cbn [fst snd] in *. subst r w1. apply bind_raise. exact Hget.
Qed.

End Probes.

(** ** generate_config_files as a whole *)

Section Installation.
Import PyStr OS Setup.
Variable host : Host.

Lemma keeps_nodes_refl w : keeps_nodes w w.
Proof. split; [apply same_process_refl | auto]. Qed.

Lemma keeps_nodes_trans w1 w2 w3 :
  keeps_nodes w1 w2 → keeps_nodes w2 w3 → keeps_nodes w1 w3.
Proof.
  intros [S12 K12] [S23 K23]. split; [eapply same_process_trans; eassumption | auto].
Qed.

Lemma keeps_nodes_insert q n w : keeps_nodes w (set_fs <[q := n]> w).
Proof.
  split; [apply same_process_set_fs|]. intros q' Hq'. cbn [set_fs fs].
  destruct (decide (q = q')) as [->|Hne].
  - rewrite lookup_insert_eq. eauto.
  - rewrite lookup_insert_ne by exact Hne. exact Hq'.
Qed.

Lemma keeps_nodes_grows w w' :
  same_process w w' → grows_by_dirs w w' → keeps_nodes w w'.
Proof.
  intros Hs Hg. split; [exact Hs|]. intros q Hq.
  destruct (Hg q) as [-> | [Hnone _]]; [exact Hq|].
  rewrite Hnone in Hq. destruct Hq. discriminate.
Qed.

Lemma write_file_keeps p c w : keeps_nodes w (snd (write_file p c w)).
Proof.
  unfold write_file. destruct (resolve w p) as [q|]; [|apply keeps_nodes_refl].
  destruct (node_at w q) as [[m b|m]|]; cbn [snd];
    [apply keeps_nodes_insert | apply keeps_nodes_refl |].
  destruct (parent_ready w q); [apply keeps_nodes_refl | apply keeps_nodes_insert].
Qed.

Lemma chmod_keeps p mode w : keeps_nodes w (snd (chmod p mode w)).
Proof.
  unfold chmod. destruct (resolve w p) as [q|]; [|apply keeps_nodes_refl].
  destruct (fs w !! q) as [[m b|m]|]; cbn [snd];
    [apply keeps_nodes_insert | apply keeps_nodes_insert |].
  destruct (is_root q); apply keeps_nodes_refl.
Qed.

Lemma keeps_nodes_lookup_path w w' p :
  keeps_nodes w w' → is_Some (lookup_path w p) → is_Some (lookup_path w' p).
Proof.
  intros [Hs Hk]. unfold lookup_path. rewrite (same_process_resolve w w') by exact Hs.
  destruct (resolve w p) as [q|]; cbn; [|auto]. unfold node_at.
  destruct (is_root q); [auto | apply Hk].
Qed.

(** Whether it returns or raises, [generate_config_file] removes nothing
    and touches nothing but the file system. *)
Lemma generate_config_file_keeps filename config_args known_config overwrite w :
  keeps_nodes w
    (snd (generate_config_file host filename config_args known_config overwrite w)).
Proof.
  unfold generate_config_file.
  apply (bind_keeps keeps_nodes); [apply keeps_nodes_trans | |].
  { destruct overwrite; apply keeps_nodes_refl. }
  intros skip w0. destruct skip; [apply keeps_nodes_refl|].
  apply (bind_keeps keeps_nodes); [apply keeps_nodes_trans | apply keeps_nodes_refl |].
  intros abs_filename w1.
  apply (bind_keeps keeps_nodes); [apply keeps_nodes_trans | apply keeps_nodes_refl |].
  intros have_dir w2.
  apply (bind_keeps keeps_nodes); [apply keeps_nodes_trans | |].
  { destruct have_dir; cbn [negb when]; [apply keeps_nodes_refl|].
    apply keeps_nodes_grows; [apply makedirs_frame | apply makedirs_fuel_grows]. }
  intros _ w3.
  apply (bind_keeps keeps_nodes); [apply keeps_nodes_trans | |].
  { destruct (config_lines host config_args known_config); apply keeps_nodes_refl. }
  intros lines w4.
  apply (bind_keeps keeps_nodes); [apply keeps_nodes_trans | apply write_file_keeps |].
  intros _ w5. apply chmod_keeps.
Qed.

Lemma write_config_files_keeps server_configfile known w :
  keeps_nodes w (snd (write_config_files host server_configfile known w)).
Proof.
  unfold write_config_files.
  apply (bind_keeps keeps_nodes);
    [apply keeps_nodes_trans | apply generate_config_file_keeps |].
  intros _ w1.
  apply (bind_keeps keeps_nodes); [apply keeps_nodes_trans | apply keeps_nodes_refl |].
  intros have_client w2. destruct have_client; [apply keeps_nodes_refl|].
  apply generate_config_file_keeps.
Qed.

(** X11. A successful run of [generate_config_files] settles the
    installation: [server.conf] is there afterwards, [client.conf] too when
    [server.conf] was missing before, and running it again returns at once
    and changes nothing, so no second password is ever made. *)
Theorem generate_config_files_settles w w1 :
  generate_config_files host w = (inr tt, w1) →
  generate_config_files host w1 = (inr tt, w1)
  ∧ is_Some (lookup_path w1 (PosixPath.join (configdir host) "server.conf"))
  ∧ (lookup_path w (PosixPath.join (configdir host) "server.conf") = None →
     is_Some (lookup_path w1 (PosixPath.join (configdir host) "client.conf"))).
Proof.
  intros Hrun.
  assert (Hboth :
    is_Some (lookup_path w1 (PosixPath.join (configdir host) "server.conf"))
    ∧ (lookup_path w (PosixPath.join (configdir host) "server.conf") = None →
       is_Some (lookup_path w1 (PosixPath.join (configdir host) "client.conf")))).
  { revert Hrun. unfold generate_config_files.
    rewrite (bind_eq _ _ _ _ _ (path_exists_eq _ w)).
    destruct (bool_decide _) eqn:Hs.
    - intros H. injection H as <-. apply bool_decide_eq_true in Hs.
      split; [exact Hs|]. intros Hnone. rewrite Hnone in Hs. destruct Hs. discriminate.
    - intros Hrun.
      apply bind_ok in Hrun as (k0 & wa & _ & Hrun).
      apply bind_ok in Hrun as (k1 & wb & _ & Hrun).
      unfold write_config_files in Hrun.
      apply bind_ok in Hrun as ([] & w2 & Hserver & Hrun).
      pose proof (generate_config_file_exists _ _ _ _ _ _ _ Hserver) as Hex.
      rewrite (bind_eq _ _ _ _ _ (path_exists_eq _ w2)) in Hrun.
      destruct (bool_decide (is_Some (lookup_path w2
                  (PosixPath.join (configdir host) "client.conf")))) eqn:Hc.
      + injection Hrun as <-. apply bool_decide_eq_true in Hc. auto.
      + split.
        * pose proof (generate_config_file_keeps
                        (PosixPath.join (configdir host) "client.conf")
                        (CLIENT_CONFIG_ARGS host) (server_to_client_config k1)
                        false w2) as Hk.
          rewrite Hrun in Hk. exact (keeps_nodes_lookup_path _ _ _ Hk Hex).
        * intros _. exact (generate_config_file_exists _ _ _ _ _ _ _ Hrun). }
  split; [|exact Hboth].
  unfold generate_config_files.
  rewrite (bind_eq _ _ _ _ _ (path_exists_eq _ w1)).
  rewrite bool_decide_true by apply Hboth. reflexivity.
Qed.

(** The world from which the two files are written: the one before the
    call, or that one after one draw from [os.urandom]. *)
Lemma generate_config_files_effect w :
  ∃ wb, (wb = w
         ∨ wb = MkWorld (cwd w) (umask w) (fs w) (stdin w) (stdout w)
                        (S (urandom_calls w)))
        ∧ keeps_nodes wb (snd (generate_config_files host w)).
Proof.
  unfold generate_config_files.
  rewrite (bind_eq _ _ _ _ _ (path_exists_eq _ w)).
  destruct (bool_decide _).
  { exists w. split; [left; reflexivity | apply keeps_nodes_refl]. }
  unfold bind at 1. pose proof (get_server_known_config_pure host w) as Hpure.
  destruct (get_server_known_config host w) as [[e|k0] wa]; cbn [snd] in Hpure; subst wa.
  { exists w. split; [left; reflexivity | apply keeps_nodes_refl]. }
  unfold bind at 1. unfold ensure_rpc_password.
  destruct (k0 !! "rpc-password").
  - cbn [ret]. exists w. split; [left; reflexivity | apply write_config_files_keeps].
  - unfold bind at 1. rewrite os_urandom_eq. cbn [ret].
    eexists. split; [right; reflexivity | apply write_config_files_keeps].
Qed.

(** X12. Whether it returns or raises, [generate_config_files] prints
    nothing, reads no input, stays in its directory and under its umask,
    removes no node of the file system, and draws from [os.urandom] at most
    once. *)
Theorem generate_config_files_side_effects w :
  let w1 := snd (generate_config_files host w) in
  cwd w1 = cwd w ∧ umask w1 = umask w
  ∧ stdin w1 = stdin w ∧ stdout w1 = stdout w
  ∧ (urandom_calls w1 = urandom_calls w ∨ urandom_calls w1 = S (urandom_calls w))
  ∧ ∀ q, is_Some (fs w !! q) → is_Some (fs w1 !! q).
Proof.
  intros w1. subst w1.
  destruct (generate_config_files_effect w)
    as (wb & Hwb & (Hc & Hu & Hi & Ho & Hr) & Hk).
  rewrite Hc, Hu, Hi, Ho, Hr.
  destruct Hwb as [-> | ->]; cbn [cwd umask stdin stdout urandom_calls fs] in *; auto 10.
Qed.

End Installation.

(** ** bootstrap as a whole *)

Section BootstrapRuns.
Import PyStr OS Setup.
Variable host : Host.

(** X13. With [overwrite=False], a data directory and a main database
    that are both there make [bootstrap] return at once: whatever
    [ask_confirmation] is, no question is asked, nothing is downloaded and
    the world is the one before the call. *)
Theorem bootstrap_skips_installed_database ask_confirmation w :
  is_Some (lookup_path w (data_dir host)) →
  is_Some (lookup_path w (PosixPath.join (data_dir host) (APP_NAME host ++ ".db"))) →
  bootstrap host false ask_confirmation w = (inr tt, w).
Proof.
  intros Hdir Hdb. unfold bootstrap, ensure_data_dir.
  unfold bind at 1. rewrite (bind_eq _ _ _ _ _ (path_exists_eq _ w)).
  rewrite bool_decide_true by exact Hdir. cbn [negb when ret].
  rewrite (bind_eq _ _ _ _ _ (path_exists_eq _ w)).
  rewrite bool_decide_true by exact Hdb. reflexivity.
Qed.

Lemma print_eq line w :
  print line w
  = (inr tt, MkWorld (cwd w) (umask w) (fs w) (stdin w) (stdout w ++ [line])%list
                     (urandom_calls w)).
Proof. reflexivity. Qed.

(** Reading back what was just written. *)
Lemma write_file_read_file p c w w1 :
  write_file p c w = (inr tt, w1) →
  ∃ q mode, resolve w p = Some q ∧ is_root q = false
            ∧ w1 = set_fs <[q := File mode c]> w.
Proof.
  unfold write_file. destruct (resolve w p) as [q|]; [|discriminate].
  unfold node_at. destruct (is_root q) eqn:Hroot; [discriminate|].
  destruct (fs w !! q) as [[m b|m]|].
  - intros H. injection H as <-. exists q, m. auto.
  - discriminate.
  - destruct (parent_ready w q); [discriminate|].
    intros H. injection H as <-. exists q, (masked w (oct 6 6 6)). auto.
Qed.

Lemma forallb_false_elem {A} (f : A → bool) l x :
  x ∈ l → f x = false → forallb f l = false.
Proof.
  induction l as [|y l IH]; intros Hin Hx; [inversion Hin|].
  cbn [forallb]. apply elem_of_cons in Hin as [<- | Hin].
  - rewrite Hx. reflexivity.
  - rewrite (IH Hin Hx). apply andb_false_r.
Qed.

(** X14. A hostile main archive stops [bootstrap] before anything is
    extracted or installed.  When the archive that is downloaded has a
    member whose target does not have the working directory as a leading
    string, the call raises; the file system is the one the directory step
    left, but for the downloaded archive itself, which stays where it was
    saved; and when the exception is not the path-traversal one, the
    archive could not even be saved and the file system is unchanged. *)
Theorem bootstrap_stops_at_hostile_archive w wd tar m :
  ensure_data_dir host w = (inr tt, wd) →
  urlopen host bootstrap_url = Some (TarGz tar) →
  m ∈ tar →
  String.prefix (PosixPath.abspath (cwd w) ".")
                (PosixPath.abspath (cwd w) (PosixPath.join "." (name m))) = false →
  ∃ e w1,
    bootstrap host true false w = (inl e, w1)
    ∧ (∀ q, resolve w "metronotesd-db.latest.tar.gz" ≠ Some q →
            fs w1 !! q = fs wd !! q)
    ∧ (e = Exception "Attempted Path Traversal in Tar File" ∨ fs w1 = fs wd).
Proof.
  intros Hdir Hurl Hin Hbad.
  pose proof (ensure_data_dir_frame host w) as Hframe. rewrite Hdir in Hframe.
  destruct Hframe as (Hcwd & _). cbn [snd] in Hcwd.
  unfold bootstrap. rewrite (bind_eq _ _ _ _ _ Hdir). cbn [negb].
  unfold bind at 1. cbn [ret]. unfold bind at 1. cbn [ret].
  unfold download_and_install.
  rewrite (bind_eq _ _ _ _ _ (print_eq _ wd)).
  set (wp := MkWorld (cwd wd) (umask wd) (fs wd) (stdin wd) _ (urandom_calls wd)).
  unfold urlretrieve at 1. rewrite Hurl.
  destruct (write_file "metronotesd-db.latest.tar.gz" (TarGz tar) wp)
    as [[e|[]] wa] eqn:Hwr.
  - exists e, wa. rewrite (bind_raise _ _ _ _ _ Hwr).
    assert (wa = wp) as ->.
    { revert Hwr. unfold write_file. destruct (resolve wp _) as [q|]; [|congruence].
      destruct (node_at wp q) as [[? ?|?]|]; try congruence.
      destruct (parent_ready wp q); congruence. }
    split; [reflexivity|]. split; [reflexivity | right; reflexivity].
  - rewrite (bind_eq _ _ _ _ _ Hwr).
    destruct (write_file_read_file _ _ _ _ Hwr) as (q & mode & Hq & Hroot & ->).
    rewrite (bind_eq _ _ _ _ _ (print_eq _ _)).
    set (we := MkWorld _ _ _ _ _ _).
    assert (Hread : tarfile_open "metronotesd-db.latest.tar.gz" we = (inr tar, we)).
    { unfold tarfile_open, bind, read_file, lookup_path.
      change (resolve we "metronotesd-db.latest.tar.gz")
        with (resolve wp "metronotesd-db.latest.tar.gz").
      rewrite Hq. cbn [mbind option_bind]. unfold node_at. rewrite Hroot.
      change (fs we) with (<[q := File mode (TarGz tar)]> (fs wd)).
      rewrite lookup_insert_eq. reflexivity. }
    rewrite (bind_eq _ _ _ _ _ Hread).
    assert (Hcheck : check_members "." tar we
                     = (inl (Exception "Attempted Path Traversal in Tar File"), we)).
    { rewrite check_members_result.
      change (cwd we) with (cwd wd). rewrite Hcwd.
      rewrite (forallb_false_elem _ tar m Hin Hbad). reflexivity. }
    exists (Exception "Attempted Path Traversal in Tar File"), we.
    split.
    + apply bind_raise. unfold safe_extract. apply bind_raise. exact Hcheck.
    + split; [|left; reflexivity].
      intros q' Hne. change (fs we) with (<[q := File mode (TarGz tar)]> (fs wd)).
      apply lookup_insert_ne. intros ->. apply Hne.
      change (resolve wp "metronotesd-db.latest.tar.gz")
        with (Some (PosixPath.abspath (cwd wd) "metronotesd-db.latest.tar.gz")) in Hq.
      unfold resolve. cbn. rewrite <- Hcwd. exact Hq.
Qed.

Lemma remove_ok p w w1 :
  remove p w = (inr tt, w1) →
  ∃ q, resolve w p = Some q ∧ is_root q = false ∧ w1 = set_fs (delete q) w.
Proof.
  unfold remove. destruct (resolve w p) as [q|]; [|discriminate].
  unfold node_at. destruct (is_root q) eqn:Hroot; [discriminate|].
  destruct (fs w !! q) as [[m b|m]|]; try discriminate.
  intros H. injection H as <-. exists q. auto.
Qed.

(** X15. A run of [bootstrap] with its default arguments that returns has
    cleaned up after itself: neither of the two downloaded archives nor
    [checksums.txt] is left in the working directory. *)
Theorem bootstrap_leaves_no_temporary_file w w1 :
  bootstrap host true false w = (inr tt, w1) →
  lookup_path w1 "metronotesd-db.latest.tar.gz" = None
  ∧ lookup_path w1 "metronotesd-testnet-db.latest.tar.gz" = None
  ∧ lookup_path w1 "checksums.txt" = None.
Proof.
  unfold bootstrap. intros Hrun.
  apply bind_ok in Hrun as ([] & wd & _ & Hrun).
  cbn [negb] in Hrun. unfold bind at 1 in Hrun. cbn [ret] in Hrun.
  unfold bind at 1 in Hrun. cbn [ret] in Hrun.
  unfold download_and_install in Hrun.
  do 16 (apply bind_ok in Hrun as (? & ? & _ & Hrun)).
  apply bind_ok in Hrun as ([] & wa & Hmain & Hrun).
  apply bind_ok in Hrun as ([] & wb & Htest & Hsums).
  destruct (remove_ok _ _ _ Hmain) as (qa & Hqa & Hra & ->).
  destruct (remove_ok _ _ _ Htest) as (qb & Hqb & Hrb & ->).
  destruct (remove_ok _ _ _ Hsums) as (qc & Hqc & Hrc & ->).
  unfold lookup_path, resolve in *. cbn [cwd set_fs] in *.
  rewrite Hqa, Hqb, Hqc. cbn [mbind option_bind]. unfold node_at.
  rewrite Hra, Hrb, Hrc. cbn [fs set_fs].
  repeat split; rewrite !lookup_delete_None; auto.
Qed.

End BootstrapRuns.

(** ** Lines of the foreign daemon file *)

Section Lines.
Import PyStr OS Setup.

Lemma split1_at_first c k v :
  contains c k = false → split1 c (k ++ String c v) = (k, Some v).
Proof.
  induction k as [|x k IH]; cbn [contains]; intros Hk.
  - change (split1 c (String c v) = ("", Some v)). cbn [split1].
    unfold chr_eqb. rewrite Ascii.eqb_refl. reflexivity.
  - apply orb_false_iff in Hk as [Hx Hk].
    change (split1 c (String x (k ++ String c v)) = (String x k, Some v)).
    cbn [split1]. rewrite Hx, (IH Hk). reflexivity.
Qed.

Lemma contains_app_chr c k v : contains c (k ++ String c v) = true.
Proof.
  induction k as [|x k IH].
  - change (contains c (String c v) = true). cbn [contains].
    unfold chr_eqb. rewrite Ascii.eqb_refl. reflexivity.
  - change (contains c (String x (k ++ String c v)) = true). cbn [contains].
    rewrite IH. apply orb_true_r.
Qed.

(** X16. A line is cut at its first [=] only.  For a line [k=v] without
    [#], where [k] has no [=], the loop sets the stripped [k] to the
    stripped [v], whatever [=] signs [v] holds, and replaces what an earlier
    line had set for that key. *)
Theorem conf_line_cuts_at_first_equals conf k v :
  contains "=" k = false →
  contains "#" (k ++ String "=" v) = false →
  conf_line conf (k ++ String "=" v) = <[strip k := strip v]> conf
  ∧ conf_line conf (k ++ String "=" v) !! strip k = Some (strip v).
Proof.
  intros Hk Hhash. unfold conf_line.
  rewrite Hhash, contains_app_chr, (split1_at_first _ _ _ Hk). cbn [negb orb].
  split; [reflexivity | apply lookup_insert_eq].
Qed.

End Lines.

(** ** Paths that end in a given name *)

Section Leaves.
Import PyStr PosixPath.

Lemma str_app_assoc (a b c : string) : (a ++ b) ++ c = a ++ (b ++ c).
Proof.
  induction a as [|x a IH]; [reflexivity|].
  change (String x ((a ++ b) ++ c) = String x (a ++ (b ++ c))). rewrite IH. reflexivity.
Qed.

Lemma str_app_length (a b : string) :
  String.length (a ++ b) = (String.length a + String.length b)%nat.
Proof.
  induction a as [|x a IH]; [reflexivity|].
  change (S (String.length (a ++ b)) = S (String.length a + String.length b)).
  rewrite IH. reflexivity.
Qed.

Lemma str_app_cons x (a b : string) : String x a ++ b = String x (a ++ b).
Proof. reflexivity. Qed.

Lemma prefix_sep_cons x t :
  String.prefix "/" (String x t) = bool_decide ("/"%char = x).
Proof.
  cbn [String.prefix]. destruct (ascii_dec "/" x) as [->|Hne].
  - rewrite bool_decide_true by reflexivity. destruct t; reflexivity.
  - rewrite bool_decide_false by exact Hne. reflexivity.
Qed.

Lemma nosep_head x c :
  contains "/" (String x c) = false → "/"%char ≠ x ∧ contains "/" c = false.
Proof.
  cbn [contains]. intros H. apply orb_false_iff in H as [Hx Hc]. split; [|exact Hc].
  intros <-. unfold chr_eqb in Hx. rewrite Ascii.eqb_refl in Hx. discriminate.
Qed.

Lemma nosep_not_abs c : contains "/" c = false → startswith c sep = false.
Proof.
  destruct c as [|x c]; [reflexivity|]. intros H. apply nosep_head in H as [Hx _].
  unfold startswith, sep. rewrite prefix_sep_cons. apply bool_decide_false. exact Hx.
Qed.

Lemma endswith_sep_split d :
  endswith_chr d "/" = true → ∃ d0, d = d0 ++ "/".
Proof.
  induction d as [|x d IH]; [discriminate|]. cbn [endswith_chr].
  destruct d as [|y d].
  - intros H. apply chr_eqb_sep in H as ->. exists "". reflexivity.
  - intros H. destruct (IH H) as [d0 ->]. exists (String x d0). reflexivity.
Qed.

Lemma endswith_app a b c :
  b ≠ "" → endswith_chr (a ++ b) c = endswith_chr b c.
Proof.
  intros Hb. induction a as [|x a IH]; [reflexivity|].
  rewrite str_app_cons. cbn [endswith_chr].
  destruct (a ++ b) as [|y r] eqn:Hab; [|exact IH].
  destruct a; [cbn in Hab; contradiction | discriminate].
Qed.

Lemma join_onto_relative a b :
  startswith b sep = false → PosixPath.join a b = join_base a ++ b.
Proof.
  intros Hb. unfold PosixPath.join, join_base. rewrite Hb.
  destruct (_ || _); [reflexivity|]. symmetry. apply str_app_assoc.
Qed.

Lemma join_base_shape a : join_base a = "" ∨ endswith_chr (join_base a) "/" = true.
Proof.
  unfold join_base. destruct (String.eqb a "") eqn:He.
  - apply String.eqb_eq in He as ->. left. reflexivity.
  - cbn [orb]. destruct (endswith_chr a "/") eqn:Hs; [right; exact Hs|].
    right. rewrite endswith_app by discriminate. reflexivity.
Qed.

Lemma isabs_app a b : a ≠ "" → isabs (a ++ b) = isabs a.
Proof.
  destruct a as [|x a]; [contradiction|]. intros _. unfold isabs, startswith, sep.
  rewrite str_app_cons, !prefix_sep_cons. reflexivity.
Qed.

(** The path that [abspath] normalises for [join(d, c)] is a fixed string
    followed by [c], for every name [c] without a separator. *)
Lemma abspath_leaf_base cwd d :
  ∃ B, (B = "" ∨ endswith_chr B "/" = true)
       ∧ ∀ c, contains "/" c = false →
              abspath cwd (PosixPath.join d c) = normpath (B ++ c).
Proof.
  unfold abspath. destruct (join_base_shape d) as [Hd | Hd].
  - exists (join_base cwd). split; [apply join_base_shape|].
    intros c Hc. pose proof (nosep_not_abs c Hc) as Hrel.
    rewrite (join_onto_relative d c Hrel), Hd. change ("" ++ c) with c.
    unfold isabs. rewrite Hrel, (join_onto_relative cwd c Hrel). reflexivity.
  - assert (Hne : join_base d ≠ "") by (intros H; rewrite H in Hd; discriminate).
    destruct (isabs (join_base d)) eqn:Habs.
    + exists (join_base d). split; [right; exact Hd|].
      intros c Hc. rewrite (join_onto_relative d c (nosep_not_abs c Hc)).
      rewrite isabs_app, Habs by exact Hne. reflexivity.
    + exists (join_base cwd ++ join_base d). split.
      * right. rewrite endswith_app by exact Hne. exact Hd.
      * intros c Hc. rewrite (join_onto_relative d c (nosep_not_abs c Hc)).
        rewrite isabs_app, Habs by exact Hne.
        rewrite join_onto_relative, str_app_assoc; [reflexivity|].
        unfold isabs in Habs. rewrite <- Habs. apply (isabs_app _ c Hne).
Qed.

Lemma comps_app_sep_any a b : comps (a ++ String "/" b) = (comps a ++ comps b)%list.
Proof.
  induction a as [|x a IH]; [reflexivity|]. rewrite str_app_cons.
  destruct (chr_eqb x "/") eqn:Hx.
  - apply chr_eqb_sep in Hx as ->. rewrite !comps_cons_sep, IH. reflexivity.
  - destruct (comps a) as [|w ws] eqn:Ha; [exfalso; exact (comps_nonempty _ Ha)|].
    rewrite (comps_cons_other x (a ++ String "/" b) w (ws ++ comps b) Hx IH).
    rewrite (comps_cons_other x a w ws Hx Ha). reflexivity.
Qed.

Lemma comps_leaf B :
  B = "" ∨ endswith_chr B "/" = true →
  ∃ I, ∀ c, contains "/" c = false → comps (B ++ c) = (I ++ [c])%list.
Proof.
  intros [-> | HB].
  - exists []. intros c Hc. apply comps_single. exact Hc.
  - destruct (endswith_sep_split B HB) as [B0 ->]. exists (comps B0).
    intros c Hc. rewrite str_app_assoc. change ("/" ++ c) with (String "/" c).
    rewrite comps_app_sep_any, (comps_single c Hc). reflexivity.
Qed.

Lemma cut_nosep c : contains "/" c = false → cut_last_sep c = ("", c).
Proof.
  induction c as [|x c IH]; [reflexivity|]. cbn [contains cut_last_sep].
  intros H. apply orb_false_iff in H as [Hx Hc]. rewrite (IH Hc), Hx. reflexivity.
Qed.

Lemma cut_leaf B c :
  endswith_chr B "/" = true → contains "/" c = false →
  cut_last_sep (B ++ c) = (B, c).
Proof.
  intros HB Hc. induction B as [|x B IH]; [discriminate|].
  rewrite str_app_cons. cbn [cut_last_sep]. destruct B as [|y B].
  - cbn [endswith_chr] in HB. change ("" ++ c) with c. rewrite (cut_nosep c Hc), HB.
    reflexivity.
  - rewrite (IH HB). reflexivity.
Qed.

(** Leading separators do not depend on a name that has none. *)
Lemma prefix_seps_leaf n B c c' :
  contains "/" c = false → contains "/" c' = false →
  String.prefix (repeat sep n) (B ++ c) = String.prefix (repeat sep n) (B ++ c').
Proof.
  intros Hc Hc'. revert B. induction n as [|n IH]; intros B.
  - destruct (B ++ c), (B ++ c'); reflexivity.
  - change (repeat sep (S n)) with (String "/" (repeat sep n)).
    destruct B as [|y B].
    + change ("" ++ c) with c. change ("" ++ c') with c'.
      assert (Hno : ∀ s, contains "/" s = false →
                         String.prefix (String "/" (repeat sep n)) s = false).
      { intros [|x s] Hs; [reflexivity|]. apply nosep_head in Hs as [Hx _].
        cbn [String.prefix]. destruct (ascii_dec "/" x); [contradiction | reflexivity]. }
      rewrite (Hno c Hc), (Hno c' Hc'). reflexivity.
    + rewrite !str_app_cons. cbn [String.prefix].
      destruct (ascii_dec "/" y); [apply IH | reflexivity].
Qed.

Lemma normpath_step_leaf k acc c :
  kept c → c ≠ ".." → normpath_step k acc c = c :: acc.
Proof.
  intros (He & Hd & _) Hdd. unfold normpath_step.
  apply String.eqb_neq in He, Hd, Hdd. rewrite He, Hd, Hdd. reflexivity.
Qed.

Lemma join_snoc F c :
  PyStr.join sep (F ++ [c])
  = fold_right (λ f acc, f ++ sep ++ acc) "" F ++ c.
Proof.
  induction F as [|f F IH]; [reflexivity|].
  change (PyStr.join sep ((f :: F) ++ [c]))
    with (String.concat sep (f :: (F ++ [c])%list)).
  cbn [String.concat fold_right]. destruct (F ++ [c])%list as [|g G] eqn:HF.
  { destruct F; discriminate. }
  unfold PyStr.join in IH. rewrite IH, !str_app_assoc. reflexivity.
Qed.

Lemma flat_shape F :
  fold_right (λ f acc, f ++ sep ++ acc) "" F = ""
  ∨ endswith_chr (fold_right (λ f acc, f ++ sep ++ acc) "" F) "/" = true.
Proof.
  induction F as [|f F IH]; [left; reflexivity|]. right. cbn [fold_right].
  rewrite endswith_app by discriminate. destruct IH as [-> | IH]; [reflexivity|].
  rewrite endswith_app; [exact IH|]. intros H. rewrite H in IH. discriminate.
Qed.

(** The normal form of a path that ends in a proper name [c] is a fixed
    string followed by [c]. *)
Lemma normpath_leaf B :
  B = "" ∨ endswith_chr B "/" = true →
  ∃ R, (R = "" ∨ endswith_chr R "/" = true)
       ∧ ∀ c, kept c → c ≠ ".." → normpath (B ++ c) = R ++ c.
Proof.
  intros HB. destruct (comps_leaf B HB) as [I HI].
  set (k := if startswith (B ++ "x") sep
            then if startswith (B ++ "x") "//" && negb (startswith (B ++ "x") "///")
                 then 2%nat else 1%nat
            else 0%nat).
  set (F := rev (fold_left (normpath_step k) I [])).
  exists (repeat sep k ++ fold_right (λ f acc, f ++ sep ++ acc) "" F). split.
  - destruct (flat_shape F) as [HF | HF].
    + rewrite HF. unfold k.
      repeat match goal with |- context [if ?b then _ else _] => destruct b end;
        cbn; auto.
    + right. rewrite endswith_app; [exact HF|].
      intros H. rewrite H in HF. discriminate.
  - intros c Hc Hdd. pose proof Hc as (Hne & _ & Hsep).
    unfold normpath.
    assert (Hnonempty : ∀ a, String.eqb (a ++ c) "" = false).
    { intros a. apply String.eqb_neq. destruct a; [exact Hne | discriminate]. }
    rewrite Hnonempty.
    assert (Hp : ∀ n, startswith (B ++ c) (repeat sep n)
                      = startswith (B ++ "x") (repeat sep n)).
    { intros n. apply prefix_seps_leaf; [exact Hsep | reflexivity]. }
    pose proof (Hp 1%nat) as H1. pose proof (Hp 2%nat) as H2.
    pose proof (Hp 3%nat) as H3.
    change (repeat sep 1) with sep in H1. change (repeat sep 2) with "//" in H2.
    change (repeat sep 3) with "///" in H3. cbv zeta. rewrite H1, H2, H3. fold k.
    rewrite (HI c Hsep), fold_left_app. cbn [fold_left].
    rewrite (normpath_step_leaf k _ c Hc Hdd). cbn [rev]. fold F.
    rewrite join_snoc, <- str_app_assoc, Hnonempty. reflexivity.
Qed.

(** For a directory [d] and a working directory, the absolute path of
    [join(d, c)] is one fixed string followed by [c], for every proper
    name [c]. *)
Lemma abspath_join_leaf cwd d :
  ∃ R, (R = "" ∨ endswith_chr R "/" = true)
       ∧ ∀ c, kept c → c ≠ ".." → abspath cwd (PosixPath.join d c) = R ++ c.
Proof.
  destruct (abspath_leaf_base cwd d) as (B & HB & Habs).
  destruct (normpath_leaf B HB) as (R & HR & Hnorm).
  exists R. split; [exact HR|]. intros c Hc Hdd.
  rewrite (Habs c (proj2 (proj2 Hc))). exact (Hnorm c Hc Hdd).
Qed.

End Leaves.

(** ** Lengths of normalised paths *)

Section Lengths.
Import PyStr PosixPath.

Local Abbreviation weight l := (list_sum (map (λ c, S (String.length c)) l)).
Local Abbreviation load l :=
  (list_sum (map (λ c, if String.eqb c "" then 0%nat else S (String.length c)) l)).

Lemma weight_cons c l : weight (c :: l) = (S (String.length c) + weight l)%nat.
Proof. reflexivity. Qed.

Lemma load_cons c l :
  load (c :: l)
  = ((if String.eqb c "" then 0 else S (String.length c)) + load l)%nat.
Proof. reflexivity. Qed.

Lemma comps_weight s : weight (comps s) = S (String.length s).
Proof.
  induction s as [|a s IH]; [reflexivity|].
  destruct (chr_eqb a "/") eqn:Ha.
  - apply chr_eqb_sep in Ha as ->. rewrite comps_cons_sep.
    rewrite weight_cons, IH. reflexivity.
  - destruct (comps s) as [|w ws] eqn:Hs; [exfalso; exact (comps_nonempty _ Hs)|].
    rewrite (comps_cons_other a s w ws Ha Hs).
    rewrite weight_cons in *. cbn [String.length] in *. lia.
Qed.

Lemma load_le_weight l : (load l ≤ weight l)%nat.
Proof.
  induction l as [|c l IH]; [reflexivity|]. rewrite weight_cons, load_cons.
  destruct (String.eqb c ""); lia.
Qed.

Lemma normpath_step_weight k acc c :
  (weight (normpath_step k acc c)
   ≤ weight acc + (if String.eqb c "" then 0 else S (String.length c)))%nat.
Proof.
  unfold normpath_step. destruct (String.eqb c "") eqn:He; cbn [orb]; [lia|].
  destruct (String.eqb c "."); [lia|].
  destruct (_ || _ || _).
  - rewrite weight_cons. lia.
  - destruct acc as [|x acc]; rewrite ?weight_cons; lia.
Qed.

Lemma normpath_fold_weight k l acc :
  (weight (fold_left (normpath_step k) l acc) ≤ weight acc + load l)%nat.
Proof.
  revert acc. induction l as [|c l IH]; intros acc; cbn [fold_left]; [cbn; lia|].
  rewrite load_cons. specialize (IH (normpath_step k acc c)).
  pose proof (normpath_step_weight k acc c). lia.
Qed.

Lemma weight_rev l : weight (rev l) = weight l.
Proof.
  induction l as [|c l IH]; [reflexivity|]. cbn [rev].
  rewrite map_app, list_sum_app, IH, !weight_cons. cbn. lia.
Qed.

Lemma join_length l : (String.length (PyStr.join sep l) ≤ pred (weight l))%nat.
Proof.
  unfold PyStr.join. induction l as [|c l IH]; [reflexivity|].
  cbn [String.concat]. destruct l as [|d l].
  - rewrite weight_cons. cbn. lia.
  - rewrite !str_app_length. rewrite (weight_cons c). rewrite weight_cons in *.
    change (String.length sep) with 1%nat. lia.
Qed.

Lemma repeat_sep_length k : String.length (repeat sep k) = k.
Proof.
  induction k as [|k IH]; [reflexivity|].
  change (repeat sep (S k)) with (String "/" (repeat sep k)).
  cbn [String.length]. rewrite IH. reflexivity.
Qed.

Lemma prefix_cons_inv a p s :
  String.prefix (String a p) s = true →
  ∃ s', s = String a s' ∧ String.prefix p s' = true.
Proof.
  destruct s as [|b s]; [discriminate|]. cbn [String.prefix].
  destruct (ascii_dec a b) as [->|]; [|discriminate]. eauto.
Qed.

(** An absolute path does not get longer when it is normalised. *)
Lemma normpath_length h :
  isabs h = true → (String.length (normpath h) ≤ String.length h)%nat.
Proof.
  intros Habs. unfold normpath.
  destruct (String.eqb h "") eqn:He.
  { apply String.eqb_eq in He as ->. discriminate. }
  unfold isabs in Habs. rewrite Habs. cbv zeta.
  set (k := if startswith h "//" && negb (startswith h "///") then 2%nat else 1%nat).
  assert (Hk : (k ≤ String.length h ∧ load (comps h) + k ≤ S (String.length h))%nat
               ∧ (1 ≤ k)%nat).
  { unfold startswith, sep in Habs.
    apply prefix_cons_inv in Habs as (h1 & -> & _). rewrite comps_cons_sep.
    unfold k. destruct (startswith (String "/" h1) "//") eqn:H2; cbn [andb].
    - unfold startswith in H2.
      apply prefix_cons_inv in H2 as (h1' & Heq & H2). injection Heq as <-.
      apply prefix_cons_inv in H2 as (h2 & -> & _). rewrite comps_cons_sep.
      pose proof (load_le_weight (comps h2)) as Hl. rewrite comps_weight in Hl.
      rewrite !load_cons. cbn [String.eqb String.length].
      destruct (negb _); lia.
    - pose proof (load_le_weight (comps h1)) as Hl. rewrite comps_weight in Hl.
      rewrite !load_cons. cbn [String.eqb String.length]. lia. }
  destruct Hk as [[Hk1 Hk2] Hk3].
  set (ncs := rev (fold_left (normpath_step k) (comps h) [])).
  assert (Hn : (weight ncs ≤ load (comps h))%nat).
  { unfold ncs. rewrite weight_rev.
    pose proof (normpath_fold_weight k (comps h) []) as H.
    change (weight []) with 0%nat in H. lia. }
  pose proof (join_length ncs) as Hj.
  assert (Hlen : (String.length (repeat sep k ++ PyStr.join sep ncs)
                  ≤ String.length h)%nat).
  { rewrite str_app_length, repeat_sep_length. lia. }
  destruct (String.eqb (repeat sep k ++ PyStr.join sep ncs) "") eqn:Hempty;
    [|exact Hlen].
  cbn [String.length]. lia.
Qed.

Lemma normpath_isabs p : isabs p = true → isabs (normpath p) = true.
Proof.
  intros Habs. unfold normpath.
  destruct (String.eqb p "") eqn:He.
  { apply String.eqb_eq in He as ->. discriminate. }
  unfold isabs in Habs. rewrite Habs. cbv zeta.
  assert (Hgen : ∀ k r, isabs (if String.eqb (repeat sep (S k) ++ r) ""
                                  then "." else repeat sep (S k) ++ r) = true).
  { intros k r. change (repeat sep (S k) ++ r)
      with (String "/" (repeat sep k ++ r)). cbn [String.eqb].
    unfold isabs, startswith, sep. rewrite prefix_sep_cons.
    apply bool_decide_true. reflexivity. }
  destruct (startswith p "//" && negb (startswith p "///")); apply Hgen.
Qed.

Lemma abspath_isabs cwd p : isabs cwd = true → isabs (abspath cwd p) = true.
Proof.
  intros Hcwd. unfold abspath. apply normpath_isabs.
  destruct (isabs p) eqn:Hp; [exact Hp | exact (join_isabs _ _ Hcwd)].
Qed.

End Lengths.

(** ** What [os.makedirs] creates *)

Section Created.
Import PyStr PosixPath OS.

Lemma str_app_nil_r (a : string) : a ++ "" = a.
Proof.
  induction a as [|x a IH]; [reflexivity|]. rewrite str_app_cons, IH. reflexivity.
Qed.

Lemma cut_last_sep_app p : fst (cut_last_sep p) ++ snd (cut_last_sep p) = p.
Proof.
  induction p as [|a p IH]; [reflexivity|]. cbn [cut_last_sep].
  destruct (cut_last_sep p) as [h t]. cbn [fst snd] in IH.
  destruct h as [|b h].
  - destruct (chr_eqb a "/"); [reflexivity|]. cbn [fst snd].
    change ("" ++ String a t) with (String a ("" ++ t)). rewrite IH. reflexivity.
  - cbn [fst snd]. rewrite str_app_cons, IH. reflexivity.
Qed.

Lemma rstrip_chr_leading c s : ∃ t, s = rstrip_chr c s ++ t.
Proof.
  induction s as [|a s [t IH]]; [exists ""; reflexivity|]. cbn [rstrip_chr].
  destruct (rstrip_chr c s) as [|b r].
  - destruct (chr_eqb a c); [exists (String a s); reflexivity|].
    exists s. reflexivity.
  - exists t. rewrite str_app_cons, <- IH. reflexivity.
Qed.

Lemma split_head_leading p : ∃ t, p = fst (PosixPath.split p) ++ t.
Proof.
  unfold PosixPath.split. pose proof (cut_last_sep_app p) as Hp.
  destruct (cut_last_sep p) as [h t]. cbn [fst snd] in *.
  destruct (_ && _); [|exists t; symmetry; exact Hp].
  destruct (rstrip_chr_leading "/" h) as [t' Ht'].
  exists (t' ++ t). rewrite <- str_app_assoc, <- Ht'. symmetry. exact Hp.
Qed.

Lemma changes_under_refl name w : changes_under name w w.
Proof. split; [reflexivity|]. intros q. left. reflexivity. Qed.

Lemma changes_under_trans name w1 w2 w3 :
  changes_under name w1 w2 → changes_under name w2 w3 → changes_under name w1 w3.
Proof.
  intros [Hc12 H12] [Hc23 H23]. split; [congruence|]. intros q.
  destruct (H23 q) as [E23 | P]; [|right; rewrite <- Hc12; exact P].
  destruct (H12 q) as [E12 | P]; [left; congruence | right; exact P].
Qed.

Lemma changes_under_leading head t w w' :
  changes_under head w w' → changes_under (head ++ t) w w'.
Proof.
  intros [Hc H]. split; [exact Hc|]. intros q.
  destruct (H q) as [E | (h & t' & Hne & -> & Hq)]; [left; exact E|].
  right. exists h, (t' ++ t). rewrite str_app_assoc. auto.
Qed.

Lemma mkdir_changes p mode w : changes_under p w (snd (mkdir p mode w)).
Proof.
  unfold mkdir, resolve. destruct (String.eqb p "") eqn:Hp; [apply changes_under_refl|].
  destruct (node_at w _); [apply changes_under_refl|].
  destruct (parent_ready w _); [apply changes_under_refl|].
  split; [reflexivity|]. intros q. cbn [snd set_fs fs].
  destruct (decide (abspath (cwd w) p = q)) as [<-|Hne].
  - right. exists p, "". apply String.eqb_neq in Hp. rewrite str_app_nil_r. auto.
  - left. apply lookup_insert_ne. exact Hne.
Qed.

(** [os.makedirs(name)] changes the file system at the absolute paths of
    leading strings of [name] only. *)
Lemma makedirs_fuel_changes fuel name mode w :
  changes_under name w (snd (makedirs_fuel fuel name mode w)).
Proof.
  revert name mode w. induction fuel as [|fuel IH]; intros name mode w.
  - apply changes_under_refl.
  - cbn [makedirs_fuel].
    destruct (split_head_leading name) as [t1 Ht1].
    destruct (PosixPath.split name) as [head tail]. cbn [fst] in Ht1.
    assert (Hhead : ∃ t, name = fst (if String.eqb tail "" then PosixPath.split head
                                     else (head, tail)) ++ t).
    { destruct (String.eqb tail ""); [|exists t1; exact Ht1].
      destruct (split_head_leading head) as [t2 Ht2].
      exists (t2 ++ t1). rewrite <- str_app_assoc, <- Ht2. exact Ht1. }
    destruct (if String.eqb tail "" then PosixPath.split head else (head, tail))
      as [head' tail'].
    cbn [fst] in Hhead. destruct Hhead as [t Hname].
    apply (bind_keeps (changes_under name)); [apply changes_under_trans | |].
    + destruct (negb (String.eqb head' "") && negb (String.eqb tail' ""));
        [|apply changes_under_refl].
      apply (bind_keeps (changes_under name)); [apply changes_under_trans | |].
      * apply changes_under_refl.
      * intros e w'. destruct e; [apply changes_under_refl|].
        apply (bind_keeps (changes_under name)); [apply changes_under_trans | |].
        -- specialize (IH head' (oct 7 7 7) w').
           rewrite Hname. apply changes_under_leading.
           destruct (makedirs_fuel fuel head' (oct 7 7 7) w') as [[e|[]] w1];
             [destruct e|]; exact IH.
        -- intros _ w1. apply changes_under_refl.
    + intros stop w'. destruct stop; [apply changes_under_refl | apply mkdir_changes].
Qed.

End Created.

(** ** Files in one directory *)

Section Siblings.
Import PyStr PosixPath OS Setup.
Variable host : Host.

Lemma nosep_endswith c : contains "/" c = false → endswith_chr c "/" = false.
Proof.
  induction c as [|a c IH]; [reflexivity|]. cbn [contains endswith_chr].
  intros H. apply orb_false_iff in H as [Ha Hc]. destruct c; [exact Ha | exact (IH Hc)].
Qed.

Lemma leaf_not_root R c : kept c → is_root (R ++ c) = false.
Proof.
  intros (Hne & _ & Hsep). unfold is_root.
  assert (Hend : endswith_chr (R ++ c) "/" = false).
  { rewrite endswith_app by exact Hne. exact (nosep_endswith c Hsep). }
  apply orb_false_iff. split; apply String.eqb_neq; intros H; rewrite H in Hend;
    discriminate.
Qed.

Lemma join_nonempty d c : c ≠ "" → PosixPath.join d c ≠ "".
Proof.
  intros Hc. unfold PosixPath.join. destruct (startswith c sep); [exact Hc|].
  destruct (_ || _); destruct d; try discriminate; exact Hc.
Qed.

Lemma leaf_inj R c c' : R ++ c = R ++ c' → c = c'.
Proof.
  induction R as [|x R IH]; [auto|]. rewrite !str_app_cons. intros H.
  injection H as H. exact (IH H).
Qed.

Lemma dirname_leaf R c :
  R = "" ∨ endswith_chr R "/" = true → contains "/" c = false →
  ∃ t, R = dirname (R ++ c) ++ t.
Proof.
  intros HR Hc. unfold dirname, PosixPath.split. destruct HR as [-> | HR].
  - change ("" ++ c) with c. rewrite (cut_nosep c Hc). exists "". reflexivity.
  - rewrite (cut_leaf R c HR Hc). cbn [fst].
    destruct (_ && _); [apply rstrip_chr_leading|].
    exists "". symmetry. apply str_app_nil_r.
Qed.

(** The key of [join(d, c)] in the file system. *)
Lemma lookup_path_leaf w d c R :
  abspath (cwd w) (PosixPath.join d c) = R ++ c → kept c →
  lookup_path w (PosixPath.join d c) = fs w !! (R ++ c).
Proof.
  intros HR Hc. apply lookup_path_at; [|exact (leaf_not_root R c Hc)].
  unfold resolve. pose proof (join_nonempty d c (proj1 Hc)) as Hne.
  apply String.eqb_neq in Hne. rewrite Hne, HR. reflexivity.
Qed.

(** [os.makedirs] on the directory of [join(d, c)] leaves the entries of
    that directory as they are. *)
Lemma makedirs_config_dir_beside w d c c' R fuel mode :
  isabs (cwd w) = true →
  (R = "" ∨ endswith_chr R "/" = true) →
  abspath (cwd w) (PosixPath.join d c) = R ++ c →
  kept c → kept c' →
  fs (snd (makedirs_fuel fuel (config_dir_of w (PosixPath.join d c)) mode w))
    !! (R ++ c')
  = fs w !! (R ++ c').
Proof.
  intros Hcwd HR HRc Hc Hc'.
  destruct (makedirs_fuel_changes fuel (config_dir_of w (PosixPath.join d c)) mode w)
    as [_ Hch].
  destruct (Hch (R ++ c')) as [E | (h & t & Hne & Hdir & Hq)]; [exact E|].
  exfalso. unfold config_dir_of in Hdir. rewrite HRc in Hdir.
  destruct (dirname_leaf R c HR (proj2 (proj2 Hc))) as [t2 Ht2].
  rewrite Hdir in Ht2.
  assert (Habs : isabs h = true).
  { pose proof (abspath_isabs (cwd w) (PosixPath.join d c) Hcwd) as Ha.
    rewrite HRc, Ht2, !str_app_assoc in Ha.
    rewrite isabs_app in Ha by exact Hne. exact Ha. }
  unfold abspath in Hq. rewrite Habs in Hq.
  pose proof (normpath_length h Habs) as Hlen. rewrite <- Hq in Hlen.
  rewrite Ht2, !str_app_length in Hlen.
  destruct Hc' as (Hne' & _). destruct c'; [contradiction|].
  cbn [String.length] in Hlen. lia.
Qed.

(** A call of [generate_config_file] on [join(d, c)] leaves what is at
    [join(d, c')], for another name [c']. *)
Lemma generate_config_file_beside d c c' config_args known_config overwrite w w1 :
  isabs (cwd w) = true →
  kept c → c ≠ ".." → kept c' → c' ≠ ".." → c' ≠ c →
  generate_config_file host (PosixPath.join d c) config_args known_config overwrite w
  = (inr tt, w1) →
  lookup_path w1 (PosixPath.join d c') = lookup_path w (PosixPath.join d c').
Proof.
  intros Hcwd Hc Hdd Hc' Hdd' Hne Hrun.
  destruct (generate_config_file_cases _ _ _ _ _ _ _ Hrun) as [(_ & _ & ->) | Hwrite];
    [reflexivity|].
  destruct (generate_config_file_steps _ _ _ _ _ _ _ Hrun Hwrite)
    as (lines & wd & ww & _ & Hmk & Hwr & Hch).
  destruct (abspath_join_leaf (cwd w) d) as (R & HR & HRc).
  destruct (ensure_dir_effect (config_dir_of w (PosixPath.join d c)) (oct 7 5 5) w)
    as (_ & Hsame & _).
  rewrite Hmk in Hsame. cbn [snd] in Hsame.
  destruct (write_then_chmod _ _ _ _ _ _ Hwr Hch) as (q & Hq & _ & Hfs & Hsame').
  assert (Hcwd1 : cwd w1 = cwd w).
  { destruct Hsame as [E1 _], Hsame' as [E2 _]. congruence. }
  assert (Hcwdd : cwd wd = cwd w) by apply Hsame.
  unfold resolve in Hq. rewrite Hcwdd, (HRc c Hc Hdd) in Hq.
  destruct (String.eqb _ ""); [discriminate|]. injection Hq as <-.
  rewrite (lookup_path_leaf w1 d c' R), (lookup_path_leaf w d c' R);
    [| exact (HRc c' Hc' Hdd') | exact Hc'
     | rewrite Hcwd1; exact (HRc c' Hc' Hdd') | exact Hc'].
  rewrite Hfs, lookup_insert_ne by (intros H; apply leaf_inj in H; congruence).
  destruct (bool_decide _) in Hmk; cbn [negb when] in Hmk.
  - injection Hmk as <-. reflexivity.
  - unfold makedirs in Hmk.
    pose proof (makedirs_config_dir_beside w d c c' R
                  (S (String.length (config_dir_of w (PosixPath.join d c))))
                  (oct 7 5 5) Hcwd HR (HRc c Hc Hdd) Hc Hc') as Hb.
    rewrite Hmk in Hb. exact Hb.
Qed.

End Siblings.

(** ** The first run *)

Section FirstRun.
Import PyStr PosixPath OS Setup.
Variable host : Host.

Lemma lookup_path_same_fs w w' p :
  cwd w' = cwd w → fs w' = fs w → lookup_path w' p = lookup_path w p.
Proof.
  intros Hc Hf. unfold lookup_path, resolve, node_at. rewrite Hc, Hf. reflexivity.
Qed.

(** X17. A successful first run of [generate_config_files], from an
    absolute working directory and without [server.conf], leaves
    [server.conf] as a regular file under mode [0o660] that holds the
    server schema rendered from the probed config, completed by the
    generated password when the probes gave none; a [client.conf] that was
    missing is left under the same mode with the client schema rendered
    from the translation of that same config, so both files carry the same
    credential, and writing it does not disturb [server.conf]; a
    [client.conf] that was there is left as it was. *)
Theorem generate_config_files_first_run w w1 :
  isabs (cwd w) = true →
  lookup_path w (PosixPath.join (configdir host) "server.conf") = None →
  generate_config_files host w = (inr tt, w1) →
  ∃ known known' ls,
    get_server_known_config host w = (inr known, w)
    ∧ known' = match known !! "rpc-password" with
               | Some _ => known
               | None =>
                   <["rpc-password" :=
                       VStr (hexlify host
                               (dhash host (urandom host (urandom_calls w) 16)))]>
                     known
               end
    ∧ config_lines host (SERVER_CONFIG_ARGS host) known' = inr ls
    ∧ lookup_path w1 (PosixPath.join (configdir host) "server.conf")
      = Some (File (oct 6 6 0) (Text (PyStr.join newline ls)))
    ∧ (lookup_path w (PosixPath.join (configdir host) "client.conf") = None →
       ∃ lc,
         config_lines host (CLIENT_CONFIG_ARGS host) (server_to_client_config known')
         = inr lc
         ∧ lookup_path w1 (PosixPath.join (configdir host) "client.conf")
           = Some (File (oct 6 6 0) (Text (PyStr.join newline lc))))
    ∧ (is_Some (lookup_path w (PosixPath.join (configdir host) "client.conf")) →
       lookup_path w1 (PosixPath.join (configdir host) "client.conf")
       = lookup_path w (PosixPath.join (configdir host) "client.conf")).
Proof.
  intros Hcwd Hnone Hrun. unfold generate_config_files in Hrun.
  rewrite (bind_eq _ _ _ _ _ (path_exists_eq _ w)) in Hrun.
  rewrite bool_decide_false in Hrun by (rewrite Hnone; intros [? ?]; discriminate).
  apply bind_ok in Hrun as (known & wa & Hget & Hrun).
  pose proof (get_server_known_config_pure host w) as Hpure.
  rewrite Hget in Hpure. cbn [snd] in Hpure. subst wa.
  apply bind_ok in Hrun as (known' & wb & Hens & Hrun).
  assert (Hwb : known' = match known !! "rpc-password" with
                         | Some _ => known
                         | None =>
                             <["rpc-password" :=
                                 VStr (hexlify host
                                   (dhash host (urandom host (urandom_calls w) 16)))]>
                               known
                         end
                ∧ cwd wb = cwd w ∧ fs wb = fs w).
  { unfold ensure_rpc_password in Hens. destruct (known !! "rpc-password").
    - injection Hens as <- <-. auto.
    - unfold bind in Hens. rewrite os_urandom_eq in Hens. injection Hens as <- <-.
      auto. }
  destruct Hwb as (Hknown' & Hcb & Hfb).
  assert (Hkept : ∀ c, c = "server.conf" ∨ c = "client.conf" → kept c ∧ c ≠ "..").
  { intros c [-> | ->]; repeat split; discriminate. }
  destruct (Hkept "server.conf") as [Hks Hds]; [auto|].
  destruct (Hkept "client.conf") as [Hkc Hdc]; [auto|].
  unfold write_config_files in Hrun.
  apply bind_ok in Hrun as ([] & w2 & Hserver & Hrun).
  assert (Hnone_b : lookup_path wb (PosixPath.join (configdir host) "server.conf")
                    = None).
  { rewrite (lookup_path_same_fs w wb) by assumption. exact Hnone. }
  destruct (generate_config_file_result _ _ _ _ _ _ _ Hserver (or_intror Hnone_b))
    as (ls & Hls & Hfile).
  assert (Hclient2 : lookup_path w2 (PosixPath.join (configdir host) "client.conf")
                     = lookup_path w (PosixPath.join (configdir host) "client.conf")).
  { rewrite <- (lookup_path_same_fs w wb _ Hcb Hfb).
    apply (generate_config_file_beside host (configdir host) "server.conf"
             "client.conf" (SERVER_CONFIG_ARGS host) known' false wb w2);
      try assumption.
    - rewrite Hcb. exact Hcwd.
    - discriminate. }
  assert (Hcwd2 : isabs (cwd w2) = true).
  { pose proof (generate_config_file_keeps host
                  (PosixPath.join (configdir host) "server.conf")
                  (SERVER_CONFIG_ARGS host) known' false wb) as [[E _] _].
    rewrite Hserver in E. cbn [snd] in E. rewrite E, Hcb. exact Hcwd. }
  exists known, known', ls.
  split; [exact Hget|]. split; [exact Hknown'|]. split; [exact Hls|].
  rewrite (bind_eq _ _ _ _ _ (path_exists_eq _ w2)) in Hrun.
  destruct (bool_decide (is_Some (lookup_path w2
              (PosixPath.join (configdir host) "client.conf")))) eqn:Hc.
  - injection Hrun as <-. apply bool_decide_eq_true in Hc.
    split; [exact Hfile|]. split.
    + intros Hcn. rewrite Hclient2, Hcn in Hc. destruct Hc. discriminate.
    + intros _. exact Hclient2.
  - apply bool_decide_eq_false in Hc.
    split; [|split].
    + rewrite <- Hfile.
      apply (generate_config_file_beside host (configdir host) "client.conf"
               "server.conf" (CLIENT_CONFIG_ARGS host)
               (server_to_client_config known') false w2 w1 Hcwd2);
        try assumption. discriminate.
    + intros _.
      assert (Hcn : lookup_path w2 (PosixPath.join (configdir host) "client.conf")
                    = None).
      { destruct (lookup_path w2 _); [exfalso; apply Hc; eauto | reflexivity]. }
      exact (generate_config_file_result _ _ _ _ _ _ _ Hrun (or_intror Hcn)).
    + intros Hex. exfalso. apply Hc. rewrite Hclient2. exact Hex.
Qed.

End FirstRun.

(** ** What bootstrap prints *)

Section Progress.
Import PyStr OS Setup.
Variable host : Host.

Lemma remove_frame p w : same_process w (snd (remove p w)).
Proof.
  unfold remove. destruct (resolve w p) as [q|]; [|apply same_process_refl].
  destruct (node_at w q) as [[m b|m]|]; cbn [snd];
    [apply same_process_set_fs | apply same_process_refl | apply same_process_refl].
Qed.

Lemma rename_frame src dst w : same_process w (snd (rename src dst w)).
Proof.
  unfold rename.
  destruct (resolve w src) as [qs|], (resolve w dst) as [qd|];
    try apply same_process_refl.
  destruct (node_at w qs) as [[m b|m]|]; try apply same_process_refl.
  destruct (node_at w qd) as [[m' b'|m']|]; try apply same_process_refl;
    destruct (parent_ready w qd); cbn [snd];
    first [apply same_process_refl | apply same_process_set_fs].
Qed.

Lemma shutil_move_frame src dst w : same_process w (snd (shutil_move src dst w)).
Proof.
  unfold shutil_move.
  apply (bind_keeps same_process); [apply same_process_trans | apply same_process_refl |].
  intros into w1. destruct into; [|apply rename_frame].
  apply (bind_keeps same_process); [apply same_process_trans | apply same_process_refl |].
  intros taken w2. destruct taken; [apply same_process_refl | apply rename_frame].
Qed.

Lemma tarfile_open_frame p w : same_process w (snd (tarfile_open p w)).
Proof.
  unfold tarfile_open.
  apply (bind_keeps same_process); [apply same_process_trans | |].
  - unfold read_file. destruct (lookup_path w p) as [[m b|m]|]; apply same_process_refl.
  - intros c w1. destruct c; apply same_process_refl.
Qed.

Lemma urlretrieve_frame url filename w :
  same_process w (snd (urlretrieve host url filename w)).
Proof.
  unfold urlretrieve. destruct (urlopen host url);
    [apply write_file_frame | apply same_process_refl].
Qed.

Lemma extract_member_frame path m w : same_process w (snd (extract_member path m w)).
Proof.
  unfold extract_member.
  apply (bind_keeps same_process); [apply same_process_trans | apply same_process_refl |].
  intros have w1.
  apply (bind_keeps same_process); [apply same_process_trans | |].
  - destruct (_ && _); [apply makedirs_frame | apply same_process_refl].
  - intros _ w2.
    apply (bind_keeps same_process);
      [apply same_process_trans | apply write_file_frame |].
    intros _ w3. apply chmod_frame.
Qed.

Lemma extractall_frame path members w :
  same_process w (snd (extractall path members w)).
Proof.
  revert w. induction members as [|m rest IH]; intros w; [apply same_process_refl|].
  cbn [extractall].
  apply (bind_keeps same_process);
    [apply same_process_trans | apply extract_member_frame |].
  intros _ w1. apply IH.
Qed.

Lemma safe_extract_frame tar path w : same_process w (snd (safe_extract tar path w)).
Proof.
  unfold safe_extract.
  apply (bind_keeps same_process); [apply same_process_trans | |].
  - rewrite check_members_pure. apply same_process_refl.
  - intros _ w1. apply extractall_frame.
Qed.

(** A step that succeeds and keeps the process as it is. *)
Lemma step_frame {A} (m : M A) w a w1 :
  (∀ w, same_process w (snd (m w))) → m w = (inr a, w1) → same_process w w1.
Proof. intros Hm Hrun. specialize (Hm w). rewrite Hrun in Hm. exact Hm. Qed.

Lemma step_print line w u w1 :
  print line w = (inr u, w1) →
  cwd w1 = cwd w ∧ umask w1 = umask w ∧ stdin w1 = stdin w
  ∧ stdout w1 = (stdout w ++ [line])%list ∧ urandom_calls w1 = urandom_calls w.
Proof. unfold print. intros H. injection H as _ <-. repeat split. Qed.

(** X18. A run of [bootstrap] with its default arguments that returns
    has printed its six progress lines, in the order of the steps, after
    whatever was on standard output, each naming the address or the
    database it is about; it has read nothing from standard input, drawn
    no random bytes, and is in the directory and under the umask it
    started with. *)
Theorem bootstrap_prints_its_progress w w1 :
  bootstrap host true false w = (inr tt, w1) →
  stdout w1
  = (stdout w
     ++ [ ("Downloading mainnet database from " ++ bootstrap_url ++ "…")%string;
          "Extracting…";
          ("Copying metronotesd.9.db to "
             ++ PosixPath.join (data_dir host) (APP_NAME host ++ ".db") ++ "…")%string;
          ("Downloading testnet database from " ++ bootstrap_url_testnet
             ++ "…")%string;
          "Extracting…";
          ("Copying metronotesd.9.testnet.db to "
             ++ PosixPath.join (data_dir host) (APP_NAME host ++ ".testnet.db")
             ++ "…")%string ])%list
  ∧ stdin w1 = stdin w ∧ urandom_calls w1 = urandom_calls w
  ∧ cwd w1 = cwd w ∧ umask w1 = umask w.
Proof.
  unfold bootstrap. intros Hrun.
  apply bind_ok in Hrun as ([] & wd & Hdir & Hrun).
  apply (step_frame _ _ _ _ (ensure_data_dir_frame host)) in Hdir
    as (Hc0 & Hu0 & Hi0 & Ho0 & Hr0).
  cbn [negb] in Hrun. unfold bind at 1 in Hrun. cbn [ret] in Hrun.
  unfold bind at 1 in Hrun. cbn [ret] in Hrun.
  unfold download_and_install in Hrun.
  apply bind_ok in Hrun as (? & w2 & H1 & Hrun). apply step_print in H1.
  apply bind_ok in Hrun as (? & w3 & H2 & Hrun).
  apply (step_frame _ _ _ _ (urlretrieve_frame _ _)) in H2.
  apply bind_ok in Hrun as (? & w4 & H3 & Hrun). apply step_print in H3.
  apply bind_ok in Hrun as (tar1 & w5 & H4 & Hrun).
  apply (step_frame _ _ _ _ (tarfile_open_frame _)) in H4.
  apply bind_ok in Hrun as (? & w6 & H5 & Hrun).
  apply (step_frame _ _ _ _ (safe_extract_frame _ _)) in H5.
  apply bind_ok in Hrun as (? & w7 & H6 & Hrun). apply step_print in H6.
  apply bind_ok in Hrun as (? & w8 & H7 & Hrun).
  apply (step_frame _ _ _ _ (shutil_move_frame _ _)) in H7.
  apply bind_ok in Hrun as (? & w9 & H8 & Hrun).
  apply (step_frame _ _ _ _ (chmod_frame _ _)) in H8.
  apply bind_ok in Hrun as (? & w10 & H9 & Hrun). apply step_print in H9.
  apply bind_ok in Hrun as (? & w11 & H10 & Hrun).
  apply (step_frame _ _ _ _ (urlretrieve_frame _ _)) in H10.
  apply bind_ok in Hrun as (? & w12 & H11 & Hrun). apply step_print in H11.
  apply bind_ok in Hrun as (tar2 & w13 & H12 & Hrun).
  apply (step_frame _ _ _ _ (tarfile_open_frame _)) in H12.
  apply bind_ok in Hrun as (? & w14 & H13 & Hrun).
  apply (step_frame _ _ _ _ (safe_extract_frame _ _)) in H13.
  apply bind_ok in Hrun as (? & w15 & H14 & Hrun). apply step_print in H14.
  apply bind_ok in Hrun as (? & w16 & H15 & Hrun).
  apply (step_frame _ _ _ _ (shutil_move_frame _ _)) in H15.
  apply bind_ok in Hrun as (? & w17 & H16 & Hrun).
  apply (step_frame _ _ _ _ (chmod_frame _ _)) in H16.
  apply bind_ok in Hrun as (? & w18 & H17 & Hrun).
  apply (step_frame _ _ _ _ (remove_frame _)) in H17.
  apply bind_ok in Hrun as (? & w19 & H18 & Hrun).
  apply (step_frame _ _ _ _ (remove_frame _)) in H18.
  apply (step_frame _ _ _ _ (remove_frame _)) in Hrun.
  unfold same_process in *.
  repeat match goal with H : _ ∧ _ |- _ => destruct H end.
  split; [|repeat split; congruence].
  change (stdout w ++ _)%list with
    (stdout w
     ++ [("Downloading mainnet database from " ++ bootstrap_url ++ "…")%string]
     ++ ["Extracting…"]
     ++ [("Copying metronotesd.9.db to "
           ++ PosixPath.join (data_dir host) (APP_NAME host ++ ".db") ++ "…")%string]
     ++ [("Downloading testnet database from " ++ bootstrap_url_testnet
           ++ "…")%string]
     ++ ["Extracting…"]
     ++ [("Copying metronotesd.9.testnet.db to "
           ++ PosixPath.join (data_dir host) (APP_NAME host ++ ".testnet.db")
           ++ "…")%string])%list.
  rewrite !app_assoc. congruence.
Qed.

End Progress.

(** ** A declined bootstrap *)

Section Declined.
Import PyStr OS Setup.
Variable host : Host.










End Declined.

(** ** The credential *)

Section Credential.
Import PyStr PosixPath OS Setup.
Variable host : Host.

(** A call of [generate_config_file] stays in the same process. *)
Lemma generate_config_file_frame filename config_args known_config overwrite w w1 :
  generate_config_file host filename config_args known_config overwrite w = (inr tt, w1) →
  same_process w w1.
Proof.
  intros Hrun.
  pose proof (generate_config_file_keeps host filename config_args known_config
                overwrite w) as [Hsame _].
  rewrite Hrun in Hsame. exact Hsame.
Qed.

(** C3. A run that finds no server configuration file and returns has
    completed the known config before writing it: without ['rpc-password']
    the key is set to the hex encoding of the digest of sixteen bytes drawn
    from [os.urandom], drawn once; with the key, nothing is drawn.  The
    completed config is what [server.conf] holds afterwards, and from then
    on a run returns at once and changes nothing, so nothing is drawn
    again.  A run that finds the file returns at once: no source is probed,
    nothing is drawn and the world is as it was. *)
Theorem rpc_password_generated_on_first_run_only w :
  (∀ w1,
     isabs (cwd w) = true →
     lookup_path w (PosixPath.join (configdir host) "server.conf") = None →
     generate_config_files host w = (inr tt, w1) →
     ∃ known known' ls,
       get_server_known_config host w = (inr known, w)
       ∧ (known !! "rpc-password" = None →
          known' = <["rpc-password" :=
                       VStr (hexlify host
                               (dhash host (urandom host (urandom_calls w) 16)))]>
                     known
          ∧ urandom_calls w1 = S (urandom_calls w))
       ∧ (is_Some (known !! "rpc-password") →
          known' = known ∧ urandom_calls w1 = urandom_calls w)
       ∧ config_lines host (SERVER_CONFIG_ARGS host) known' = inr ls
       ∧ lookup_path w1 (PosixPath.join (configdir host) "server.conf")
         = Some (File (oct 6 6 0) (Text (PyStr.join newline ls)))
       ∧ generate_config_files host w1 = (inr tt, w1))
  ∧ (is_Some (lookup_path w (PosixPath.join (configdir host) "server.conf")) →
     generate_config_files host w = (inr tt, w)).
Proof.
  split; [|apply generate_config_files_skip].
  intros w1 Hcwd Hnone Hrun. unfold generate_config_files in Hrun.
  rewrite (bind_eq _ _ _ _ _ (path_exists_eq _ w)) in Hrun.
  rewrite bool_decide_false in Hrun by (rewrite Hnone; intros [? ?]; discriminate).
  apply bind_ok in Hrun as (known & wa & Hget & Hrun).
  pose proof (get_server_known_config_pure host w) as Hpure.
  rewrite Hget in Hpure. cbn [snd] in Hpure. subst wa.
  apply bind_ok in Hrun as (known' & wb & Hens & Hrun).
  unfold write_config_files in Hrun.
  apply bind_ok in Hrun as ([] & w2 & Hserver & Hrun).
  assert (Hwb : cwd wb = cwd w ∧ fs wb = fs w
                ∧ (known !! "rpc-password" = None →
                   known' = <["rpc-password" :=
                                VStr (hexlify host
                                  (dhash host (urandom host (urandom_calls w) 16)))]>
                              known
                   ∧ urandom_calls wb = S (urandom_calls w))
                ∧ (is_Some (known !! "rpc-password") →
                   known' = known ∧ urandom_calls wb = urandom_calls w)).
  { unfold ensure_rpc_password in Hens. destruct (known !! "rpc-password") eqn:Hk.
    - injection Hens as <- <-. split; [reflexivity|]. split; [reflexivity|].
      split; [discriminate | auto].
    - unfold bind in Hens. rewrite os_urandom_eq in Hens. injection Hens as <- <-.
      split; [reflexivity|]. split; [reflexivity|].
      split; [auto | intros [? ?]; discriminate]. }
  destruct Hwb as (Hcb & Hfb & Hdrawn & Hkept).
  assert (Hnone_b : lookup_path wb (PosixPath.join (configdir host) "server.conf")
                    = None).
  { rewrite (lookup_path_same_fs w wb) by assumption. exact Hnone. }
  destruct (generate_config_file_result _ _ _ _ _ _ _ Hserver (or_intror Hnone_b))
    as (ls & Hls & Hfile).
  pose proof (generate_config_file_frame _ _ _ _ _ _ Hserver)
    as (Hc2 & _ & _ & _ & Hr2).
  assert (Hlast : lookup_path w1 (PosixPath.join (configdir host) "server.conf")
                  = Some (File (oct 6 6 0) (Text (PyStr.join newline ls)))
                  ∧ urandom_calls w1 = urandom_calls wb).
  { rewrite (bind_eq _ _ _ _ _ (path_exists_eq _ w2)) in Hrun.
    destruct (bool_decide _).
    - injection Hrun as <-. auto.
    - pose proof (generate_config_file_frame _ _ _ _ _ _ Hrun)
        as (_ & _ & _ & _ & Hr1).
      split; [|congruence]. rewrite <- Hfile.
      apply (generate_config_file_beside host (configdir host) "client.conf"
               "server.conf" (CLIENT_CONFIG_ARGS host)
               (server_to_client_config known') false w2 w1);
        try (repeat split; discriminate); [|exact Hrun].
      rewrite Hc2, Hcb. exact Hcwd. }
  destruct Hlast as [Hlast Hcalls].
  exists known, known', ls. split; [exact Hget|].
  split; [intros Hk; destruct (Hdrawn Hk); split; congruence|].
  split; [intros Hk; destruct (Hkept Hk); split; congruence|].
  split; [exact Hls|]. split; [exact Hlast|].
  apply generate_config_files_skip. rewrite Hlast. eauto.
Qed.

End Credential.

(** ** Runs of the credential and of a declined bootstrap *)

Section ClaimRuns.
Import PyStr OS Setup.

Lemma rpc_password_generated_on_first_run_only_witness :
  urandom_calls Demo.configured = 1%nat
  ∧ (∃ ls,
       lookup_path Demo.configured "/home/u/.config/metronotes/server.conf"
       = Some (File (oct 6 6 0) (Text (join newline ls)))
       ∧ ls !! 15%nat = Some "rpc-password = 2a2a2a2a2a2a2a2a2a2a2a2a2a2a2a2a")
  ∧ generate_config_files Demo.host Demo.configured = (inr tt, Demo.configured)
  ∧ generate_config_files Demo.host Demo.later_run = (inr tt, Demo.later_run).
Proof.
  assert (Hcwd : PosixPath.isabs (cwd Demo.first_run) = true) by reflexivity.
  assert (Hnone : lookup_path Demo.first_run
                    (PosixPath.join (configdir Demo.host) "server.conf") = None)
    by (vm_compute; reflexivity).
  assert (Hrun : generate_config_files Demo.host Demo.first_run
                 = (inr tt, Demo.configured)) by (vm_compute; reflexivity).
  destruct (rpc_password_generated_on_first_run_only Demo.host Demo.first_run)
    as [Hfirst _].
  destruct (rpc_password_generated_on_first_run_only Demo.host Demo.later_run)
    as [_ Hlater].
  destruct (Hfirst _ Hcwd Hnone Hrun)
    as (known & known' & ls & Hget & Hdrawn & _ & Hls & Hfile & Hagain).
  assert (Hget' : get_server_known_config Demo.host Demo.first_run
                  = (inr Demo.first_known, Demo.first_run))
    by (vm_compute; reflexivity).
  rewrite Hget' in Hget. injection Hget as <-.
  destruct Hdrawn as [-> Hcalls]; [vm_compute; reflexivity|].
  split; [exact Hcalls|]. split; [|split; [exact Hagain|]].
  - exists ls. split; [exact Hfile|].
    vm_compute in Hls. injection Hls as <-. reflexivity.
  - apply Hlater. vm_compute. eauto.
Defined.


End ClaimRuns.

(** ** Runs of the further properties *)

Section Runs.
Import PyStr OS Setup.

Lemma generate_config_file_touches_only_the_file_witness :
  ∃ lines,
    fs (snd Demo.rendered) !! "/tmp/x/conf/server.conf"
    = Some (File (oct 6 6 0) (Text (join newline lines)))
    ∧ fs (snd Demo.rendered) !! "/tmp/x" = Some (Dir (oct 7 5 5))
    ∧ same_process (Demo.asked "n") (snd Demo.rendered).
Proof.
  assert (Hrun : generate_config_file Demo.host "conf/server.conf" Demo.server_args
                   ∅ false (Demo.asked "n") = (inr tt, snd Demo.rendered))
    by (vm_compute; reflexivity).
  assert (Hnew : lookup_path (Demo.asked "n") "conf/server.conf" = None)
    by (vm_compute; reflexivity).
  destruct (generate_config_file_touches_only_the_file Demo.host _ _ _ _ _ _
              Hrun (or_intror Hnew))
    as (q & lines & Hq & _ & Hfile & Hothers & _ & Hsame).
  assert (Hq' : q = "/tmp/x/conf/server.conf").
  { vm_compute in Hq. injection Hq as <-. reflexivity. }
  subst q. exists lines. split; [exact Hfile|]. split; [|exact Hsame].
  destruct (Hothers "/tmp/x") as [E | [N _]]; [discriminate | |].
  - rewrite E. vm_compute. reflexivity.
  - vm_compute in N. discriminate.
Defined.

Lemma generate_config_file_bad_schema_writes_no_file_witness :
  generate_config_file Demo.host "/tmp/x/server.conf" Demo.schema_without_help ∅
    false (Demo.asked "n")
  = (inl (KeyError "help"), Demo.asked "n").
Proof.
  assert (Hbad : config_lines Demo.host Demo.schema_without_help ∅
                 = inl (KeyError "help")) by (vm_compute; reflexivity).
  assert (Hnew : lookup_path (Demo.asked "n") "/tmp/x/server.conf" = None)
    by (vm_compute; reflexivity).
  destruct (generate_config_file_bad_schema_writes_no_file Demo.host
              "/tmp/x/server.conf" Demo.schema_without_help ∅ false (Demo.asked "n")
              (KeyError "help") Hbad (or_intror Hnew))
    as (e' & w' & Hrun & _ & _ & Hthere).
  destruct Hthere as [-> ->]; [vm_compute; eauto | exact Hrun].
Defined.

Lemma config_lines_shape_witness :
  ∃ lines,
    config_lines Demo.host Demo.server_args Demo.first_known = inr lines
    ∧ length lines = 17%nat.
Proof.
  destruct (config_lines_shape Demo.host Demo.server_args Demo.first_known)
    as (Hok & _ & Hall).
  destruct Hall as [lines Hl].
  { repeat constructor; first [discriminate | eauto]. }
  exists lines. split; [exact Hl|]. exact (proj1 (proj2 (Hok lines Hl))).
Defined.

Lemma config_lines_ignores_unknown_keys_witness :
  config_lines Demo.host Demo.server_args Demo.first_known
  = config_lines Demo.host Demo.server_args
      (<["wallet-port" := VStr "8332"]> Demo.first_known).
Proof.
  apply (config_lines_ignores_unknown_keys Demo.host).
  intros arg key Hin Hkey. unfold Demo.server_args in Hin.
  repeat (apply elem_of_cons in Hin as [-> | Hin];
          [vm_compute in Hkey; injection Hkey as <-; vm_compute; reflexivity|]).
  apply not_elem_of_nil in Hin. contradiction.
Defined.

Lemma extract_old_config_renames_witness :
  ∃ old_config,
    extract_old_config Demo.host Demo.first_run = (inr old_config, Demo.first_run)
    ∧ old_config !! "backend-port" = Some (VStr "8333").
Proof.
  pose proof (extract_old_config_renames Demo.host Demo.first_run) as H.
  cbv zeta in H. destruct H as (_ & _ & _ & Hfile).
  destruct (Hfile (oct 6 0 0) Demo.legacy_conf Demo.legacy_sections)
    as (old_config & Hrun & _ & Hitems).
  - vm_compute. reflexivity.
  - reflexivity.
  - exists old_config. split; [exact Hrun|].
    apply (Hitems [("backend-rpc-port", "8333")]); [reflexivity|].
    exists [], "backend-rpc-port", "8333", [].
    split; [reflexivity|]. split; [vm_compute; reflexivity|].
    split; [vm_compute; reflexivity|].
    intros key2 v2 Hin. apply not_elem_of_nil in Hin. contradiction.
Defined.

Lemma get_server_known_config_reads_only_witness :
  snd (get_server_known_config Demo.host Demo.first_run) = Demo.first_run
  ∧ ∃ s, Demo.first_known !! "backend-user" = Some (VStr s).
Proof.
  destruct (get_server_known_config_reads_only Demo.host Demo.first_run)
    as [Hpure Hstr].
  split; [exact Hpure|].
  destruct (Hstr Demo.first_known "backend-user" (VStr "alice")) as [s Hs];
    [vm_compute; reflexivity | vm_compute; reflexivity |].
  exists s. rewrite <- Hs. vm_compute. reflexivity.
Defined.

Lemma resolved_config_keys_witness :
  ∃ resolved,
    get_server_known_config Demo.host Demo.first_run = (inr resolved, Demo.first_run)
    ∧ resolved !! "rpc-password" = None
    ∧ resolved !! "backend-port" = Some (VStr "8333").
Proof.
  destruct (resolved_config_keys Demo.host Demo.first_run Demo.first_run
              Demo.first_run Demo.first_foreign Demo.first_legacy)
    as (r & Hr & Hnone & Hold).
  - vm_compute. reflexivity.
  - vm_compute. reflexivity.
  - exists r. split; [exact Hr|]. split.
    + apply Hnone. split; vm_compute; reflexivity.
    + apply Hold. vm_compute. reflexivity.
Defined.

Lemma generate_config_files_probe_error_witness :
  generate_config_files Demo.host Demo.conf_is_directory
  = (inl (IsADirectoryError "/home/u/.bitcoin/bitcoin.conf"), Demo.conf_is_directory).
Proof.
  apply (generate_config_files_probe_error Demo.host).
  - vm_compute. reflexivity.
  - vm_compute. reflexivity.
Defined.

Lemma generate_config_files_settles_witness :
  generate_config_files Demo.host Demo.configured = (inr tt, Demo.configured)
  ∧ is_Some (lookup_path Demo.configured "/home/u/.config/metronotes/client.conf").
Proof.
  assert (Hrun : generate_config_files Demo.host Demo.first_run
                 = (inr tt, Demo.configured)) by (vm_compute; reflexivity).
  destruct (generate_config_files_settles Demo.host _ _ Hrun) as (Hagain & _ & Hclient).
  split; [exact Hagain|]. apply Hclient. vm_compute. reflexivity.
Defined.

Lemma bootstrap_skips_installed_database_witness :
  bootstrap Demo.host false true Demo.installed = (inr tt, Demo.installed).
Proof.
  apply (bootstrap_skips_installed_database Demo.host); vm_compute; eauto.
Defined.

Lemma bootstrap_stops_at_hostile_archive_witness :
  ∃ e w1,
    bootstrap Demo.hostile_host true false (Demo.asked "n") = (inl e, w1)
    ∧ fs w1 !! "/etc/passwd" = None
    ∧ fs w1 !! "/tmp/x/metronotesd.9.db" = None.
Proof.
  destruct (bootstrap_stops_at_hostile_archive Demo.hostile_host (Demo.asked "n")
              (snd (ensure_data_dir Demo.hostile_host (Demo.asked "n")))
              Demo.hostile_archive
              (Member "../../etc/passwd" (oct 6 4 4) "root::0:0::/:/bin/sh"))
    as (e & w1 & Hrun & Hother & _).
  - vm_compute. reflexivity.
  - reflexivity.
  - unfold Demo.hostile_archive. apply elem_of_cons. right.
    apply elem_of_cons. left. reflexivity.
  - vm_compute. reflexivity.
  - exists e, w1. split; [exact Hrun|]. split.
    + rewrite Hother by (vm_compute; discriminate). vm_compute. reflexivity.
    + rewrite Hother by (vm_compute; discriminate). vm_compute. reflexivity.
Defined.

Lemma bootstrap_leaves_no_temporary_file_witness :
  lookup_path Demo.bootstrapped "metronotesd-db.latest.tar.gz" = None
  ∧ lookup_path Demo.bootstrapped "metronotesd-testnet-db.latest.tar.gz" = None
  ∧ lookup_path Demo.bootstrapped "checksums.txt" = None.
Proof.
  apply (bootstrap_leaves_no_temporary_file Demo.host (Demo.asked "n")).
  vm_compute. reflexivity.
Defined.

Lemma conf_line_cuts_at_first_equals_witness :
  conf_line ∅ "rpcpassword = a=b" !! "rpcpassword" = Some "a=b"
  ∧ conf_line ∅ ("rpcuser=alice" ++ String "194" (String "160" EmptyString))
      !! "rpcuser" = Some "alice".
Proof.
  split.
  - apply (proj2 (conf_line_cuts_at_first_equals ∅ "rpcpassword " " a=b"
                    ltac:(reflexivity) ltac:(reflexivity))).
  - apply (proj2 (conf_line_cuts_at_first_equals ∅ "rpcuser"
                    ("alice" ++ String "194" (String "160" EmptyString))
                    ltac:(reflexivity) ltac:(reflexivity))).
Defined.

Lemma generate_config_files_first_run_witness :
  ∃ ls lc,
    lookup_path Demo.configured "/home/u/.config/metronotes/server.conf"
    = Some (File (oct 6 6 0) (Text (join newline ls)))
    ∧ lookup_path Demo.configured "/home/u/.config/metronotes/client.conf"
      = Some (File (oct 6 6 0) (Text (join newline lc)))
    ∧ ls !! 15%nat = Some "rpc-password = 2a2a2a2a2a2a2a2a2a2a2a2a2a2a2a2a"
    ∧ lc !! 9%nat = Some "metronotes-rpc-password = 2a2a2a2a2a2a2a2a2a2a2a2a2a2a2a2a".
Proof.
  assert (Hcwd : PosixPath.isabs (cwd Demo.first_run) = true) by reflexivity.
  assert (Hnone : lookup_path Demo.first_run
                    (PosixPath.join (configdir Demo.host) "server.conf") = None)
    by (vm_compute; reflexivity).
  assert (Hrun : generate_config_files Demo.host Demo.first_run
                 = (inr tt, Demo.configured)) by (vm_compute; reflexivity).
  destruct (generate_config_files_first_run Demo.host _ _ Hcwd Hnone Hrun)
    as (known & known' & ls & Hget & Hknown' & Hls & Hserver & Hclient & _).
  assert (Hget' : get_server_known_config Demo.host Demo.first_run
                  = (inr Demo.first_known, Demo.first_run))
    by (vm_compute; reflexivity).
  rewrite Hget' in Hget. injection Hget as <-.
  destruct Hclient as (lc & Hlc & Hclient); [vm_compute; reflexivity|].
  subst known'. exists ls, lc. split; [exact Hserver|]. split; [exact Hclient|].
  split.
  - vm_compute in Hls. injection Hls as <-. reflexivity.
  - vm_compute in Hlc. injection Hlc as <-. reflexivity.
Defined.

Lemma bootstrap_prints_its_progress_witness :
  length (stdout Demo.bootstrapped) = 6%nat
  ∧ stdout Demo.bootstrapped !! 1%nat = Some "Extracting…"
  ∧ stdin Demo.bootstrapped = ["n"].
Proof.
  assert (Hrun : bootstrap Demo.host true false (Demo.asked "n")
                 = (inr tt, Demo.bootstrapped)) by (vm_compute; reflexivity).
  destruct (bootstrap_prints_its_progress Demo.host _ _ Hrun) as (Hout & Hin & _).
  rewrite Hout, Hin. repeat split.
Defined.

End Runs.
